(** * The PerconaXtraDBBackup controller: reconciliation of backup requests

    A shallow embedding of
    [pkg/controller/perconaxtradbbackup/perconaxtradbbackup_controller.go]:
    [Add], [newReconciler], [add], [Reconcile], [getClusterConfig],
    [pvcStatus], [updateJobStatus] and [setControllerReference].

    The Kubernetes client is an oracle that answers each call from the
    history of the calls made so far; every call and every [time.Sleep] is
    recorded in that history, so that what a reconciliation fetched, created,
    wrote and slept can be read off the trace it leaves.  Logging is not
    modelled. *)

From Stdlib Require Import ZArith String Ascii List DecimalString Lia.
From stdpp Require Import base strings gmap.
Import ListNotations.

Open Scope string_scope.
Open Scope Z_scope.

(** ** Go's [time] package: durations and the layouts of [Time.Format] *)

(** [time.Duration] counts nanoseconds. *)
Definition Duration := Z.
Definition Second : Duration := 1000000000.

(** What [Format] reads of a [time.Time]: its calendar date and clock, in
    the location the value carries. *)
Record Time := mkTime {
  Year : Z; Month : Z; Day : Z;
  Hour : Z; Minute : Z; Sec : Z
}.

#[global] Instance Time_eq_dec : EqDecision Time.
Proof. solve_decision. Defined.

Definition digits (n : Z) : string :=
  NilZero.string_of_uint (N.to_uint (Z.to_N n)).

Fixpoint zeros (n : nat) : string :=
  match n with
  | O => ""
  | S k => "0" +:+ zeros k
  end.

(** [appendInt] of Go's time/format.go: the decimal form of [x] padded with
    zeros to at least [width] digits, after a minus sign when [x < 0]. *)
Definition appendInt (x : Z) (width : nat) : string :=
  let u := digits (Z.abs x) in
  (if x <? 0 then "-" else "") +:+ zeros (width - String.length u)%nat +:+ u.

Definition hour12 (h : Z) : Z :=
  let hr := h mod 12 in if hr =? 0 then 12 else hr.

(** [Time.Format] on the numeric chunks of a layout ([nextStdChunk]):
    2006 and 06 are the year, 01 and 1 the month, 02 and 2 the day of the
    month, 15 the hour, 03 and 3 the hour on a twelve hour clock, 04 and 4
    the minute, 05 and 5 the second.  Every other character is copied.  Names
    of months and days, time zones and fractions of a second do not occur in
    the controller's layout and are left out. *)
Fixpoint Format (t : Time) (layout : string) : string :=
  match layout with
  | EmptyString => ""
  | String "2" (String "0" (String "0" (String "6" rest))) =>
      appendInt (Year t) 4 +:+ Format t rest
  | String "0" (String "6" rest) =>
      appendInt (Z.abs (Year t) mod 100) 2 +:+ Format t rest
  | String "0" (String "1" rest) => appendInt (Month t) 2 +:+ Format t rest
  | String "0" (String "2" rest) => appendInt (Day t) 2 +:+ Format t rest
  | String "0" (String "3" rest) => appendInt (hour12 (Hour t)) 2 +:+ Format t rest
  | String "0" (String "4" rest) => appendInt (Minute t) 2 +:+ Format t rest
  | String "0" (String "5" rest) => appendInt (Sec t) 2 +:+ Format t rest
  | String "1" (String "5" rest) => appendInt (Hour t) 2 +:+ Format t rest
  | String "1" rest => appendInt (Month t) 0 +:+ Format t rest
  | String "2" rest => appendInt (Day t) 0 +:+ Format t rest
  | String "3" rest => appendInt (hour12 (Hour t)) 0 +:+ Format t rest
  | String "4" rest => appendInt (Minute t) 0 +:+ Format t rest
  | String "5" rest => appendInt (Sec t) 0 +:+ Format t rest
  | String c rest => String c (Format t rest)
  end.

(** [strings.HasPrefix s prefix]. *)
Definition HasPrefix (s prefix : string) : bool := String.prefix prefix s.

(** [strings.TrimPrefix s prefix]. *)
Definition TrimPrefix (s prefix : string) : string :=
  if HasPrefix s prefix
  then String.substring (String.length prefix)
         (String.length s - String.length prefix)%nat s
  else s.

(** The number of places of [s] at which [substr] starts.  Two places at
    which s3:// starts cannot overlap, so for it this is [strings.Count]. *)
Fixpoint occurrences (substr s : string) : nat :=
  match s with
  | EmptyString => O
  | String _ rest =>
      ((if HasPrefix s substr then 1 else 0) + occurrences substr rest)%nat
  end.

(** [s] has no character [c]. *)
Fixpoint avoids (c : ascii) (s : string) : Prop :=
  match s with
  | EmptyString => True
  | String a rest => a <> c /\ avoids c rest
  end.

(** ** Errors *)

(** [metav1.StatusReason], as far as the controller tells reasons apart. *)
Inductive StatusReason :=
| StatusReasonNotFound
| StatusReasonAlreadyExists
| StatusReasonOther (reason : string).

(** An argument handed to [fmt.Errorf]. *)
Inductive FmtArg (E : Type) :=
| ArgString (s : string)
| ArgStrings (l : list string)
| ArgError (e : E).
Arguments ArgString {E} s.
Arguments ArgStrings {E} l.
Arguments ArgError {E} e.

#[local] Set Warnings "-register-all".

(** A Go [error]: a status error of the API machinery, or the value built by
    [fmt.Errorf format args...], kept with its format and its arguments. *)
Inductive GoError :=
| StatusError (reason : StatusReason) (message : string)
| Errorf (format : string) (args : list (FmtArg GoError)).

(** [errors.IsNotFound] and [errors.IsAlreadyExists] look at the reason of a
    status error; an error made by [fmt.Errorf] has none. *)
Definition IsNotFound (err : GoError) : bool :=
  match err with
  | StatusError StatusReasonNotFound _ => true
  | _ => false
  end.

Definition IsAlreadyExists (err : GoError) : bool :=
  match err with
  | StatusError StatusReasonAlreadyExists _ => true
  | _ => false
  end.

(** ** Kubernetes objects *)

Record NamespacedName := mkNamespacedName {
  key_Namespace : string;
  key_Name : string
}.

Record OwnerReference := mkOwnerReference {
  APIVersion : string;
  Kind : string;
  owner_Name : string;
  UID : string;
  Controller : bool
}.

Record ObjectMeta := mkObjectMeta {
  Name : string;
  Namespace : string;
  CreationTimestamp : Time;
  OwnerReferences : list OwnerReference
}.

Definition keyOf (m : ObjectMeta) : NamespacedName :=
  {| key_Namespace := Namespace m; key_Name := Name m |}.

(** [reconcile.Request] and [reconcile.Result]. *)
Record Request := mkRequest { req_NamespacedName : NamespacedName }.

Record Result := mkResult {
  Requeue : bool;
  RequeueAfter : Duration
}.

(** The zero value [reconcile.Result{}]. *)
Definition noResult : Result := {| Requeue := false; RequeueAfter := 0 |}.

(** *** The backup request, [api.PerconaXtraDBBackup] *)

Record PXCBackupSpec := mkPXCBackupSpec {
  PXCCluster : string;
  StorageName : string
}.

(** [api.PXCBackupState] is a string type declared with the API types; the
    controller uses four of its constants, which are distinct.  Any other
    value, the empty state of a new request among them, is
    [BackupStateOther]. *)
Inductive PXCBackupState :=
| BackupStarting
| BackupRunning
| BackupFailed
| BackupSucceeded
| BackupStateOther (s : string).

Record BackupStorageS3Spec := mkBackupStorageS3Spec {
  Bucket : string;
  CredentialsSecret : string;
  Region : string;
  EndpointURL : string
}.

Record PXCBackupStatus := mkPXCBackupStatus {
  State : PXCBackupState;
  CompletedAt : option Time;
  Destination : string;
  status_StorageName : string;
  status_S3 : option BackupStorageS3Spec
}.

Record PerconaXtraDBBackup := mkPerconaXtraDBBackup {
  bcp_ObjectMeta : ObjectMeta;
  bcp_Spec : PXCBackupSpec;
  bcp_Status : PXCBackupStatus
}.

#[global] Instance PXCBackupState_eq_dec : EqDecision PXCBackupState.
Proof. solve_decision. Defined.
#[global] Instance BackupStorageS3Spec_eq_dec : EqDecision BackupStorageS3Spec.
Proof. solve_decision. Defined.
(** [reflect.DeepEqual] on two statuses: equality field by field, through
    the pointers. *)
#[global] Instance PXCBackupStatus_eq_dec : EqDecision PXCBackupStatus.
Proof. solve_decision. Defined.

(** *** [batchv1.JobStatus] and the phases of a claim *)

Record JobStatus := mkJobStatus {
  Active : Z;
  Succeeded : Z;
  Failed : Z;
  CompletionTime : option Time
}.

(** [VolumeStatus] describes the status of the backup PVC. *)
Definition VolumeStatus := string.
Definition VolumeUndefined : VolumeStatus := "Undefined".
Definition VolumeBound : VolumeStatus := "Bound".
Definition VolumePending : VolumeStatus := "Pending".
Definition VolumeLost : VolumeStatus := "Lost".

(** [api.BackupStorageType], a string type with two constants the
    controller dispatches on. *)
Inductive BackupStorageType :=
| BackupStorageFilesystem
| BackupStorageS3
| BackupStorageOther (s : string).

(** ** The effects of a reconciliation *)

(** How a step of a function body ends: with a value for the rest of the
    body, with a [return] from the function, or with a run time panic. *)
Inductive Exit (R A : Type) :=
| Next (a : A)
| Return (r : R)
| Panic.
Arguments Next {R A} a.
Arguments Return {R A} r.
Arguments Panic {R A}.

(** How a call ends. *)
Inductive Outcome (R : Type) :=
| Returned (r : R)
| Panicked.
Arguments Returned {R} r.
Arguments Panicked {R}.

Section Effects.
(** [Ev] is the type of the recorded effects; a history lists them, the
    latest first. *)
Context {Ev : Type}.

Definition M (R A : Type) : Type := list Ev -> Exit R A * list Ev.

Definition ret {R A} (a : A) : M R A := fun tr => (Next a, tr).

Definition bind {R A B} (m : M R A) (k : A -> M R B) : M R B :=
  fun tr =>
    match m tr with
    | (Next a, tr') => k a tr'
    | (Return r, tr') => (Return r, tr')
    | (Panic, tr') => (Panic, tr')
    end.

(** [return r] in the middle of a body. *)
Definition Return_ {R A} (r : R) : M R A := fun tr => (Return r, tr).

Definition panic {R A} : M R A := fun tr => (Panic, tr).

(** An effect [ev] whose answer the environment gives from the history
    before it. *)
Definition perform {R A} (ev : Ev) (answer : list Ev -> A) : M R A :=
  fun tr => (Next (answer tr), ev :: tr).

(** A whole function body, run from a history. *)
Definition exec {R} (body : M R R) (tr : list Ev) : Outcome R * list Ev :=
  match body tr with
  | (Next r, tr') => (Returned r, tr')
  | (Return r, tr') => (Returned r, tr')
  | (Panic, tr') => (Panicked, tr')
  end.

(** A call of one function in the body of another. *)
Definition call {R R'} (body : M R' R') : M R R' :=
  fun tr =>
    match exec body tr with
    | (Returned r, tr') => (Next r, tr')
    | (Panicked, tr') => (Panic, tr')
    end.

(** [quiet Q m]: whatever the history, [m] adds to it effects that satisfy
    [Q], and nothing else. *)
Definition quiet (Q : Ev -> Prop) {R A} (m : M R A) : Prop :=
  forall h, exists added, snd (m h) = (added ++ h)%list /\ Forall Q added.

(** [early Q ok m]: moreover, when [m] returns from the function, it
    returns a result that satisfies [ok]. *)
Definition early (Q : Ev -> Prop) {R A} (ok : R -> Prop) (m : M R A) : Prop :=
  forall h, exists added,
    snd (m h) = (added ++ h)%list /\ Forall Q added
    /\ match fst (m h) with
       | Return res => ok res
       | _ => True
       end.

(** [yields Q post m]: [m] adds effects that satisfy [Q], and the value it
    hands to the rest of the body, when it does, satisfies [post]. *)
Definition yields (Q : Ev -> Prop) {R A} (post : A -> Prop) (m : M R A) : Prop :=
  forall h, exists added,
    snd (m h) = (added ++ h)%list /\ Forall Q added
    /\ forall a, fst (m h) = Next a -> post a.

(** [unpanicked post m]: [m] does not panic, and the value it hands to the
    rest of the body, when it does, satisfies [post]. *)
Definition unpanicked {R A} (post : A -> Prop) (m : M R A) : Prop :=
  forall h, match fst (m h) with
            | Next a => post a
            | Return _ => True
            | Panic => False
            end.
End Effects.

Declare Scope go_scope.
Delimit Scope go_scope with go.
Notation "x <- m ;; k" := (bind m (fun x => k))
  (at level 100, m at next level, right associativity) : go_scope.
Notation "m ;; k" := (bind m (fun _ => k))
  (at level 100, right associativity) : go_scope.

(** ** The controller *)

Section Controller.
(** [batchv1.JobSpec] and [corev1.PersistentVolumeClaimSpec] pass through
    the controller unread. *)
Context {JobSpec PersistentVolumeClaimSpec : Type}.

Record Job := mkJob {
  job_ObjectMeta : ObjectMeta;
  job_Spec : JobSpec;
  job_Status : JobStatus
}.

(** [Phase] is [pvc.Status.Phase]. *)
Record PersistentVolumeClaim := mkPersistentVolumeClaim {
  pvc_ObjectMeta : ObjectMeta;
  pvc_Spec : PersistentVolumeClaimSpec;
  Phase : string
}.

(** *** The cluster, [api.PerconaXtraDBCluster] *)

Record VolumeSpec := mkVolumeSpec {
  volume_PersistentVolumeClaim : option PersistentVolumeClaimSpec
}.

Record BackupStorageSpec := mkBackupStorageSpec {
  storage_Type : BackupStorageType;
  S3 : BackupStorageS3Spec;
  Volume : option VolumeSpec
}.

Record PXCScheduledBackup := mkPXCScheduledBackup {
  Image : string;
  Storages : gmap string BackupStorageSpec
}.

Record PerconaXtraDBClusterSpec := mkPerconaXtraDBClusterSpec {
  Backup : option PXCScheduledBackup
}.

Record PerconaXtraDBCluster := mkPerconaXtraDBCluster {
  cluster_ObjectMeta : ObjectMeta;
  cluster_Spec : PerconaXtraDBClusterSpec
}.

(** *** Effects and the client *)

Inductive Event :=
| EvGetBackup (key : NamespacedName)
| EvListClusters (namespace : string)
| EvSelectNode (cr : PerconaXtraDBBackup)
| EvGetPVC (key : NamespacedName)
| EvCreatePVC (pvc : PersistentVolumeClaim)
| EvSleep (d : Duration)
| EvCreateJob (job : Job)
| EvGetJob (key : NamespacedName)
| EvUpdateBackup (cr : PerconaXtraDBBackup).

Definition History := list Event.

(** The answers of the API server behind [r.client] and of [r.SelectNode],
    each from the history of the effects before the call. *)
Record Client := mkClient {
  answer_GetBackup : History -> NamespacedName -> PerconaXtraDBBackup + GoError;
  answer_ListClusters : History -> string -> list PerconaXtraDBCluster + GoError;
  answer_SelectNode : History -> PerconaXtraDBBackup -> string + GoError;
  answer_GetPVC : History -> NamespacedName -> PersistentVolumeClaim + GoError;
  answer_CreatePVC : History -> PersistentVolumeClaim -> option GoError;
  answer_CreateJob : History -> Job -> option GoError;
  answer_GetJob : History -> NamespacedName -> Job + GoError;
  answer_UpdateBackup : History -> PerconaXtraDBBackup -> option GoError
}.

(** The functions of [pkg/pxc/backup] and the methods of the API types the
    controller calls.  They are declared outside this file and are taken as
    they come: [bcp := backup.New(cluster, cluster.Spec.Backup)] stands for
    the pair it was built from. *)
Record BackupPkg := mkBackupPkg {
  backup_Job : PerconaXtraDBCluster -> PXCScheduledBackup -> PerconaXtraDBBackup -> Job;
  backup_JobSpec : PerconaXtraDBCluster -> PXCScheduledBackup ->
                   PXCBackupSpec -> string -> string -> JobSpec;
  backup_NewPVC : PerconaXtraDBBackup -> PersistentVolumeClaim;
  backup_SetStoragePVC : PerconaXtraDBCluster -> PXCScheduledBackup ->
                         JobSpec -> string -> JobSpec * option GoError;
  backup_SetStorageS3 : PerconaXtraDBCluster -> PXCScheduledBackup ->
                        JobSpec -> BackupStorageS3Spec -> string -> JobSpec * option GoError;
  OwnerRef : PerconaXtraDBBackup -> OwnerReference + GoError
}.

(** [ReconcilePerconaXtraDBBackup] reconciles a PerconaXtraDBBackup object. *)
Record ReconcilePerconaXtraDBBackup := mkReconciler {
  client : Client;
  serverVersion : string
}.

Variable pkg : BackupPkg.
Variable r : ReconcilePerconaXtraDBBackup.

Local Open Scope go_scope.

(** The bodies of the controller's functions record [Event]s. *)
Abbreviation Go := (@M Event).

Definition client_GetBackup {R} (key : NamespacedName) : Go R (PerconaXtraDBBackup + GoError) :=
  perform (EvGetBackup key) (fun h => answer_GetBackup (client r) h key).
Definition client_ListClusters {R} (ns : string) : Go R (list PerconaXtraDBCluster + GoError) :=
  perform (EvListClusters ns) (fun h => answer_ListClusters (client r) h ns).
Definition SelectNode {R} (cr : PerconaXtraDBBackup) : Go R (string + GoError) :=
  perform (EvSelectNode cr) (fun h => answer_SelectNode (client r) h cr).
Definition client_GetPVC {R} (key : NamespacedName) : Go R (PersistentVolumeClaim + GoError) :=
  perform (EvGetPVC key) (fun h => answer_GetPVC (client r) h key).
Definition client_CreatePVC {R} (pvc : PersistentVolumeClaim) : Go R (option GoError) :=
  perform (EvCreatePVC pvc) (fun h => answer_CreatePVC (client r) h pvc).
Definition client_CreateJob {R} (job : Job) : Go R (option GoError) :=
  perform (EvCreateJob job) (fun h => answer_CreateJob (client r) h job).
Definition client_GetJob {R} (key : NamespacedName) : Go R (Job + GoError) :=
  perform (EvGetJob key) (fun h => answer_GetJob (client r) h key).
Definition client_UpdateBackup {R} (cr : PerconaXtraDBBackup) : Go R (option GoError) :=
  perform (EvUpdateBackup cr) (fun h => answer_UpdateBackup (client r) h cr).
Definition Sleep {R} (d : Duration) : Go R unit :=
  perform (EvSleep d) (fun _ => tt).

(** *** [setControllerReference] *)

(** It works on any [metav1.Object]; here on the metadata of the object.
    The owner reference of the request is appended to the ones the object
    has; when the request has none to give, the object is left as it is. *)
Definition withOwner (obj : ObjectMeta) (ownerRef : OwnerReference) : ObjectMeta :=
  {| Name := Name obj; Namespace := Namespace obj;
     CreationTimestamp := CreationTimestamp obj;
     OwnerReferences := (OwnerReferences obj ++ [ownerRef])%list |}.

Definition setControllerReference (cr : PerconaXtraDBBackup) (obj : ObjectMeta)
  : ObjectMeta * option GoError :=
  match OwnerRef pkg cr with
  | inr err => (obj, Some err)
  | inl ownerRef => (withOwner obj ownerRef, None)
  end.

(** *** [getClusterConfig] *)

(** The loop over [clusterList.Items]: the first cluster of the requested
    name, or the names of all the clusters passed. *)
Fixpoint findCluster (name : string) (items : list PerconaXtraDBCluster)
    (availableClusters : list string) : PerconaXtraDBCluster + list string :=
  match items with
  | [] => inr availableClusters
  | cluster :: rest =>
      if String.eqb (Name (cluster_ObjectMeta cluster)) name
      then inl cluster
      else findCluster name rest
             (availableClusters ++ [Name (cluster_ObjectMeta cluster)])
  end.

Definition getClusterConfig (cr : PerconaXtraDBBackup)
  : Go (PerconaXtraDBCluster + GoError) (PerconaXtraDBCluster + GoError) :=
  listed <- client_ListClusters (Namespace (bcp_ObjectMeta cr)) ;;
  match listed with
  | inr err => Return_ (inr (Errorf "get clusters list: %v" [ArgError err]))
  | inl items =>
      match findCluster (PXCCluster (bcp_Spec cr)) items [] with
      | inl cluster => Return_ (inl cluster)
      | inr availableClusters =>
          Return_ (inr (Errorf "wrong cluster name: %q. Clusters avaliable: %q"
                          [ArgString (PXCCluster (bcp_Spec cr));
                           ArgStrings availableClusters]))
      end
  end.

(** *** [pvcStatus] *)

(** The claim is fetched again into [pvc]; a failed fetch leaves [pvc] as
    it was. *)
Definition pvcStatus {R} (pvc : PersistentVolumeClaim)
  : Go R (PersistentVolumeClaim * VolumeStatus * option GoError) :=
  got <- client_GetPVC (keyOf (pvc_ObjectMeta pvc)) ;;
  match got with
  | inr err => ret (pvc, VolumeUndefined, Some err)
  | inl pvc' => ret (pvc', Phase pvc', None)
  end.

(** *** [updateJobStatus] *)

(** The status built from the job that was fetched: the literal of the
    source and the [switch] on the counters of the job. *)
Definition candidateStatus (job : JobStatus) (destination storageName : string)
    (s3 : option BackupStorageS3Spec) : PXCBackupStatus :=
  let status := {| State := BackupStarting; CompletedAt := None;
                   Destination := destination;
                   status_StorageName := storageName;
                   status_S3 := s3 |} in
  if Active job =? 1 then
    {| State := BackupRunning; CompletedAt := CompletedAt status;
       Destination := Destination status;
       status_StorageName := status_StorageName status;
       status_S3 := status_S3 status |}
  else if Succeeded job =? 1 then
    {| State := BackupSucceeded; CompletedAt := CompletionTime job;
       Destination := Destination status;
       status_StorageName := status_StorageName status;
       status_S3 := status_S3 status |}
  else if Failed job =? 1 then
    {| State := BackupFailed; CompletedAt := CompletedAt status;
       Destination := Destination status;
       status_StorageName := status_StorageName status;
       status_S3 := status_S3 status |}
  else status.

Definition withStatus (bcp : PerconaXtraDBBackup) (status : PXCBackupStatus)
  : PerconaXtraDBBackup :=
  {| bcp_ObjectMeta := bcp_ObjectMeta bcp; bcp_Spec := bcp_Spec bcp;
     bcp_Status := status |}.

Definition updateJobStatus (bcp : PerconaXtraDBBackup) (job : Job)
    (destination storageName : string) (s3 : option BackupStorageS3Spec)
  : Go (option GoError) (option GoError) :=
  got <- client_GetJob (keyOf (job_ObjectMeta job)) ;;
  job <- match got with
         | inr err =>
             if IsNotFound err then Return_ None
             else Return_ (Some (Errorf "get backup status: %v" [ArgError err]))
         | inl job' => ret job'
         end ;;
  let status := candidateStatus (job_Status job) destination storageName s3 in
  (* don't update the status if there aren't any changes. *)
  if decide (bcp_Status bcp = status) then Return_ None
  else
    let bcp := withStatus bcp status in
    err <- client_UpdateBackup bcp ;;
    Return_ err.

(** *** [Reconcile] *)

Definition withName (m : ObjectMeta) (name : string) : ObjectMeta :=
  {| Name := name; Namespace := Namespace m;
     CreationTimestamp := CreationTimestamp m;
     OwnerReferences := OwnerReferences m |}.

Definition withJobSpec (job : Job) (spec : JobSpec) : Job :=
  {| job_ObjectMeta := job_ObjectMeta job; job_Spec := spec;
     job_Status := job_Status job |}.

(** The claim of the filesystem storage: [backup.NewPVC(instance)] with
    the claim template of the storage as its spec and the name the source
    gives it. *)
Definition backupPVC (instance : PerconaXtraDBBackup)
    (spec : PersistentVolumeClaimSpec) : PersistentVolumeClaim :=
  let pvc := backup_NewPVC pkg instance in
  {| pvc_ObjectMeta := withName (pvc_ObjectMeta pvc) "cluster1-xb-cron-pvc";
     pvc_Spec := spec;
     Phase := Phase pvc |}.

Definition pvcDestination (pvc : PersistentVolumeClaim) : string :=
  "pvc/" +:+ Name (pvc_ObjectMeta pvc).

(** The destination of a backup on S3. *)
Definition s3Destination (bucket pxcCluster : string) (created : Time) : string :=
  let destination :=
    bucket +:+ "/" +:+ pxcCluster +:+ "-"
      +:+ Format created "2006-02-01-15:04:05" +:+ "-xtrabackup.stream" in
  if negb (HasPrefix bucket "s3://") then "s3://" +:+ destination
  else destination.

Definition Ret : Type := Result * option GoError.

(** The loop [for i := time.Duration(1); i <= 5; i++] that waits for the
    claim, entered with [n = 5 - i + 1] rounds to go.  It ends the
    reconciliation on a failed fetch that is not a missing claim, leaves at
    once when the claim is bound, and sleeps [i] seconds otherwise. *)
Fixpoint waitPVC (n : nat) (i : Duration) (pvc : PersistentVolumeClaim)
    (status : VolumeStatus) : Go Ret (PersistentVolumeClaim * VolumeStatus) :=
  match n with
  | O => ret (pvc, status)
  | S n' =>
      got <- pvcStatus pvc ;;
      let '(pvc, status, err) := got in
      match err with
      | Some e =>
          if negb (IsNotFound e)
          then Return_ (noResult, Some (Errorf "get pvc status: %v" [ArgError e]))
          else ret tt
      | None => ret tt
      end ;;
      if String.eqb status VolumeBound then ret (pvc, status)
      else
        Sleep (Second * i) ;;
        waitPVC n' (i + 1) pvc status
  end.

(** Getting the volume status: the loop from [i = 1], entered with the
    empty status of [var pvcStatus VolumeStatus], and the check after it. *)
Definition waitPVCBound (pvc : PersistentVolumeClaim) : Go Ret PersistentVolumeClaim :=
  waited <- waitPVC 5 1 pvc "" ;;
  let '(pvc, status) := waited in
  if negb (String.eqb status VolumeBound)
  then Return_ (noResult, Some (Errorf "pvc not ready, status: %s" [ArgString status]))
  else ret pvc.

(** [case api.BackupStorageFilesystem]: the job with its storage set, and
    the destination.  A missing claim template is a nil pointer that the
    source dereferences.  A claim that the client created keeps its name and
    namespace. *)
Definition storageFilesystem (instance : PerconaXtraDBBackup)
    (cluster : PerconaXtraDBCluster) (bcp : PXCScheduledBackup)
    (bcpStorage : BackupStorageSpec) (job : Job) : Go Ret (Job * string) :=
  spec <- match Volume bcpStorage with
          | Some volume =>
              match volume_PersistentVolumeClaim volume with
              | Some spec => ret spec
              | None => panic
              end
          | None => panic
          end ;;
  let pvc := backupPVC instance spec in
  let destination := pvcDestination pvc in
  (* Set PerconaXtraDBBackup instance as the owner and controller *)
  pvc <- match setControllerReference instance (pvc_ObjectMeta pvc) with
         | (_, Some err) =>
             Return_ (noResult, Some (Errorf "setControllerReference: %v" [ArgError err]))
         | (meta, None) =>
             ret {| pvc_ObjectMeta := meta; pvc_Spec := pvc_Spec pvc;
                    Phase := Phase pvc |}
         end ;;
  (* Check if this PVC already exists *)
  got <- client_GetPVC (keyOf (pvc_ObjectMeta pvc)) ;;
  pvc <- match got with
         | inl pvc' => ret pvc'
         | inr err =>
             if IsNotFound err then
               err <- client_CreatePVC pvc ;;
               match err with
               | Some err =>
                   Return_ (noResult, Some (Errorf "create backup pvc: %v" [ArgError err]))
               | None => ret pvc
               end
             else ret pvc
         end ;;
  pvc <- waitPVCBound pvc ;;
  match backup_SetStoragePVC pkg cluster bcp (job_Spec job)
          (Name (pvc_ObjectMeta pvc)) with
  | (_, Some err) =>
      Return_ (noResult, Some (Errorf "set storage FS: %v" [ArgError err]))
  | (spec, None) => ret (withJobSpec job spec, destination)
  end.

(** [case api.BackupStorageS3]: the job with its storage set, the
    destination and the S3 part of the status. *)
Definition storageS3 (instance : PerconaXtraDBBackup)
    (cluster : PerconaXtraDBCluster) (bcp : PXCScheduledBackup)
    (bcpStorage : BackupStorageSpec) (job : Job)
  : Go Ret (Job * string * option BackupStorageS3Spec) :=
  let destination :=
    s3Destination (Bucket (S3 bcpStorage)) (PXCCluster (bcp_Spec instance))
      (CreationTimestamp (bcp_ObjectMeta instance)) in
  match backup_SetStorageS3 pkg cluster bcp (job_Spec job) (S3 bcpStorage)
          destination with
  | (_, Some err) =>
      Return_ (noResult, Some (Errorf "set storage FS: %v" [ArgError err]))
  | (spec, None) =>
      ret (withJobSpec job spec, destination, Some (S3 bcpStorage))
  end.

(** The end of [Reconcile], from the owner reference of the job on: the
    job is created and the status of the request brought up to date. *)
Definition submitJob (rr : Result) (instance : PerconaXtraDBBackup) (job : Job)
    (destination : string) (s3status : option BackupStorageS3Spec) : Go Ret Ret :=
  (* Set PerconaXtraDBBackup instance as the owner and controller *)
  job <- match setControllerReference instance (job_ObjectMeta job) with
         | (_, Some err) =>
             Return_ (noResult,
                      Some (Errorf "job/setControllerReference: %v" [ArgError err]))
         | (meta, None) =>
             ret {| job_ObjectMeta := meta; job_Spec := job_Spec job;
                    job_Status := job_Status job |}
         end ;;
  err <- client_CreateJob job ;;
  match err with
  | Some err =>
      if negb (IsAlreadyExists err)
      then Return_ (noResult, Some (Errorf "create backup job: %v" [ArgError err]))
      else ret tt
  | None => ret tt
  end ;;
  err <- call (updateJobStatus instance job destination
                 (StorageName (bcp_Spec instance)) s3status) ;;
  Return_ (rr, err).

(** [Reconcile] reads the state of the cluster for a PerconaXtraDBBackup
    object and makes changes based on the state read and what is in the
    PerconaXtraDBBackup.Spec. *)
Definition Reconcile (request : Request) : Go Ret Ret :=
  let rr := {| Requeue := false; RequeueAfter := Second * 5 |} in
  (* Fetch the PerconaXtraDBBackup instance *)
  got <- client_GetBackup (req_NamespacedName request) ;;
  instance <- match got with
              | inr err =>
                  if IsNotFound err then Return_ (rr, None)
                  else Return_ (noResult, Some err)
              | inl instance => ret instance
              end ;;
  found <- call (getClusterConfig instance) ;;
  cluster <- match found with
             | inr err =>
                 Return_ (noResult, Some (Errorf "invalid backup cluster: %v" [ArgError err]))
             | inl cluster => ret cluster
             end ;;
  bcp <- match Backup (cluster_Spec cluster) with
         | None =>
             Return_ (noResult,
                      Some (Errorf "a backup image should be set in the PXC config" []))
         | Some bcp => ret bcp
         end ;;
  let job := backup_Job pkg cluster bcp instance in
  selected <- SelectNode instance ;;
  bcpNode <- match selected with
             | inr err =>
                 Return_ (noResult, Some (Errorf "select backup node: %v" [ArgError err]))
             | inl bcpNode => ret bcpNode
             end ;;
  bcpStorage <- match Storages bcp !! StorageName (bcp_Spec instance) with
                | None =>
                    Return_ (noResult,
                             Some (Errorf "bcpStorage %s doesn't exist"
                                     [ArgString (StorageName (bcp_Spec instance))]))
                | Some bcpStorage => ret bcpStorage
                end ;;
  let job := withJobSpec job
               (backup_JobSpec pkg cluster bcp (bcp_Spec instance) bcpNode
                  (serverVersion r)) in
  stored <- match storage_Type bcpStorage with
            | BackupStorageFilesystem =>
                fs <- storageFilesystem instance cluster bcp bcpStorage job ;;
                ret (fs, None)
            | BackupStorageS3 => storageS3 instance cluster bcp bcpStorage job
            | BackupStorageOther _ => ret (job, "", None)
            end ;;
  let '(job, destination, s3status) := stored in
  submitJob rr instance job destination s3status.

End Controller.

(** ** Reading a history *)

Section Observations.
Context {JobSpec PersistentVolumeClaimSpec : Type}.

Abbreviation Event' := (@Event JobSpec PersistentVolumeClaimSpec).
Abbreviation PVC' := (@PersistentVolumeClaim PersistentVolumeClaimSpec).

(** The time slept, the fetches of a claim and the writes of a status that
    a history records. *)
Definition sleepOf (ev : Event') : Duration :=
  match ev with EvSleep d => d | _ => 0 end.

Definition slept (h : list Event') : Duration :=
  fold_right (fun ev total => sleepOf ev + total) 0 h.

Definition isGetPVC (ev : Event') : bool :=
  match ev with EvGetPVC _ => true | _ => false end.

Definition isCreatePVC (ev : Event') : bool :=
  match ev with EvCreatePVC _ => true | _ => false end.

Definition isCreateJob (ev : Event') : bool :=
  match ev with EvCreateJob _ => true | _ => false end.

Definition isGetJob (ev : Event') : bool :=
  match ev with EvGetJob _ => true | _ => false end.

Definition isUpdateBackup (ev : Event') : bool :=
  match ev with EvUpdateBackup _ => true | _ => false end.

Definition fetches (h : list Event') : nat := length (filter isGetPVC h).

(** The name of the claim an effect is about. *)
Definition volumeName (ev : Event') : option string :=
  match ev with
  | EvGetPVC key => Some (key_Name key)
  | EvCreatePVC pvc => Some (Name (pvc_ObjectMeta pvc))
  | _ => None
  end.

(** The history after [n] rounds of the waiting loop that each fetched the
    claim [key] and slept, the first of them with the counter at [i]. *)
Fixpoint unboundRounds (key : NamespacedName) (i : Duration) (n : nat)
    (h : list Event') : list Event' :=
  match n with
  | O => h
  | S m => EvSleep (Second * (i + Z.of_nat m)) :: EvGetPVC key
             :: unboundRounds key i m h
  end.

(** What [pvcStatus] reports of an answer to the fetch of a claim. *)
Definition observedStatus (a : PVC' + GoError) : VolumeStatus :=
  match a with
  | inl pvc => Phase pvc
  | inr _ => VolumeUndefined
  end.

(** An answer that keeps the loop waiting: the claim under the key asked
    for, in a phase other than Bound, or no claim found. *)
Definition keepsWaiting (key : NamespacedName) (a : PVC' + GoError) : Prop :=
  match a with
  | inl pvc => keyOf (pvc_ObjectMeta pvc) = key /\ Phase pvc <> VolumeBound
  | inr err => IsNotFound err = true
  end.

Definition clusterName (c : @PerconaXtraDBCluster PersistentVolumeClaimSpec) : string :=
  Name (cluster_ObjectMeta c).

(** The status step at the end of [Reconcile], run from the history [h]:
    the call of [updateJobStatus], whose error goes to the caller next to
    [rr]. *)
Definition statusStep (r : @ReconcilePerconaXtraDBBackup JobSpec PersistentVolumeClaimSpec)
    (rr : Result) (instance : PerconaXtraDBBackup)
    (job : @Job JobSpec) (destination : string)
    (s3status : option BackupStorageS3Spec) (h : list Event')
  : Outcome Ret * list Event' :=
  match exec (updateJobStatus r instance job destination
                (StorageName (bcp_Spec instance)) s3status) h with
  | (Returned err, h') => (Returned (rr, err), h')
  | (Panicked, h') => (Panicked, h')
  end.

(** An effect that, if it is about a claim, is about the claim [name]. *)
Definition aboutVolume (name : string) (ev : Event') : Prop :=
  forall n, volumeName ev = Some n -> n = name.

(** The result [rr] of [Reconcile]: come back in five seconds. *)
Definition requeueAfter5s : Result :=
  {| Requeue := false; RequeueAfter := 5 * Second |}.

(** An effect of the steps of [Reconcile] that come before the status
    step. *)
Definition beforeStatus (ev : Event') : Prop := isGetJob ev = false.

(** A fatal end of [Reconcile]: the empty result and an error. *)
Definition fatal (res : Ret) : Prop := fst res = noResult /\ snd res <> None.

(** How [Reconcile] may end after the effects [added]: with [rr] if it
    came to the status step, which fetches the job, and with a fatal
    result if it did not; a panic comes before the status step. *)
Definition endsWith (rr : Result) (added : list Event') (out : Outcome Ret) : Prop :=
  match out with
  | Returned res =>
      if existsb isGetJob added then fst res = rr else fatal res
  | Panicked => existsb isGetJob added = false
  end.

Definition finishes (rr : Result) (m : @M Event' Ret Ret) : Prop :=
  forall h, exists added,
    snd (exec m h) = (added ++ h)%list /\ endsWith rr added (fst (exec m h)).

(** A filesystem storage that has its claim template, a cluster whose
    storages are such, and a client that lists such clusters. *)
Definition hasClaimTemplate (st : @BackupStorageSpec PersistentVolumeClaimSpec) : Prop :=
  storage_Type st = BackupStorageFilesystem ->
  exists spec, Volume st = Some {| volume_PersistentVolumeClaim := Some spec |}.

Definition clusterTemplates (cl : @PerconaXtraDBCluster PersistentVolumeClaimSpec) : Prop :=
  forall bcp name st,
    Backup (cluster_Spec cl) = Some bcp -> Storages bcp !! name = Some st ->
    hasClaimTemplate st.

Definition listsTemplates (c : @Client JobSpec PersistentVolumeClaimSpec) : Prop :=
  forall h ns items,
    answer_ListClusters c h ns = inl items -> Forall clusterTemplates items.

(** A client that answers the fetch of a claim with the claim of that
    key. *)
Definition answersUnderKey (c : @Client JobSpec PersistentVolumeClaimSpec) : Prop :=
  forall h key pvc,
    answer_GetPVC c h key = inl pvc -> keyOf (pvc_ObjectMeta pvc) = key.
End Observations.

(** ** A cluster to run the controller on *)

Module Scenario.
(** A job spec is the list of the settings made on it, a claim template a
    storage class. *)
Definition JobSpec : Type := list string.
Definition ClaimSpec : Type := string.

Definition created : Time := mkTime 2024 3 7 15 4 5.

Definition meta (name : string) : ObjectMeta :=
  {| Name := name; Namespace := "pxc"; CreationTimestamp := created;
     OwnerReferences := [] |}.

Definition noStatus : PXCBackupStatus :=
  {| State := BackupStateOther ""; CompletedAt := None; Destination := "";
     status_StorageName := ""; status_S3 := None |}.

(** A request for a backup of the cluster some-name to the storage
    [storage]. *)
Definition backup (storage : string) : PerconaXtraDBBackup :=
  {| bcp_ObjectMeta := meta "backup1";
     bcp_Spec := {| PXCCluster := "some-name"; StorageName := storage |};
     bcp_Status := noStatus |}.

Definition request : Request :=
  {| req_NamespacedName := {| key_Namespace := "pxc"; key_Name := "backup1" |} |}.

Definition s3 (bucket : string) : BackupStorageS3Spec :=
  {| Bucket := bucket; CredentialsSecret := "aws-creds"; Region := "us-east-1";
     EndpointURL := "" |}.

Definition storages : gmap string (@BackupStorageSpec ClaimSpec) :=
  <["fs-pvc" := {| storage_Type := BackupStorageFilesystem; S3 := s3 "";
                   Volume := Some {| volume_PersistentVolumeClaim := Some "standard" |} |}]>
  (<["s3-us" := {| storage_Type := BackupStorageS3; S3 := s3 "mybucket";
                   Volume := None |}]> ∅).

Definition cluster (name : string) : @PerconaXtraDBCluster ClaimSpec :=
  {| cluster_ObjectMeta := meta name;
     cluster_Spec :=
       {| Backup := Some {| Image := "percona/backup"; Storages := storages |} |} |}.

Definition noJobStatus : JobStatus :=
  {| Active := 0; Succeeded := 0; Failed := 0; CompletionTime := None |}.

Definition owner : OwnerReference :=
  {| APIVersion := "pxc.percona.com/v1alpha1"; Kind := "PerconaXtraDBBackup";
     owner_Name := "backup1"; UID := "uid-1"; Controller := true |}.

Definition pkg : @BackupPkg JobSpec ClaimSpec :=
  {| backup_Job := fun _ _ cr =>
       {| job_ObjectMeta := meta ("xb-" +:+ Name (bcp_ObjectMeta cr));
          job_Spec := []; job_Status := noJobStatus |};
     backup_JobSpec := fun _ _ _ node version => ["node=" +:+ node];
     backup_NewPVC := fun cr =>
       {| pvc_ObjectMeta := meta ""; pvc_Spec := ""; Phase := "" |};
     backup_SetStoragePVC := fun _ _ spec name => ((spec ++ ["pvc=" +:+ name])%list, None);
     backup_SetStorageS3 := fun _ _ spec _ dest => ((spec ++ ["s3=" +:+ dest])%list, None);
     OwnerRef := fun _ => inl owner |}.

(** The claim the API server holds under [key], in phase [phase]. *)
Definition claim (key : NamespacedName) (phase : string)
  : @PersistentVolumeClaim ClaimSpec :=
  {| pvc_ObjectMeta := {| Name := key_Name key; Namespace := key_Namespace key;
                          CreationTimestamp := created;
                          OwnerReferences := [owner] |};
     pvc_Spec := "standard"; Phase := phase |}.

(** The job the API server holds under [key], with the status [status]. *)
Definition job (key : NamespacedName) (status : JobStatus) : @Job JobSpec :=
  {| job_ObjectMeta := {| Name := key_Name key; Namespace := key_Namespace key;
                          CreationTimestamp := created;
                          OwnerReferences := [owner] |};
     job_Spec := []; job_Status := status |}.

(** An API server that holds the request [cr] and the clusters [clusters],
    answers the fetch of a claim by [getPVC], creates what it is asked to
    and shows the job with the status [status]. *)
Definition server (cr : PerconaXtraDBBackup)
    (clusters : list (@PerconaXtraDBCluster ClaimSpec))
    (getPVC : @History JobSpec ClaimSpec -> NamespacedName ->
              @PersistentVolumeClaim ClaimSpec + GoError)
    (status : JobStatus) : @Client JobSpec ClaimSpec :=
  {| answer_GetBackup := fun _ _ => inl cr;
     answer_ListClusters := fun _ _ => inl clusters;
     answer_SelectNode := fun _ _ => inl "cluster1-pxc-0";
     answer_GetPVC := getPVC;
     answer_CreatePVC := fun _ _ => None;
     answer_CreateJob := fun _ _ => None;
     answer_GetJob := fun _ key => inl (job key status);
     answer_UpdateBackup := fun _ _ => None |}.

Definition reconciler (c : @Client JobSpec ClaimSpec)
  : @ReconcilePerconaXtraDBBackup JobSpec ClaimSpec :=
  {| client := c; serverVersion := "1.12" |}.

(** The claim stays pending for ever. *)
Definition pending : @History JobSpec ClaimSpec -> NamespacedName ->
                     @PersistentVolumeClaim ClaimSpec + GoError :=
  fun _ key => inl (claim key VolumePending).

(** The first fetch of the claim fails on the server's side; from then on
    the claim is there and bound. *)
Definition failsOnce : @History JobSpec ClaimSpec -> NamespacedName ->
                       @PersistentVolumeClaim ClaimSpec + GoError :=
  fun h key =>
    if existsb isGetPVC h then inl (claim key VolumeBound)
    else inr (StatusError (StatusReasonOther "InternalError") "etcdserver: request timed out").

(** The claim is bound from the third fetch on. *)
Definition boundAtThird : @History JobSpec ClaimSpec -> NamespacedName ->
                          @PersistentVolumeClaim ClaimSpec + GoError :=
  fun h key =>
    if (2 <=? fetches h)%nat then inl (claim key VolumeBound)
    else inl (claim key VolumePending).

Definition running : JobStatus :=
  {| Active := 1; Succeeded := 0; Failed := 0; CompletionTime := None |}.
End Scenario.

(** ** Counting effects, and the steps of a reconciliation *)

Section Counting.
Context {Ev : Type}.

(** The sum of a weight [f] over the effects of a history. *)
Definition total (f : Ev -> Z) (h : list Ev) : Z :=
  fold_right (fun ev t => f ev + t) 0 h.

(** The weight that counts the effects [p] picks. *)
Definition counting (p : Ev -> bool) (ev : Ev) : Z := if p ev then 1 else 0.

(** [costs f b m]: whatever the history, the effects [m] adds weigh no more
    than [b]. *)
Definition costs (f : Ev -> Z) (b : Z) {R A} (m : @M Ev R A) : Prop :=
  forall h, exists added, snd (m h) = (added ++ h)%list /\ total f added <= b.
End Counting.

Section Steps.
Context {JobSpec PersistentVolumeClaimSpec : Type}.

Definition isSleep (ev : @Event JobSpec PersistentVolumeClaimSpec) : bool :=
  match ev with EvSleep _ => true | _ => false end.

(** The effects of the end of [Reconcile]: the creation of the job, the
    fetch of the job and the write of the status. *)
Definition isSubmit (ev : @Event JobSpec PersistentVolumeClaimSpec) : bool :=
  isCreateJob ev || isGetJob ev || isUpdateBackup ev.

(** The request and its cluster, as the first two calls of [Reconcile] from
    the history [h] find them. *)
Definition findsCluster (r : @ReconcilePerconaXtraDBBackup JobSpec PersistentVolumeClaimSpec)
    (request : Request) (h : list (@Event JobSpec PersistentVolumeClaimSpec))
    (instance : PerconaXtraDBBackup)
    (cluster : @PerconaXtraDBCluster PersistentVolumeClaimSpec) : Prop :=
  answer_GetBackup (client r) h (req_NamespacedName request) = inl instance
  /\ exists items,
       answer_ListClusters (client r)
         (EvGetBackup (req_NamespacedName request) :: h)
         (Namespace (bcp_ObjectMeta instance)) = inl items
       /\ findCluster (PXCCluster (bcp_Spec instance)) items [] = inl cluster.

(** The history after these two calls. *)
Definition afterCluster (request : Request) (instance : PerconaXtraDBBackup)
    (h : list (@Event JobSpec PersistentVolumeClaimSpec))
  : list (@Event JobSpec PersistentVolumeClaimSpec) :=
  EvListClusters (Namespace (bcp_ObjectMeta instance))
    :: EvGetBackup (req_NamespacedName request) :: h.

(** The request, its cluster, the node and the storage, as [Reconcile]
    from the history [h] comes to them. *)
Definition reachesStorage (r : @ReconcilePerconaXtraDBBackup JobSpec PersistentVolumeClaimSpec)
    (request : Request) (h : list (@Event JobSpec PersistentVolumeClaimSpec))
    (instance : PerconaXtraDBBackup)
    (cluster : @PerconaXtraDBCluster PersistentVolumeClaimSpec)
    (bcp : @PXCScheduledBackup PersistentVolumeClaimSpec) (bcpNode : string)
    (bcpStorage : @BackupStorageSpec PersistentVolumeClaimSpec) : Prop :=
  findsCluster r request h instance cluster
  /\ Backup (cluster_Spec cluster) = Some bcp
  /\ answer_SelectNode (client r) (afterCluster request instance h) instance
     = inl bcpNode
  /\ Storages bcp !! StorageName (bcp_Spec instance) = Some bcpStorage.

(** The history when the storage is reached. *)
Definition atStorage (request : Request) (instance : PerconaXtraDBBackup)
    (h : list (@Event JobSpec PersistentVolumeClaimSpec))
  : list (@Event JobSpec PersistentVolumeClaimSpec) :=
  EvSelectNode instance :: afterCluster request instance h.

(** The job as it is when the storage is reached: [bcp.Job(instance)] with
    the spec of [bcp.JobSpec]. *)
Definition preparedJob (pkg : @BackupPkg JobSpec PersistentVolumeClaimSpec)
    (r : @ReconcilePerconaXtraDBBackup JobSpec PersistentVolumeClaimSpec)
    (instance : PerconaXtraDBBackup)
    (cluster : @PerconaXtraDBCluster PersistentVolumeClaimSpec)
    (bcp : @PXCScheduledBackup PersistentVolumeClaimSpec) (bcpNode : string)
  : @Job JobSpec :=
  withJobSpec (backup_Job pkg cluster bcp instance)
    (backup_JobSpec pkg cluster bcp (bcp_Spec instance) bcpNode (serverVersion r)).

(** The claim of the filesystem storage with the request as its owner, as
    it is fetched and, if it is missing, created. *)
Definition ownedPVC (pkg : @BackupPkg JobSpec PersistentVolumeClaimSpec)
    (instance : PerconaXtraDBBackup) (spec : PersistentVolumeClaimSpec)
    (ownerRef : OwnerReference) : @PersistentVolumeClaim PersistentVolumeClaimSpec :=
  {| pvc_ObjectMeta := withOwner (pvc_ObjectMeta (backupPVC pkg instance spec)) ownerRef;
     pvc_Spec := pvc_Spec (backupPVC pkg instance spec);
     Phase := Phase (backupPVC pkg instance spec) |}.

(** The rest of the filesystem path from the wait for the claim [pvc] on. *)
Definition claimReady (pkg : @BackupPkg JobSpec PersistentVolumeClaimSpec)
    (r : @ReconcilePerconaXtraDBBackup JobSpec PersistentVolumeClaimSpec)
    (cluster : @PerconaXtraDBCluster PersistentVolumeClaimSpec)
    (bcp : @PXCScheduledBackup PersistentVolumeClaimSpec) (job : @Job JobSpec)
    (destination : string) (pvc : @PersistentVolumeClaim PersistentVolumeClaimSpec)
  : @M (@Event JobSpec PersistentVolumeClaimSpec) Ret (@Job JobSpec * string) :=
  bind (waitPVCBound r pvc)
    (fun pvc' =>
       match backup_SetStoragePVC pkg cluster bcp (job_Spec job)
               (Name (pvc_ObjectMeta pvc')) with
       | (_, Some err) =>
           Return_ (noResult, Some (Errorf "set storage FS: %v" [ArgError err]))
       | (spec, None) => ret (withJobSpec job spec, destination)
       end).

(** The results [Reconcile] returns before it comes to the creation of the
    job: a fatal one, or [rr] without an error. *)
Definition endsEarly (res : Ret) : Prop :=
  fatal res \/ res = (requeueAfter5s, None).

(** An effect of the steps of [Reconcile] that come before the creation of
    the job. *)
Definition beforeSubmit (ev : @Event JobSpec PersistentVolumeClaimSpec) : Prop :=
  isSubmit ev = false.

(** A bound on the weight of [n] rounds of the waiting loop, the first with
    the counter at [i], when a fetch weighs [cg] and a sleep of [d] weighs
    [cs * d]. *)
Fixpoint waitWeight (cg cs : Z) (n : nat) (i : Duration) : Z :=
  match n with
  | O => 0
  | S n' => cg + cs * (Second * i) + waitWeight cg cs n' (i + 1)
  end.

(** How the effects of the end of [Reconcile] may follow one another, the
    latest first: nothing, the creation of the job, then the fetch of the
    job, then one write of the status. *)
Definition submitOrder (post : list (@Event JobSpec PersistentVolumeClaimSpec)) : Prop :=
  post = []
  \/ (exists job, post = [EvCreateJob job])
  \/ (exists job key, post = [EvGetJob key; EvCreateJob job])
  \/ (exists job key cr, post = [EvUpdateBackup cr; EvGetJob key; EvCreateJob job]).
End Steps.

(** ** [Add], [newReconciler] and [add] *)

Section Setup.
Context {JobSpec PersistentVolumeClaimSpec : Type}.
(** [controller.Controller], as [controller.New] returns it. *)
Context {Controller : Type}.

(** The calls the set up of the controller makes: [version.Server()],
    [controller.New(name, mgr, controller.Options{Reconciler: r})] and the
    [Watch] of the controller, which is always for the kind
    PerconaXtraDBBackup with the handler [EnqueueRequestForObject]. *)
Inductive SetupEvent :=
| EvServerVersion
| EvNewController (name : string)
    (r : @ReconcilePerconaXtraDBBackup JobSpec PersistentVolumeClaimSpec)
| EvWatch (c : Controller).

(** The manager and what is behind it: the client it hands out and the
    answers to the three calls, each from the calls before it.  The scheme
    of the manager is read by [OwnerRef] only and is not kept. *)
Record Manager := mkManager {
  GetClient : @Client JobSpec PersistentVolumeClaimSpec;
  answer_Server : list SetupEvent -> string + GoError;
  answer_New : list SetupEvent -> string ->
               @ReconcilePerconaXtraDBBackup JobSpec PersistentVolumeClaimSpec ->
               Controller + GoError;
  answer_Watch : list SetupEvent -> Controller -> option GoError
}.

Variable mgr : Manager.

Local Open Scope go_scope.

Definition version_Server {R} : @M SetupEvent R (string + GoError) :=
  perform EvServerVersion (answer_Server mgr).
Definition controller_New {R} (name : string)
    (r : @ReconcilePerconaXtraDBBackup JobSpec PersistentVolumeClaimSpec)
  : @M SetupEvent R (Controller + GoError) :=
  perform (EvNewController name r) (fun h => answer_New mgr h name r).
Definition Watch {R} (c : Controller) : @M SetupEvent R (option GoError) :=
  perform (EvWatch c) (fun h => answer_Watch mgr h c).

(** [newReconciler] returns a new reconcile.Reconciler. *)
Definition newReconciler
  : @M SetupEvent
      (@ReconcilePerconaXtraDBBackup JobSpec PersistentVolumeClaimSpec + GoError)
      (@ReconcilePerconaXtraDBBackup JobSpec PersistentVolumeClaimSpec + GoError) :=
  got <- version_Server ;;
  match got with
  | inr err => Return_ (inr (Errorf "get version: %v" [ArgError err]))
  | inl sv => Return_ (inl {| client := GetClient mgr; serverVersion := sv |})
  end.

(** [add] adds a new Controller to mgr with r as the reconcile.Reconciler. *)
Definition add (r : @ReconcilePerconaXtraDBBackup JobSpec PersistentVolumeClaimSpec)
  : @M SetupEvent (option GoError) (option GoError) :=
  (* Create a new controller *)
  got <- controller_New "perconaxtradbbackup-controller" r ;;
  c <- match got with
       | inr err => Return_ (Some err)
       | inl c => ret c
       end ;;
  (* Watch for changes to primary resource PerconaXtraDBBackup *)
  err <- Watch c ;;
  match err with
  | Some err => Return_ (Some err)
  | None => Return_ None
  end.

(** [Add] creates a new PerconaXtraDBBackup Controller and adds it to the
    Manager. *)
Definition Add : @M SetupEvent (option GoError) (option GoError) :=
  got <- call newReconciler ;;
  r <- match got with
       | inr err => Return_ (Some err)
       | inl r => ret r
       end ;;
  err <- call (add r) ;;
  Return_ err.
End Setup.

(** ** Clusters and clients that fail *)

Module Faults.
Import Scenario.

Definition notFound : GoError :=
  StatusError StatusReasonNotFound "not found".
Definition alreadyExists : GoError :=
  StatusError StatusReasonAlreadyExists "already exists".
Definition timedOut : GoError :=
  StatusError (StatusReasonOther "InternalError") "etcdserver: request timed out".

(** A client as [c] but for one of its answers. *)
Definition withGetBackup (c : @Client JobSpec ClaimSpec)
    (a : @History JobSpec ClaimSpec -> NamespacedName -> PerconaXtraDBBackup + GoError)
  : @Client JobSpec ClaimSpec :=
  {| answer_GetBackup := a;
     answer_ListClusters := answer_ListClusters c;
     answer_SelectNode := answer_SelectNode c;
     answer_GetPVC := answer_GetPVC c;
     answer_CreatePVC := answer_CreatePVC c;
     answer_CreateJob := answer_CreateJob c;
     answer_GetJob := answer_GetJob c;
     answer_UpdateBackup := answer_UpdateBackup c |}.

Definition withListClusters (c : @Client JobSpec ClaimSpec)
    (a : @History JobSpec ClaimSpec -> string ->
         list (@PerconaXtraDBCluster ClaimSpec) + GoError)
  : @Client JobSpec ClaimSpec :=
  {| answer_GetBackup := answer_GetBackup c;
     answer_ListClusters := a;
     answer_SelectNode := answer_SelectNode c;
     answer_GetPVC := answer_GetPVC c;
     answer_CreatePVC := answer_CreatePVC c;
     answer_CreateJob := answer_CreateJob c;
     answer_GetJob := answer_GetJob c;
     answer_UpdateBackup := answer_UpdateBackup c |}.

Definition withSelectNode (c : @Client JobSpec ClaimSpec)
    (a : @History JobSpec ClaimSpec -> PerconaXtraDBBackup -> string + GoError)
  : @Client JobSpec ClaimSpec :=
  {| answer_GetBackup := answer_GetBackup c;
     answer_ListClusters := answer_ListClusters c;
     answer_SelectNode := a;
     answer_GetPVC := answer_GetPVC c;
     answer_CreatePVC := answer_CreatePVC c;
     answer_CreateJob := answer_CreateJob c;
     answer_GetJob := answer_GetJob c;
     answer_UpdateBackup := answer_UpdateBackup c |}.

Definition withCreatePVC (c : @Client JobSpec ClaimSpec)
    (a : @History JobSpec ClaimSpec -> @PersistentVolumeClaim ClaimSpec ->
         option GoError)
  : @Client JobSpec ClaimSpec :=
  {| answer_GetBackup := answer_GetBackup c;
     answer_ListClusters := answer_ListClusters c;
     answer_SelectNode := answer_SelectNode c;
     answer_GetPVC := answer_GetPVC c;
     answer_CreatePVC := a;
     answer_CreateJob := answer_CreateJob c;
     answer_GetJob := answer_GetJob c;
     answer_UpdateBackup := answer_UpdateBackup c |}.

Definition withGetJob (c : @Client JobSpec ClaimSpec)
    (a : @History JobSpec ClaimSpec -> NamespacedName -> @Job JobSpec + GoError)
  : @Client JobSpec ClaimSpec :=
  {| answer_GetBackup := answer_GetBackup c;
     answer_ListClusters := answer_ListClusters c;
     answer_SelectNode := answer_SelectNode c;
     answer_GetPVC := answer_GetPVC c;
     answer_CreatePVC := answer_CreatePVC c;
     answer_CreateJob := answer_CreateJob c;
     answer_GetJob := a;
     answer_UpdateBackup := answer_UpdateBackup c |}.

(** A filesystem storage without a volume, and a storage of a type the
    controller has no case for. *)
Definition bare : @BackupStorageSpec ClaimSpec :=
  {| storage_Type := BackupStorageFilesystem; S3 := s3 ""; Volume := None |}.
Definition azure : @BackupStorageSpec ClaimSpec :=
  {| storage_Type := BackupStorageOther "azure"; S3 := s3 ""; Volume := None |}.

Definition moreStorages : gmap string (@BackupStorageSpec ClaimSpec) :=
  <["fs-bare" := bare]> (<["azure-1" := azure]> storages).

Definition schedule : @PXCScheduledBackup ClaimSpec :=
  {| Image := "percona/backup"; Storages := moreStorages |}.

(** The cluster [name] with the backup section [backup]. *)
Definition clusterWith (name : string) (backup : option (@PXCScheduledBackup ClaimSpec))
  : @PerconaXtraDBCluster ClaimSpec :=
  {| cluster_ObjectMeta := meta name; cluster_Spec := {| Backup := backup |} |}.

(** The claim is missing for ever. *)
Definition missing : @History JobSpec ClaimSpec -> NamespacedName ->
                     @PersistentVolumeClaim ClaimSpec + GoError :=
  fun _ _ => inr notFound.

(** The claim is pending at the first two fetches; the third fetch fails on
    the side of the server. *)
Definition failsAtThird : @History JobSpec ClaimSpec -> NamespacedName ->
                          @PersistentVolumeClaim ClaimSpec + GoError :=
  fun h key =>
    if (2 <=? fetches h)%nat then inr timedOut
    else inl (claim key VolumePending).

(** The package of the scenario with a scheme that does not know the kind
    of the request: [OwnerRef] fails. *)
Definition noKind : GoError :=
  Errorf "no kind is registered for the type v1alpha1.PerconaXtraDBBackup" [].

Definition pkgWithoutOwner : @BackupPkg JobSpec ClaimSpec :=
  {| backup_Job := backup_Job pkg;
     backup_JobSpec := backup_JobSpec pkg;
     backup_NewPVC := backup_NewPVC pkg;
     backup_SetStoragePVC := backup_SetStoragePVC pkg;
     backup_SetStorageS3 := backup_SetStorageS3 pkg;
     OwnerRef := fun _ => inr noKind |}.

(** A manager whose calls all succeed; a controller is its name. *)
Definition manager : @Manager JobSpec ClaimSpec string :=
  {| GetClient := server (backup "fs-pvc") [cluster "some-name"] pending running;
     answer_Server := fun _ => inl "1.12";
     answer_New := fun _ name _ => inl name;
     answer_Watch := fun _ _ => None |}.
End Faults.

(** * Properties *)

Open Scope list_scope.

(** ** The status derived from a job *)

Lemma candidateStatus_carries job destination storageName s3 :
  Destination (candidateStatus job destination storageName s3) = destination
  /\ status_StorageName (candidateStatus job destination storageName s3) = storageName
  /\ status_S3 (candidateStatus job destination storageName s3) = s3.
Proof.
  unfold candidateStatus.
  destruct (Active job =? 1), (Succeeded job =? 1), (Failed job =? 1); auto.
Qed.

(** C3, as the code has it: the state is Running when the active count is 1,
    otherwise Succeeded when the succeeded count is 1, otherwise Failed when
    the failed count is 1, otherwise Starting.  [CompletedAt] is the
    completion time of the job when the state is Succeeded and unset in
    every other state: it is set exactly when the state is Succeeded and the
    job carries a completion time. *)
Theorem candidateStatus_state job destination storageName s3 :
  let status := candidateStatus job destination storageName s3 in
  State status =
    (if Active job =? 1 then BackupRunning
     else if Succeeded job =? 1 then BackupSucceeded
     else if Failed job =? 1 then BackupFailed
     else BackupStarting)
  /\ CompletedAt status =
       match State status with
       | BackupSucceeded => CompletionTime job
       | _ => None
       end
  /\ (CompletedAt status <> None <->
      State status = BackupSucceeded /\ CompletionTime job <> None).
Proof.
  unfold candidateStatus.
  destruct (Active job =? 1), (Succeeded job =? 1), (Failed job =? 1); simpl;
    (split; [reflexivity | split; [reflexivity | ]]);
    split; try (intros [? ?]); try intros ?; try split; congruence.
Qed.

(** C3 as stated fails: a job with one succeeded pod and no completion time
    gives the state Succeeded with [CompletedAt] unset. *)
Lemma candidateStatus_succeeded_without_time :
  let job := {| Active := 0; Succeeded := 1; Failed := 0; CompletionTime := None |} in
  let status := candidateStatus job "pvc/cluster1-xb-cron-pvc" "fs-pvc" None in
  State status = BackupSucceeded /\ CompletedAt status = None
  /\ ~ (CompletedAt status <> None <-> State status = BackupSucceeded).
Proof.
  simpl. split; [reflexivity | split; [reflexivity | ]].
  intros [_ H]. apply H; reflexivity.
Qed.

(** C10: the counters are compared with 1.  A job none of whose counters is
    1, whatever else they are, gives the state Starting and no completion
    time. *)
Theorem candidateStatus_no_counter_is_one job destination storageName s3 :
  Active job <> 1 -> Succeeded job <> 1 -> Failed job <> 1 ->
  State (candidateStatus job destination storageName s3) = BackupStarting
  /\ CompletedAt (candidateStatus job destination storageName s3) = None.
Proof.
  intros Ha Hs Hf. unfold candidateStatus.
  apply Z.eqb_neq in Ha, Hs, Hf. rewrite Ha, Hs, Hf. auto.
Qed.

Lemma candidateStatus_no_counter_is_one_witness :
  let job := {| Active := 0; Succeeded := 2; Failed := 3;
                CompletionTime := Some Scenario.created |} in
  State (candidateStatus job "d" "s" None) = BackupStarting
  /\ CompletedAt (candidateStatus job "d" "s" None) = None.
Proof.
  apply (candidateStatus_no_counter_is_one
           {| Active := 0; Succeeded := 2; Failed := 3;
              CompletionTime := Some Scenario.created |} "d" "s" None);
    simpl; lia.
Defined.

(** Two active pods do not make the backup Running either. *)
Example candidateStatus_two_active :
  State (candidateStatus {| Active := 2; Succeeded := 0; Failed := 0;
                            CompletionTime := None |} "d" "s" None)
  = BackupStarting.
Proof. reflexivity. Qed.

(** ** The destination on S3 *)

Lemma substring_all s : String.substring 0 (String.length s) s = s.
Proof. induction s as [|c s IH]; simpl; [reflexivity | now rewrite IH]. Qed.

Lemma prefix_split p s :
  String.prefix p s = true ->
  s = p +:+ String.substring (String.length p)
              (String.length s - String.length p)%nat s.
Proof.
  revert s. induction p as [|a p IH]; intros s H.
  - cbn [String.length String.append]. now rewrite Nat.sub_0_r, substring_all.
  - destruct s as [|b s]; cbn [String.prefix] in H; [discriminate|].
    destruct (ascii_dec a b) as [->|]; [|discriminate].
    cbn [String.length String.substring Nat.sub].
    change (String b s = String b (p +:+ String.substring (String.length p)
                                     (String.length s - String.length p)%nat s)).
    f_equal. now apply IH.
Qed.

(** A string that has a prefix is that prefix followed by what [TrimPrefix]
    leaves. *)
Lemma TrimPrefix_split s prefix :
  HasPrefix s prefix = true -> s = prefix +:+ TrimPrefix s prefix.
Proof.
  intros H. unfold TrimPrefix. rewrite H. now apply prefix_split.
Qed.

Lemma TrimPrefix_none s prefix : HasPrefix s prefix = false -> TrimPrefix s prefix = s.
Proof. intros H. unfold TrimPrefix. now rewrite H. Qed.

Lemma append_empty_r s : s +:+ "" = s.
Proof.
  induction s as [|c s IH]; [reflexivity|].
  change (String c (s +:+ "") = String c s). now rewrite IH.
Qed.

(** The layout of the controller writes the year, then the day, then the
    month, and the time of day. *)
Lemma Format_layout t :
  Format t "2006-02-01-15:04:05" =
    appendInt (Year t) 4 +:+ "-" +:+ appendInt (Day t) 2 +:+ "-"
      +:+ appendInt (Month t) 2 +:+ "-" +:+ appendInt (Hour t) 2 +:+ ":"
      +:+ appendInt (Minute t) 2 +:+ ":" +:+ appendInt (Sec t) 2.
Proof.
  cbn [Format]. rewrite append_empty_r. reflexivity.
Qed.

Lemma append_assoc' s1 s2 s3 : (s1 +:+ s2) +:+ s3 = s1 +:+ (s2 +:+ s3).
Proof.
  induction s1 as [|c s1 IH]; [reflexivity|].
  change (String c ((s1 +:+ s2) +:+ s3) = String c (s1 +:+ (s2 +:+ s3))).
  now rewrite IH.
Qed.

Lemma HasPrefix_append prefix s : HasPrefix (prefix +:+ s) prefix = true.
Proof.
  unfold HasPrefix. induction prefix as [|c p IH]; [now destruct s|].
  change (String.prefix (String c p) (String c (p +:+ s)) = true).
  cbn [String.prefix]. destruct (ascii_dec c c); [exact IH | congruence].
Qed.

(** *** How often the prefix occurs *)

Lemma avoids_append c s t : avoids c s -> avoids c t -> avoids c (s +:+ t).
Proof.
  induction s as [|a s IH]; [intros _ Ht; exact Ht|].
  intros [Ha Hs] Ht. change (avoids c (String a (s +:+ t))).
  split; [exact Ha | now apply IH].
Qed.

Lemma avoids_zeros n : avoids "/" (zeros n).
Proof.
  induction n as [|n IH]; [exact I|].
  change (avoids "/" (String "0" (zeros n))). split; [discriminate | exact IH].
Qed.

Lemma avoids_digits n : avoids "/" (digits n).
Proof.
  unfold digits.
  assert (Hd : forall d, avoids "/" (NilEmpty.string_of_uint d)).
  { induction d; cbn; try exact I; (split; [discriminate | assumption]). }
  destruct (N.to_uint (Z.to_N n)) eqn:Hn; cbn [NilZero.string_of_uint];
    try apply Hd.
  split; [discriminate | exact I].
Qed.

(** No part of a time that [Format] writes has a slash. *)
Lemma avoids_appendInt x width : avoids "/" (appendInt x width).
Proof.
  unfold appendInt. apply avoids_append; [|apply avoids_append].
  - destruct (x <? 0); [split; [discriminate | exact I] | exact I].
  - apply avoids_zeros.
  - apply avoids_digits.
Qed.

Lemma prefix_empty s : String.prefix "" s = true.
Proof. now destruct s. Qed.

(** A string that starts where another ends needs the last character of
    that string. *)
Lemma prefix_past_end c tail :
  avoids c tail -> forall p, String.prefix (p +:+ String c "") tail = false.
Proof.
  induction tail as [|a tail IH]; intros Htail p.
  - now destruct p.
  - destruct Htail as [Ha Htail]. destruct p as [|b p].
    + change (String.prefix (String c "") (String a tail) = false).
      cbn [String.prefix]. destruct (ascii_dec c a); [congruence | reflexivity].
    + change (String.prefix (String b (p +:+ String c "")) (String a tail) = false).
      cbn [String.prefix]. destruct (ascii_dec b a); [now apply IH | reflexivity].
Qed.

Lemma prefix_append_avoiding c tail :
  avoids c tail ->
  forall s p,
    String.prefix (p +:+ String c "") (s +:+ tail)
    = String.prefix (p +:+ String c "") s.
Proof.
  intros Htail. induction s as [|a s IH]; intros p.
  - change ("" +:+ tail) with tail. rewrite (prefix_past_end _ _ Htail).
    now destruct p.
  - change (String a s +:+ tail) with (String a (s +:+ tail)).
    destruct p as [|b p].
    + change ("" +:+ String c "") with (String c ""). cbn [String.prefix].
      destruct (ascii_dec c a); [|reflexivity]. now rewrite !prefix_empty.
    + change (String b p +:+ String c "") with (String b (p +:+ String c "")).
      cbn [String.prefix]. destruct (ascii_dec b a); [apply IH | reflexivity].
Qed.

(** What comes after the name of the cluster has no slash, so s3:// does
    not start in it, or end in it. *)
Lemma occurrences_append_avoiding tail :
  avoids "/" tail ->
  forall s, occurrences "s3://" (s +:+ tail) = occurrences "s3://" s.
Proof.
  intros Htail.
  assert (Hnone : forall t, avoids "/" t -> occurrences "s3://" t = O).
  { induction t as [|a t IH]; [reflexivity|]. intros Ht.
    cbn [occurrences]. unfold HasPrefix.
    rewrite (prefix_past_end "/" _ Ht "s3:/"
             : String.prefix "s3://" (String a t) = false).
    destruct Ht as [_ Ht].
    now rewrite IH. }
  induction s as [|a s IH].
  - change ("" +:+ tail) with tail. now rewrite Hnone.
  - change (String a s +:+ tail) with (String a (s +:+ tail)).
    cbn [occurrences]. unfold HasPrefix.
    rewrite (prefix_append_avoiding "/" tail Htail (String a s) "s3:/" :
               String.prefix "s3://" (String a (s +:+ tail))
               = String.prefix "s3://" (String a s)).
    now rewrite IH.
Qed.

Lemma HasPrefix_other_start a b s p :
  a <> b -> HasPrefix (String b s) (String a p) = false.
Proof.
  intros Hab. unfold HasPrefix. cbn [String.prefix].
  destruct (ascii_dec a b); [contradiction | reflexivity].
Qed.

(** s3:// in front of a string is one more place where s3:// starts. *)
Lemma occurrences_prefixed s :
  occurrences "s3://" ("s3://" +:+ s) = S (occurrences "s3://" s).
Proof.
  pose proof (HasPrefix_append "s3://" s) as Hfirst.
  change ("s3://" +:+ s)
    with (String "s" (String "3" (String ":" (String "/" (String "/" s))))) in *.
  cbn [occurrences]. rewrite Hfirst.
  rewrite (HasPrefix_other_start "s" "3"), (HasPrefix_other_start "s" ":"),
    !(HasPrefix_other_start "s" "/") by discriminate.
  reflexivity.
Qed.

(** C4: the destination on S3 is the bucket, a slash, the name of the
    cluster, a dash, the creation time written year-day-month-hour:minute:second
    and the suffix -xtrabackup.stream; s3:// is put in front of all of it
    exactly when the bucket does not start with s3://.  Either way the
    destination starts with s3://: it is s3:// followed by the bucket without
    one leading s3:// and the rest.  The prefix does not always occur once,
    though: it occurs once more than it occurs in the bucket without that
    leading s3://, a slash and the name of the cluster, so exactly once when
    it does not occur there.  The bucket mybucket, the cluster some-name and
    the creation time 2024-03-07T15:04:05Z give
    s3://mybucket/some-name-2024-07-03-15:04:05-xtrabackup.stream, and so
    does the bucket s3://mybucket; in both the prefix occurs once. *)
Theorem s3Destination_format bucket pxcCluster created :
  let stamp :=
    appendInt (Year created) 4 +:+ "-" +:+ appendInt (Day created) 2 +:+ "-"
      +:+ appendInt (Month created) 2 +:+ "-" +:+ appendInt (Hour created) 2
      +:+ ":" +:+ appendInt (Minute created) 2 +:+ ":"
      +:+ appendInt (Sec created) 2 in
  let object := "/" +:+ pxcCluster +:+ "-" +:+ stamp +:+ "-xtrabackup.stream" in
  let inside :=
    occurrences "s3://" (TrimPrefix bucket "s3://" +:+ "/" +:+ pxcCluster) in
  s3Destination bucket pxcCluster created =
    (if HasPrefix bucket "s3://" then bucket +:+ object
     else "s3://" +:+ bucket +:+ object)
  /\ s3Destination bucket pxcCluster created =
       "s3://" +:+ TrimPrefix bucket "s3://" +:+ object
  /\ HasPrefix (s3Destination bucket pxcCluster created) "s3://" = true
  /\ occurrences "s3://" (s3Destination bucket pxcCluster created) = S inside
  /\ (occurrences "s3://" (s3Destination bucket pxcCluster created) = 1%nat
      <-> inside = O)
  /\ s3Destination "mybucket" "some-name" (mkTime 2024 3 7 15 4 5) =
       "s3://mybucket/some-name-2024-07-03-15:04:05-xtrabackup.stream"
  /\ s3Destination "s3://mybucket" "some-name" (mkTime 2024 3 7 15 4 5) =
       "s3://mybucket/some-name-2024-07-03-15:04:05-xtrabackup.stream"
  /\ occurrences "s3://"
       "s3://mybucket/some-name-2024-07-03-15:04:05-xtrabackup.stream" = 1%nat.
Proof.
  intros stamp object inside.
  assert (Hdest : s3Destination bucket pxcCluster created =
                  (if HasPrefix bucket "s3://" then bucket +:+ object
                   else "s3://" +:+ bucket +:+ object)).
  { unfold s3Destination. rewrite Format_layout.
    destruct (HasPrefix bucket "s3://"); reflexivity. }
  assert (Hnormal : s3Destination bucket pxcCluster created =
                    "s3://" +:+ TrimPrefix bucket "s3://" +:+ object).
  { rewrite Hdest. destruct (HasPrefix bucket "s3://") eqn:Hp.
    - rewrite (TrimPrefix_split _ _ Hp) at 1. now rewrite append_assoc'.
    - now rewrite (TrimPrefix_none _ _ Hp). }
  assert (Hstamp : avoids "/" ("-" +:+ stamp +:+ "-xtrabackup.stream")).
  { subst stamp.
    repeat first
      [ apply avoids_appendInt
      | apply avoids_append
      | (cbn; repeat split; discriminate) ]. }
  assert (Hcount : occurrences "s3://" (s3Destination bucket pxcCluster created)
                   = S inside).
  { rewrite Hnormal, occurrences_prefixed. f_equal. subst object inside.
    replace (TrimPrefix bucket "s3://"
               +:+ "/" +:+ pxcCluster +:+ "-" +:+ stamp +:+ "-xtrabackup.stream")
      with ((TrimPrefix bucket "s3://" +:+ "/" +:+ pxcCluster)
              +:+ ("-" +:+ stamp +:+ "-xtrabackup.stream"))
      by now rewrite !append_assoc'.
    now apply occurrences_append_avoiding. }
  split; [exact Hdest | split; [exact Hnormal | split]].
  - rewrite Hnormal. apply HasPrefix_append.
  - split; [exact Hcount|]. split.
    + rewrite Hcount. split; [now intros [= ->] | now intros ->].
    + repeat split; vm_compute; reflexivity.
Qed.

(** C4 as stated fails.  A bucket that starts with s3://s3:// starts with
    s3://, so nothing is put in front of the destination, and the prefix
    occurs in it twice. *)
Lemma s3Destination_prefix_twice :
  HasPrefix "s3://s3://mybucket" "s3://" = true
  /\ s3Destination "s3://s3://mybucket" "some-name" (mkTime 2024 3 7 15 4 5) =
       "s3://s3://mybucket/some-name-2024-07-03-15:04:05-xtrabackup.stream"
  /\ occurrences "s3://"
       (s3Destination "s3://s3://mybucket" "some-name" (mkTime 2024 3 7 15 4 5))
     = 2%nat
  /\ occurrences "s3://"
       (s3Destination "s3://s3://mybucket" "some-name" (mkTime 2024 3 7 15 4 5))
     <> 1%nat.
Proof. vm_compute. repeat split. discriminate. Qed.

(** ** The calls of the controller on the client *)

#[local] Ltac run :=
  cbv beta iota zeta delta [exec call bind ret Return_ panic perform].

Section StatusWrite.
Context {JobSpec PersistentVolumeClaimSpec : Type}.
Variable r : @ReconcilePerconaXtraDBBackup JobSpec PersistentVolumeClaimSpec.

(** What [updateJobStatus] does once the job is fetched. *)
Lemma updateJobStatus_fetched bcp job destination storageName s3 h fetched :
  answer_GetJob (client r) h (keyOf (job_ObjectMeta job)) = inl fetched ->
  let key := keyOf (job_ObjectMeta job) in
  let status := candidateStatus (job_Status fetched) destination storageName s3 in
  exec (updateJobStatus r bcp job destination storageName s3) h =
    if decide (bcp_Status bcp = status)
    then (Returned None, EvGetJob key :: h)
    else (Returned (answer_UpdateBackup (client r) (EvGetJob key :: h)
                      (withStatus bcp status)),
          EvUpdateBackup (withStatus bcp status) :: EvGetJob key :: h).
Proof.
  intros Hget key status.
  unfold updateJobStatus, client_GetJob, client_UpdateBackup. run.
  rewrite Hget. fold status.
  destruct (decide (bcp_Status bcp = status)); reflexivity.
Qed.


(** A job that is gone leaves the status alone. *)
Lemma updateJobStatus_job_not_found bcp job destination storageName s3 h err :
  answer_GetJob (client r) h (keyOf (job_ObjectMeta job)) = inr err ->
  IsNotFound err = true ->
  exec (updateJobStatus r bcp job destination storageName s3) h =
    (Returned None, EvGetJob (keyOf (job_ObjectMeta job)) :: h).
Proof.
  intros Hget Hnf. unfold updateJobStatus, client_GetJob. run.
  rewrite Hget, Hnf. reflexivity.
Qed.

(** [updateJobStatus] returns, and the fetch of the job is the first thing
    it adds to the history. *)
Lemma updateJobStatus_returns bcp job destination storageName s3 h :
  exists err added,
    updateJobStatus r bcp job destination storageName s3 h =
      (Return err, added ++ EvGetJob (keyOf (job_ObjectMeta job)) :: h)
    /\ forallb (fun ev => isUpdateBackup ev) added = true.
Proof.
  unfold updateJobStatus, client_GetJob, client_UpdateBackup. run.
  destruct (answer_GetJob _ _ _) as [fetched|err].
  - destruct (decide _).
    + exists None, []. split; reflexivity.
    + eexists _, [_]. split; reflexivity.
  - destruct (IsNotFound err); eexists _, []; split; reflexivity.
Qed.
End StatusWrite.

Section Reconciliation.
Context {JobSpec PersistentVolumeClaimSpec : Type}.
Variable pkg : @BackupPkg JobSpec PersistentVolumeClaimSpec.
Variable r : @ReconcilePerconaXtraDBBackup JobSpec PersistentVolumeClaimSpec.

(** *** An unknown cluster *)

(** When no cluster has the name, the loop of [getClusterConfig] passes
    them all and collects every name, in the order of the list. *)
Lemma findCluster_none name
    (items : list (@PerconaXtraDBCluster PersistentVolumeClaimSpec)) available :
  Forall (fun c => clusterName c <> name) items ->
  findCluster name items available = inr (available ++ map clusterName items).
Proof.
  intros Hnone. revert available.
  induction Hnone as [|c items Hc _ IH]; intros available; simpl.
  - now rewrite app_nil_r.
  - apply String.eqb_neq in Hc. unfold clusterName in Hc. rewrite Hc.
    rewrite IH, <- app_assoc. reflexivity.
Qed.

(** The cluster found has the name asked for. *)
Lemma findCluster_found name
    (items : list (@PerconaXtraDBCluster PersistentVolumeClaimSpec)) available c :
  findCluster name items available = inl c -> clusterName c = name /\ In c items.
Proof.
  revert available. induction items as [|c' items IH]; intros available; simpl.
  - discriminate.
  - destruct (String.eqb _ _) eqn:E.
    + intros [= <-]. apply String.eqb_eq in E. auto.
    + intros H. destruct (IH _ H). auto.
Qed.

(** C6: a request that names a cluster none of the clusters of its
    namespace has makes [Reconcile] return the error that carries the name
    asked for and the names of all the clusters of the namespace, after
    the fetch of the request and the listing of the clusters and nothing
    else: no claim and no job is created. *)
Theorem Reconcile_unknown_cluster request h instance items :
  answer_GetBackup (client r) h (req_NamespacedName request) = inl instance ->
  answer_ListClusters (client r)
    (EvGetBackup (req_NamespacedName request) :: h)
    (Namespace (bcp_ObjectMeta instance)) = inl items ->
  Forall (fun c => clusterName c <> PXCCluster (bcp_Spec instance)) items ->
  exec (Reconcile pkg r request) h =
    (Returned
       (noResult,
        Some (Errorf "invalid backup cluster: %v"
                [ArgError
                   (Errorf "wrong cluster name: %q. Clusters avaliable: %q"
                      [ArgString (PXCCluster (bcp_Spec instance));
                       ArgStrings (map clusterName items)])])),
     EvListClusters (Namespace (bcp_ObjectMeta instance))
       :: EvGetBackup (req_NamespacedName request) :: h).
Proof.
  intros Hget Hlist Hnone.
  unfold Reconcile, getClusterConfig, client_GetBackup, client_ListClusters. run.
  rewrite Hget. cbv beta iota. rewrite Hlist. cbv beta iota.
  rewrite (findCluster_none _ _ [] Hnone). reflexivity.
Qed.

(** *** The creation of the job *)

(** C8: when the creation of the job succeeds, and when it fails because
    the job already exists, the reconciliation goes on to the status step
    and returns what that step gives.  On any other failure it returns the
    error to the caller at once: the creation is the last call made, so no
    status is written. *)
Theorem submitJob_create_outcomes rr instance job destination s3status h ownerRef :
  OwnerRef pkg instance = inl ownerRef ->
  let job' := {| job_ObjectMeta := withOwner (job_ObjectMeta job) ownerRef;
                 job_Spec := job_Spec job; job_Status := job_Status job |} in
  exec (submitJob pkg r rr instance job destination s3status) h =
    match answer_CreateJob (client r) h job' with
    | None => statusStep r rr instance job' destination s3status (EvCreateJob job' :: h)
    | Some err =>
        if IsAlreadyExists err
        then statusStep r rr instance job' destination s3status (EvCreateJob job' :: h)
        else (Returned (noResult, Some (Errorf "create backup job: %v" [ArgError err])),
              EvCreateJob job' :: h)
    end.
Proof.
  intros Howner job'.
  unfold submitJob, statusStep, setControllerReference, client_CreateJob.
  rewrite Howner. fold job'.
  run.
  destruct (answer_CreateJob (client r) h job') as [err|]; cbn beta iota.
  - destruct (IsAlreadyExists err); cbn [negb]; cbn beta iota; [|reflexivity].
    destruct (updateJobStatus _ _ _ _ _ _ _) as [[ | | ] ?]; reflexivity.
  - destruct (updateJobStatus _ _ _ _ _ _ _) as [[ | | ] ?]; reflexivity.
Qed.
End Reconciliation.

(** ** Waiting for the claim *)

Section Waiting.
Context {JobSpec PersistentVolumeClaimSpec : Type}.
Variable r : @ReconcilePerconaXtraDBBackup JobSpec PersistentVolumeClaimSpec.

Abbreviation claimOf a pvc :=
  (match a with inl fetched => fetched | inr _ => pvc end).

(** A round that does not find the claim bound sleeps [i] seconds and goes
    on with the next. *)
Lemma waitPVC_round_waiting n i pvc status h :
  let key := keyOf (pvc_ObjectMeta pvc) in
  let a := answer_GetPVC (client r) h key in
  keepsWaiting key a ->
  waitPVC r (S n) i pvc status h =
    waitPVC r n (i + 1) (claimOf a pvc) (observedStatus a)
      (EvSleep (Second * i) :: EvGetPVC key :: h).
Proof.
  intros key a Hwait. cbn [waitPVC]. unfold pvcStatus, client_GetPVC, Sleep. run.
  fold key. fold a. unfold keepsWaiting in Hwait.
  destruct a as [fetched|err]; cbn [observedStatus].
  - destruct Hwait as [_ Hphase]. apply String.eqb_neq in Hphase.
    rewrite Hphase. reflexivity.
  - rewrite Hwait. cbn [negb]. reflexivity.
Qed.

(** A round that finds the claim bound leaves the loop after the fetch. *)
Lemma waitPVC_round_bound n i pvc status h bound :
  let key := keyOf (pvc_ObjectMeta pvc) in
  answer_GetPVC (client r) h key = inl bound ->
  Phase bound = VolumeBound ->
  waitPVC r (S n) i pvc status h = (Next (bound, VolumeBound), EvGetPVC key :: h).
Proof.
  intros key Hget Hphase. cbn [waitPVC]. unfold pvcStatus, client_GetPVC. run.
  fold key. rewrite Hget, Hphase. reflexivity.
Qed.

(** A round whose fetch fails for another reason than a missing claim ends
    the reconciliation. *)
Lemma waitPVC_round_failed n i pvc status h err :
  let key := keyOf (pvc_ObjectMeta pvc) in
  answer_GetPVC (client r) h key = inr err ->
  IsNotFound err = false ->
  waitPVC r (S n) i pvc status h =
    (Return (noResult, Some (Errorf "get pvc status: %v" [ArgError err])),
     EvGetPVC key :: h).
Proof.
  intros key Hget Hnf. cbn [waitPVC]. unfold pvcStatus, client_GetPVC. run.
  fold key. rewrite Hget, Hnf. reflexivity.
Qed.

(** [m] rounds that do not find the claim bound. *)
Lemma waitPVC_rounds_waiting key m :
  forall n i pvc status h,
    keyOf (pvc_ObjectMeta pvc) = key ->
    (forall k, (k < m)%nat ->
       keepsWaiting key (answer_GetPVC (client r) (unboundRounds key i k h) key)) ->
    exists pvc' status',
      keyOf (pvc_ObjectMeta pvc') = key
      /\ (forall m', m = S m' ->
            status' = observedStatus
                        (answer_GetPVC (client r) (unboundRounds key i m' h) key))
      /\ (m = O -> pvc' = pvc /\ status' = status)
      /\ waitPVC r (m + n) i pvc status h =
           waitPVC r n (i + Z.of_nat m) pvc' status' (unboundRounds key i m h).
Proof.
  induction m as [|m IH]; intros n i pvc status h Hkey Hwait.
  - exists pvc, status. rewrite Z.add_0_r.
    split; [exact Hkey | split; [discriminate | split; [auto | reflexivity]]].
  - destruct (IH (S n) i pvc status h Hkey) as (pvc1 & status1 & Hkey1 & _ & _ & Hrun).
    { intros k Hk. apply Hwait. lia. }
    pose proof (Hwait m (Nat.lt_succ_diag_r m)) as Hm.
    set (a := answer_GetPVC (client r) (unboundRounds key i m h) key) in *.
    exists (claimOf a pvc1), (observedStatus a).
    split; [|split; [|split]].
    + destruct a as [fetched|err]; [apply Hm | exact Hkey1].
    + intros m' [= <-]. reflexivity.
    + discriminate.
    + replace (S m + n)%nat with (m + S n)%nat by lia. rewrite Hrun.
      rewrite waitPVC_round_waiting; rewrite Hkey1; [|exact Hm].
      fold a. cbn [unboundRounds].
      replace (i + Z.of_nat (S m)) with (i + Z.of_nat m + 1) by lia.
      reflexivity.
Qed.

Lemma observed_waiting key
    (a : @PersistentVolumeClaim PersistentVolumeClaimSpec + GoError) :
  keepsWaiting key a -> observedStatus a <> VolumeBound.
Proof. destruct a as [fetched|err]; simpl; [tauto | discriminate]. Qed.

(** C1, as the code has it.  Let the first [n] rounds of the loop find the
    claim not bound (in another phase, or missing).  If [n < 5] and round
    [n + 1] finds it bound, the loop ends there with that claim: [n + 1]
    fetches, a sleep of [k] seconds after each round [k <= n], and nothing
    after the last fetch.  If [n = 5], the claim was fetched five times
    and the loop slept after every one of the five rounds, 1, 2, 3, 4 and
    5 seconds, the last sleep after the last check; the reconciliation then
    fails with the error that carries the status seen in round five. *)
Theorem waitPVCBound_polls pvc h n bound :
  let key := keyOf (pvc_ObjectMeta pvc) in
  let answer k := answer_GetPVC (client r) (unboundRounds key 1 k h) key in
  (n <= 5)%nat ->
  (forall k, (k < n)%nat -> keepsWaiting key (answer k)) ->
  ((n < 5)%nat -> answer n = inl bound /\ Phase bound = VolumeBound) ->
  waitPVCBound r pvc h =
    if (n <? 5)%nat
    then (Next bound, EvGetPVC key :: unboundRounds key 1 n h)
    else (Return (noResult,
                  Some (Errorf "pvc not ready, status: %s"
                          [ArgString (observedStatus (answer 4%nat))])),
          EvSleep (Second * 5) :: EvGetPVC key
            :: EvSleep (Second * 4) :: EvGetPVC key
            :: EvSleep (Second * 3) :: EvGetPVC key
            :: EvSleep (Second * 2) :: EvGetPVC key
            :: EvSleep (Second * 1) :: EvGetPVC key :: h).
Proof.
  intros key answer Hn Hwait Hbound.
  destruct (n <? 5)%nat eqn:Hlt.
  - apply Nat.ltb_lt in Hlt. destruct (Hbound Hlt) as [Hget Hphase].
    destruct (waitPVC_rounds_waiting key n (S (4 - n)) 1 pvc "" h eq_refl Hwait)
      as (pvc1 & status1 & Hkey1 & _ & _ & Hrun).
    replace (n + S (4 - n))%nat with 5%nat in Hrun by lia.
    unfold waitPVCBound, bind. rewrite Hrun.
    pose proof (waitPVC_round_bound (4 - n) (1 + Z.of_nat n) pvc1 status1
                  (unboundRounds key 1 n h) bound) as Hlast.
    cbv zeta in Hlast. rewrite Hkey1 in Hlast.
    rewrite (Hlast Hget Hphase). reflexivity.
  - apply Nat.ltb_ge in Hlt. assert (n = 5%nat) as -> by lia.
    destruct (waitPVC_rounds_waiting key 5 0 1 pvc "" h eq_refl Hwait)
      as (pvc1 & status1 & _ & Hstatus & _ & Hrun).
    specialize (Hstatus 4%nat eq_refl). fold (answer 4%nat) in Hstatus.
    unfold waitPVCBound, bind. cbn [Nat.add] in Hrun. rewrite Hrun.
    cbn [waitPVC]. unfold ret, Return_.
    pose proof (observed_waiting key _ (Hwait 4%nat ltac:(lia))) as Hne.
    fold (answer 4%nat) in Hne. rewrite <- Hstatus in Hne.
    apply String.eqb_neq in Hne. rewrite Hne. cbn [negb].
    rewrite Hstatus. reflexivity.
Qed.

(** Five rounds of waiting sleep fifteen seconds in all and fetch the
    claim five times. *)
Lemma unboundRounds_five key (h : list (@Event JobSpec PersistentVolumeClaimSpec)) :
  slept (unboundRounds key 1 5 h) = 15 * Second + slept h
  /\ fetches (unboundRounds key 1 5 h) = (5 + fetches h)%nat.
Proof.
  split.
  - cbn [unboundRounds slept fold_right sleepOf]. fold (slept h).
    unfold Second. simpl. lia.
  - reflexivity.
Qed.
End Waiting.

(** ** What a body adds to the history *)

Section Adds.
Context {Ev : Type}.
Variable Q : Ev -> Prop.

Lemma early_quiet {R A} ok (m : @M Ev R A) : early Q ok m -> quiet Q m.
Proof. intros H h. destruct (H h) as (added & ? & ? & _). eauto. Qed.

Lemma early_ret {R A} ok (a : A) : early (R := R) Q ok (ret a).
Proof. intros h. exists []. repeat split; constructor. Qed.

Lemma early_Return {R A} (ok : R -> Prop) res : ok res -> early (A := A) Q ok (Return_ res).
Proof. intros H h. exists []. repeat split; [constructor | exact H]. Qed.

Lemma early_panic {R A} ok : early (R := R) (A := A) Q ok panic.
Proof. intros h. exists []. repeat split; constructor. Qed.

Lemma early_perform {R A} ok ev (answer : list Ev -> A) :
  Q ev -> early (R := R) Q ok (perform ev answer).
Proof. intros H h. exists [ev]. repeat split; auto. Qed.

Lemma early_bind {R A B} ok (m : @M Ev R A) (k : A -> @M Ev R B) :
  early Q ok m -> (forall a, early Q ok (k a)) -> early Q ok (bind m k).
Proof.
  intros Hm Hk h. unfold bind.
  destruct (Hm h) as (added1 & Htr1 & HQ1 & Hok1).
  destruct (m h) as [[a|res|] h1]; simpl in *; subst h1.
  - destruct (Hk a (added1 ++ h)) as (added2 & Htr2 & HQ2 & Hok2).
    exists (added2 ++ added1). rewrite Htr2, app_assoc.
    repeat split; [apply Forall_app; auto | exact Hok2].
  - exists added1. auto.
  - exists added1. auto.
Qed.

(** A call of a function whose body is quiet: what it returns is a value
    for the caller. *)
Lemma early_call {R R'} ok (body : @M Ev R' R') :
  quiet Q body -> early (R := R) Q ok (call body).
Proof.
  intros Hb h. destruct (Hb h) as (added & Htr & HQ).
  exists added. unfold call, exec.
  destruct (body h) as [[a|res|] h1]; simpl in *; auto.
Qed.

Lemma yields_ret {R A} (post : A -> Prop) a : post a -> yields (R := R) Q post (ret a).
Proof.
  intros H h. exists []. split; [reflexivity | split; [constructor|]].
  now intros a' [= <-].
Qed.

Lemma yields_Return {R A} (post : A -> Prop) (res : R) : yields Q post (Return_ res).
Proof. intros h. exists []. split; [reflexivity | split; [constructor | discriminate]]. Qed.

Lemma yields_panic {R A} (post : A -> Prop) : yields (R := R) Q post panic.
Proof. intros h. exists []. split; [reflexivity | split; [constructor | discriminate]]. Qed.

Lemma yields_perform {R A} (post : A -> Prop) ev (answer : list Ev -> A) :
  Q ev -> (forall h, post (answer h)) -> yields (R := R) Q post (perform ev answer).
Proof.
  intros HQ Hpost h. exists [ev]. split; [reflexivity | split; [auto|]].
  intros a [= <-]. apply Hpost.
Qed.

Lemma yields_bind {R A B} (post1 : A -> Prop) (post : B -> Prop)
    (m : @M Ev R A) (k : A -> @M Ev R B) :
  yields Q post1 m -> (forall a, post1 a -> yields Q post (k a)) ->
  yields Q post (bind m k).
Proof.
  intros Hm Hk h. unfold bind.
  destruct (Hm h) as (added1 & Htr1 & HQ1 & Hpost1).
  destruct (m h) as [[a|res|] h1]; simpl in *; subst h1.
  - destruct (Hk a (Hpost1 a eq_refl) (added1 ++ h)) as (added2 & Htr2 & HQ2 & Hpost2).
    exists (added2 ++ added1). rewrite Htr2, app_assoc.
    split; [reflexivity | split; [apply Forall_app; auto | exact Hpost2]].
  - exists added1. split; [reflexivity | split; [auto | discriminate]].
  - exists added1. split; [reflexivity | split; [auto | discriminate]].
Qed.
End Adds.

Section Unpanicked.
Context {Ev : Type}.

Lemma unpanicked_ret {R A} (post : A -> Prop) a :
  post a -> unpanicked (Ev := Ev) (R := R) post (ret a).
Proof. intros H h. exact H. Qed.

Lemma unpanicked_Return {R A} (post : A -> Prop) (res : R) :
  unpanicked (Ev := Ev) post (Return_ res).
Proof. intros h. exact I. Qed.

Lemma unpanicked_perform {R A} (post : A -> Prop) (ev : Ev) (answer : list Ev -> A) :
  (forall h, post (answer h)) -> unpanicked (R := R) post (perform ev answer).
Proof. intros H h. apply H. Qed.

Lemma unpanicked_bind {R A B} (post1 : A -> Prop) (post : B -> Prop)
    (m : @M Ev R A) (k : A -> @M Ev R B) :
  unpanicked post1 m -> (forall a, post1 a -> unpanicked post (k a)) ->
  unpanicked post (bind m k).
Proof.
  intros Hm Hk h. unfold bind. specialize (Hm h).
  destruct (m h) as [[a|res|] h1]; simpl in *; [|exact I|contradiction].
  apply (Hk a Hm).
Qed.

Lemma unpanicked_weaken {R A} (post1 post : A -> Prop) (m : @M Ev R A) :
  unpanicked post1 m -> (forall a, post1 a -> post a) -> unpanicked post m.
Proof.
  intros Hm Hw h. specialize (Hm h). destruct (fst (m h)); auto.
Qed.
End Unpanicked.

#[local] Ltac calm_step :=
  lazymatch goal with
  | |- unpanicked _ (bind _ _) =>
      apply unpanicked_bind with (post1 := fun _ => True); [|intros ? _]
  | |- unpanicked _ (ret _) => apply unpanicked_ret; try exact I
  | |- unpanicked _ (Return_ _) => apply unpanicked_Return
  | |- unpanicked _ (perform _ _) => apply unpanicked_perform; intros; try exact I
  | |- unpanicked _ (match ?x with _ => _ end) => destruct x eqn:?
  end.

#[local] Ltac early_step :=
  lazymatch goal with
  | |- early _ _ (bind _ _) => apply early_bind; [|intros ?]
  | |- early _ _ (ret _) => apply early_ret
  | |- early _ _ (Return_ _) => apply early_Return
  | |- early _ _ panic => apply early_panic
  | |- early _ _ (perform _ _) => apply early_perform
  | |- early _ _ (match ?x with _ => _ end) => destruct x eqn:?
  end.

(** ** How a reconciliation ends *)

Section Requeue.
Context {JobSpec PersistentVolumeClaimSpec : Type}.
Variable pkg : @BackupPkg JobSpec PersistentVolumeClaimSpec.
Variable r : @ReconcilePerconaXtraDBBackup JobSpec PersistentVolumeClaimSpec.

Abbreviation before := (@beforeStatus JobSpec PersistentVolumeClaimSpec).

#[local] Ltac early_auto :=
  repeat (early_step;
          try reflexivity;
          try (split; [reflexivity | discriminate])).

Lemma getClusterConfig_quiet cr : quiet before (getClusterConfig r cr).
Proof.
  apply early_quiet with (ok := fun _ => True).
  unfold getClusterConfig, client_ListClusters. early_auto; exact I.
Qed.

Lemma waitPVC_early n : forall i pvc status, early before fatal (waitPVC r n i pvc status).
Proof.
  induction n as [|n IH]; intros i pvc status; cbn [waitPVC].
  - apply early_ret.
  - unfold pvcStatus, client_GetPVC, Sleep. early_auto. apply IH.
Qed.

Lemma storageFilesystem_early instance cluster bcp bcpStorage job :
  early before fatal (storageFilesystem pkg r instance cluster bcp bcpStorage job).
Proof.
  unfold storageFilesystem, waitPVCBound, client_GetPVC, client_CreatePVC.
  early_auto; apply waitPVC_early.
Qed.

Lemma storageS3_early instance cluster bcp bcpStorage job :
  early before fatal (storageS3 pkg instance cluster bcp bcpStorage job).
Proof. unfold storageS3. early_auto. Qed.

Lemma submitJob_finishes rr instance job destination s3status :
  finishes rr (submitJob pkg r rr instance job destination s3status).
Proof.
  intros h. unfold submitJob, setControllerReference, client_CreateJob. run.
  destruct (OwnerRef pkg instance) as [ownerRef|err].
  - destruct (answer_CreateJob _ _ _) as [err|].
    + destruct (IsAlreadyExists err); cbn [negb].
      * destruct (updateJobStatus_returns r instance
                    {| job_ObjectMeta := withOwner (job_ObjectMeta job) ownerRef;
                       job_Spec := job_Spec job; job_Status := job_Status job |}
                    destination (StorageName (bcp_Spec instance)) s3status
                    (EvCreateJob
                       {| job_ObjectMeta := withOwner (job_ObjectMeta job) ownerRef;
                          job_Spec := job_Spec job; job_Status := job_Status job |} :: h))
          as (e & added & -> & _).
        eexists (added ++ [_; _]). rewrite <- app_assoc. split; [reflexivity|].
        cbn [fst endsWith]. rewrite existsb_app. cbn. now rewrite orb_true_r.
      * eexists [_]. split; [reflexivity|]. cbn. split; [reflexivity|discriminate].
    + destruct (updateJobStatus_returns r instance
                  {| job_ObjectMeta := withOwner (job_ObjectMeta job) ownerRef;
                     job_Spec := job_Spec job; job_Status := job_Status job |}
                  destination (StorageName (bcp_Spec instance)) s3status
                  (EvCreateJob
                     {| job_ObjectMeta := withOwner (job_ObjectMeta job) ownerRef;
                        job_Spec := job_Spec job; job_Status := job_Status job |} :: h))
        as (e & added & -> & _).
      eexists (added ++ [_; _]). rewrite <- app_assoc. split; [reflexivity|].
      cbn [fst endsWith]. rewrite existsb_app. cbn. now rewrite orb_true_r.
  - exists []. split; [reflexivity|]. cbn. split; [reflexivity|discriminate].
Qed.

Lemma before_no_status (added : list (@Event JobSpec PersistentVolumeClaimSpec)) :
  Forall before added -> existsb isGetJob added = false.
Proof.
  induction 1 as [|ev added Hev _ IH]; [reflexivity|].
  cbn [existsb]. unfold beforeStatus in Hev. now rewrite Hev, IH.
Qed.

(** The steps before the status step, followed by a body that finishes. *)
Lemma finishes_bind {A} rr (m : @M _ Ret A) k :
  early before fatal m -> (forall a, finishes rr (k a)) -> finishes rr (bind m k).
Proof.
  intros Hm Hk h. unfold exec, bind.
  destruct (Hm h) as (added1 & Htr1 & HQ1 & Hok1).
  pose proof (before_no_status _ HQ1) as Hno.
  destruct (m h) as [[a|res|] h1]; simpl in *; subst h1.
  - destruct (Hk a (added1 ++ h)) as (added2 & Htr2 & Hend).
    exists (added2 ++ added1). unfold exec in *. rewrite <- app_assoc.
    destruct (k a (added1 ++ h)) as [[res|res|] h2]; simpl in *; subst h2;
      (split; [reflexivity|]); rewrite existsb_app, Hno, orb_false_r; exact Hend.
  - exists added1. rewrite Hno. auto.
  - exists added1. auto.
Qed.

(** [Reconcile] once the request is fetched. *)
Lemma Reconcile_fetched request h instance :
  answer_GetBackup (client r) h (req_NamespacedName request) = inl instance ->
  exists added,
    snd (exec (Reconcile pkg r request) h) =
      added ++ EvGetBackup (req_NamespacedName request) :: h
    /\ endsWith requeueAfter5s added (fst (exec (Reconcile pkg r request) h)).
Proof.
  intros Hget. unfold Reconcile, client_GetBackup, SelectNode.
  change (Second * 5) with (5 * Second). fold requeueAfter5s.
  lazymatch goal with
  | |- context [exec (bind (perform ?ev ?answer) (fun got => bind _ ?k)) h] =>
      assert (Hrest : finishes requeueAfter5s (k instance));
      [| destruct (Hrest (ev :: h)) as (added & Htr & Hend);
         exists added;
         replace (exec (bind (perform ev answer) (fun got => bind _ k)) h)
           with (exec (k instance) (ev :: h));
         [auto | unfold exec, bind, perform; cbv beta; rewrite Hget; reflexivity] ]
  end.
  cbv beta.
  repeat first
    [ apply submitJob_finishes
    | apply finishes_bind; [|intros ?]
    | apply early_call, getClusterConfig_quiet
    | apply storageFilesystem_early
    | apply storageS3_early
    | early_step; try reflexivity; try (split; [reflexivity | discriminate])
    | lazymatch goal with
      | |- finishes _ (match ?x with _ => _ end) => destruct x
      end ].
Qed.

(** C2, as the code has it.  When the fetch of the request does not
    report a missing request, a reconciliation that comes to the status
    step returns the result that asks to come back in five seconds, with
    the error of the status step if there is one; a reconciliation that
    fails before the status step returns the empty result, which asks for
    nothing, next to its error.  So a reconciliation without an error asks
    to come back in five seconds. *)
Theorem Reconcile_requeue request h :
  (forall err, answer_GetBackup (client r) h (req_NamespacedName request) = inr err ->
               IsNotFound err = false) ->
  exists added,
    snd (exec (Reconcile pkg r request) h) = added ++ h
    /\ endsWith requeueAfter5s added (fst (exec (Reconcile pkg r request) h))
    /\ match fst (exec (Reconcile pkg r request) h) with
       | Returned (res, None) => res = requeueAfter5s
       | _ => True
       end.
Proof.
  intros Herr.
  assert (Hends : exists added,
             snd (exec (Reconcile pkg r request) h) = added ++ h
             /\ endsWith requeueAfter5s added (fst (exec (Reconcile pkg r request) h))).
  { destruct (answer_GetBackup (client r) h (req_NamespacedName request))
      as [instance|err] eqn:Hget.
    - destruct (Reconcile_fetched request h instance Hget) as (added & Htr & Hend).
      exists (added ++ [EvGetBackup (req_NamespacedName request)]).
      rewrite <- app_assoc. split; [exact Htr|].
      destruct (fst (exec (Reconcile pkg r request) h)) as [res|];
        cbn [endsWith] in *; rewrite existsb_app; cbn [existsb isGetJob];
        rewrite orb_false_r; exact Hend.
    - specialize (Herr err eq_refl).
      exists [EvGetBackup (req_NamespacedName request)].
      unfold Reconcile, client_GetBackup. run. rewrite Hget, Herr.
      split; [reflexivity|]. cbn. split; [reflexivity|discriminate]. }
  destruct Hends as (added & Htr & Hend). exists added.
  split; [exact Htr | split; [exact Hend|]].
  destruct (fst (exec (Reconcile pkg r request) h)) as [[res [err|]]|]; try exact I.
  cbn [endsWith] in Hend. destruct (existsb isGetJob added).
  - exact Hend.
  - destruct Hend as [_ Hne]. now elim Hne.
Qed.

(** When the request is not found, the result that is returned is [rr],
    without an error. *)
Lemma Reconcile_request_not_found request h err :
  answer_GetBackup (client r) h (req_NamespacedName request) = inr err ->
  IsNotFound err = true ->
  exec (Reconcile pkg r request) h =
    (Returned (requeueAfter5s, None), EvGetBackup (req_NamespacedName request) :: h).
Proof.
  intros Hget Hnf. unfold Reconcile, client_GetBackup. run. rewrite Hget, Hnf.
  reflexivity.
Qed.

(** *** The check for the claim *)

(** When the fetch that checks for the claim fails with another error than
    a missing claim, the filesystem path neither returns the error nor
    creates the claim: it goes on to wait for the claim. *)
Lemma storageFilesystem_failed_check instance cluster bcp bcpStorage job h
    spec ownerRef err :
  Volume bcpStorage = Some {| volume_PersistentVolumeClaim := Some spec |} ->
  OwnerRef pkg instance = inl ownerRef ->
  let pvc := {| pvc_ObjectMeta :=
                  withOwner (pvc_ObjectMeta (backupPVC pkg instance spec)) ownerRef;
                pvc_Spec := spec;
                Phase := Phase (backupPVC pkg instance spec) |} in
  answer_GetPVC (client r) h (keyOf (pvc_ObjectMeta pvc)) = inr err ->
  IsNotFound err = false ->
  storageFilesystem pkg r instance cluster bcp bcpStorage job h =
    bind (waitPVCBound r pvc)
      (fun pvc' =>
         match backup_SetStoragePVC pkg cluster bcp (job_Spec job)
                 (Name (pvc_ObjectMeta pvc')) with
         | (_, Some err) =>
             Return_ (noResult, Some (Errorf "set storage FS: %v" [ArgError err]))
         | (spec', None) =>
             ret (withJobSpec job spec', pvcDestination (backupPVC pkg instance spec))
         end)
      (EvGetPVC (keyOf (pvc_ObjectMeta pvc)) :: h).
Proof.
  intros Hvolume Howner pvc Hget Hnf.
  unfold storageFilesystem, setControllerReference, client_GetPVC.
  rewrite Hvolume, Howner. cbn [volume_PersistentVolumeClaim].
  unfold bind at 1. unfold ret at 1. unfold bind at 1. unfold ret at 1.
  unfold bind at 1. unfold perform at 1. cbn [pvc_Spec backupPVC].
  fold pvc. rewrite Hget. unfold bind at 1. rewrite Hnf. unfold ret at 1.
  reflexivity.
Qed.

(** *** [Reconcile] returns *)

Lemma waitPVC_unpanicked n :
  forall i pvc status, unpanicked (fun _ => True) (waitPVC r n i pvc status).
Proof.
  induction n as [|n IH]; intros i pvc status; cbn [waitPVC].
  - now apply unpanicked_ret.
  - unfold pvcStatus, client_GetPVC, Sleep. repeat calm_step. apply IH.
Qed.

Lemma storageFilesystem_unpanicked instance cluster bcp bcpStorage job :
  hasClaimTemplate bcpStorage ->
  storage_Type bcpStorage = BackupStorageFilesystem ->
  unpanicked (fun _ => True) (storageFilesystem pkg r instance cluster bcp bcpStorage job).
Proof.
  intros Htemplate Htype. destruct (Htemplate Htype) as [spec Hspec].
  unfold storageFilesystem, waitPVCBound, client_GetPVC, client_CreatePVC.
  rewrite Hspec. cbn [volume_PersistentVolumeClaim].
  repeat first [apply waitPVC_unpanicked | calm_step].
Qed.

Lemma submitJob_unpanicked rr instance job destination s3status :
  unpanicked (fun _ => True) (submitJob pkg r rr instance job destination s3status).
Proof.
  unfold submitJob, client_CreateJob.
  repeat first
    [ calm_step
    | lazymatch goal with
      | |- unpanicked _ (call (updateJobStatus ?r ?i ?j ?d ?sn ?s3)) =>
          intros h; unfold call, exec;
          destruct (updateJobStatus_returns r i j d sn s3 h) as (e & added & -> & _);
          exact I
      end ].
Qed.

(** X1: a reconciliation with a client that lists clusters whose filesystem
    storages have their claim templates does not panic: it returns. *)
Lemma Reconcile_returns request h :
  listsTemplates (client r) ->
  exists res, fst (exec (Reconcile pkg r request) h) = Returned res.
Proof.
  intros Hlists.
  assert (Hcalm : unpanicked (fun _ => True) (Reconcile pkg r request)).
  { unfold Reconcile, client_GetBackup, SelectNode.
    calm_step; [calm_step|]. calm_step; [repeat calm_step|].
    apply unpanicked_bind
      with (post1 := fun found =>
                       forall cluster, found = inl cluster -> clusterTemplates cluster).
    { intros h1. unfold call, exec, getClusterConfig, client_ListClusters. run.
      destruct (answer_ListClusters _ _ _) as [items|err] eqn:Hlist; [|discriminate].
      destruct (findCluster _ _ _) as [cluster|names] eqn:Hfind; [|discriminate].
      intros cluster' [= <-]. apply findCluster_found in Hfind as [_ Hin].
      apply Hlists in Hlist. rewrite Forall_forall in Hlist.
      apply Hlist, list_elem_of_In, Hin. }
    intros found Hfound.
    apply unpanicked_bind with (post1 := clusterTemplates).
    { destruct found as [cluster|err]; [|apply unpanicked_Return].
      apply unpanicked_ret. now apply Hfound. }
    intros cluster Hcluster.
    apply unpanicked_bind
      with (post1 := fun bcp => forall name st,
                        Storages bcp !! name = Some st -> hasClaimTemplate st).
    { destruct (Backup (cluster_Spec cluster)) as [bcp|] eqn:Hbcp;
        [|apply unpanicked_Return].
      apply unpanicked_ret. intros name st. now apply Hcluster. }
    intros bcp Hbcp.
    calm_step; [calm_step|]. calm_step; [repeat calm_step|].
    apply unpanicked_bind with (post1 := hasClaimTemplate).
    { destruct (Storages bcp !! _) as [st|] eqn:Hst;
        [|apply unpanicked_Return].
      apply unpanicked_ret. now apply (Hbcp _ _ Hst). }
    intros bcpStorage Htemplate.
    apply unpanicked_bind with (post1 := fun _ => True).
    { destruct (storage_Type bcpStorage) eqn:Htype.
      - calm_step; [now apply storageFilesystem_unpanicked | calm_step].
      - unfold storageS3. repeat calm_step.
      - calm_step. }
    intros [[job destination] s3status] _. apply submitJob_unpanicked. }
  specialize (Hcalm h). unfold exec.
  destruct (Reconcile pkg r request h) as [[res|res|] h1]; simpl in *;
    [eauto | eauto | contradiction].
Qed.
End Requeue.

(** ** The name of the volume *)

Section VolumeName.
Context {JobSpec PersistentVolumeClaimSpec : Type}.
Variable pkg : @BackupPkg JobSpec PersistentVolumeClaimSpec.
Variable r : @ReconcilePerconaXtraDBBackup JobSpec PersistentVolumeClaimSpec.
Hypothesis Hkeys : answersUnderKey (client r).

(** The loop fetches the claim under the name it was given, and hands on a
    claim of that name. *)
Lemma waitPVC_named name n :
  forall i pvc status h,
    Name (pvc_ObjectMeta pvc) = name ->
    exists added,
      snd (waitPVC r n i pvc status h) = added ++ h
      /\ Forall (aboutVolume name) added
      /\ forall pvc' status',
           fst (waitPVC r n i pvc status h) = Next (pvc', status') ->
           Name (pvc_ObjectMeta pvc') = name.
Proof.
  induction n as [|n IH]; intros i pvc status h Hname.
  - exists []. cbn. split; [reflexivity | split; [constructor|]].
    now intros pvc' status' [= <- _].
  - assert (Hget : aboutVolume name (@EvGetPVC JobSpec PersistentVolumeClaimSpec
                                       (keyOf (pvc_ObjectMeta pvc)))).
    { intros k [= <-]. exact Hname. }
    assert (Hsleep : forall d, aboutVolume name (@EvSleep JobSpec PersistentVolumeClaimSpec d)).
    { intros d k. discriminate. }
    cbn [waitPVC]. unfold pvcStatus, client_GetPVC, Sleep. run.
    destruct (answer_GetPVC (client r) h (keyOf (pvc_ObjectMeta pvc)))
      as [fetched|err] eqn:Hanswer.
    + assert (Hfetched : Name (pvc_ObjectMeta fetched) = name).
      { apply Hkeys in Hanswer. rewrite <- Hname.
        change (key_Name (keyOf (pvc_ObjectMeta fetched))
                = key_Name (keyOf (pvc_ObjectMeta pvc))).
        now rewrite Hanswer. }
      destruct (String.eqb (Phase fetched) VolumeBound).
      * exists [EvGetPVC (keyOf (pvc_ObjectMeta pvc))].
        split; [reflexivity | split; [auto|]].
        now intros pvc' status' [= <- _].
      * destruct (IH (i + 1) fetched (Phase fetched)
                    (EvSleep (Second * i) :: EvGetPVC (keyOf (pvc_ObjectMeta pvc)) :: h)
                    Hfetched) as (added & Htr & HQ & Hnext).
        exists (added ++ [EvSleep (Second * i); EvGetPVC (keyOf (pvc_ObjectMeta pvc))]).
        rewrite <- app_assoc. split; [exact Htr | split; [|exact Hnext]].
        apply Forall_app. auto.
    + destruct (IsNotFound err); cbn [negb].
      * cbn [String.eqb VolumeUndefined VolumeBound]. cbv beta iota.
        destruct (IH (i + 1) pvc VolumeUndefined
                    (EvSleep (Second * i) :: EvGetPVC (keyOf (pvc_ObjectMeta pvc)) :: h)
                    Hname) as (added & Htr & HQ & Hnext).
        exists (added ++ [EvSleep (Second * i); EvGetPVC (keyOf (pvc_ObjectMeta pvc))]).
        rewrite <- app_assoc. split; [exact Htr | split; [|exact Hnext]].
        apply Forall_app. auto.
      * exists [EvGetPVC (keyOf (pvc_ObjectMeta pvc))].
        split; [reflexivity | split; [auto|]]. discriminate.
Qed.


Lemma waitPVC_yields name n i pvc status :
  Name (pvc_ObjectMeta pvc) = name ->
  yields (aboutVolume name) (fun waited => Name (pvc_ObjectMeta (fst waited)) = name)
    (waitPVC r n i pvc status).
Proof.
  intros Hname h.
  destruct (waitPVC_named name n i pvc status h Hname) as (added & Htr & HQ & Hnext).
  exists added. split; [exact Htr | split; [exact HQ|]].
  intros [pvc' status'] Hfst. exact (Hnext _ _ Hfst).
Qed.

(** The filesystem path is about the claim cluster1-xb-cron-pvc, and gives
    the destination pvc/cluster1-xb-cron-pvc. *)
Lemma storageFilesystem_yields instance cluster bcp bcpStorage job :
  yields (aboutVolume "cluster1-xb-cron-pvc")
    (fun stored => snd stored = "pvc/cluster1-xb-cron-pvc")
    (storageFilesystem pkg r instance cluster bcp bcpStorage job).
Proof.
  set (name := "cluster1-xb-cron-pvc").
  unfold storageFilesystem.
  apply yields_bind with (post1 := fun _ => True).
  { destruct (Volume bcpStorage) as [[[spec|]]|];
      [now apply yields_ret | apply yields_panic | apply yields_panic]. }
  intros spec _.
  apply yields_bind
    with (post1 := fun pvc : PersistentVolumeClaim => Name (pvc_ObjectMeta pvc) = name).
  { unfold setControllerReference.
    destruct (OwnerRef pkg instance); [now apply yields_ret | apply yields_Return]. }
  intros pvc Hname.
  apply yields_bind
    with (post1 := fun got : PersistentVolumeClaim + GoError =>
                     forall fetched, got = inl fetched ->
                                     Name (pvc_ObjectMeta fetched) = name).
  { apply yields_perform.
    - intros k [= <-]. exact Hname.
    - intros h fetched Hanswer. apply Hkeys in Hanswer. rewrite <- Hname.
      change (key_Name (keyOf (pvc_ObjectMeta fetched))
              = key_Name (keyOf (pvc_ObjectMeta pvc))).
      now rewrite Hanswer. }
  intros got Hgot.
  apply yields_bind
    with (post1 := fun pvc : PersistentVolumeClaim => Name (pvc_ObjectMeta pvc) = name).
  { destruct got as [fetched|err].
    - apply yields_ret. now apply Hgot.
    - destruct (IsNotFound err); [|now apply yields_ret].
      apply yields_bind with (post1 := fun _ => True).
      + apply yields_perform; [|auto]. intros k [= <-]. exact Hname.
      + intros [err'|] _; [apply yields_Return | now apply yields_ret]. }
  intros pvc1 Hname1.
  apply yields_bind
    with (post1 := fun pvc : PersistentVolumeClaim => Name (pvc_ObjectMeta pvc) = name).
  { unfold waitPVCBound.
    apply yields_bind
      with (post1 := fun waited : PersistentVolumeClaim * VolumeStatus =>
                       Name (pvc_ObjectMeta (fst waited)) = name).
    - now apply waitPVC_yields.
    - intros [pvc2 status] Hname2.
      destruct (negb _); [apply yields_Return | now apply yields_ret]. }
  intros pvc2 _.
  destruct (backup_SetStoragePVC _ _ _ _ _) as [spec0 [err|]];
    [apply yields_Return | now apply yields_ret].
Qed.

End VolumeName.

(** ** The controller at work *)

Module Runs.
Import Scenario.

Abbreviation r_pending :=
  (reconciler (server (backup "fs-pvc") [cluster "some-name"] pending running)).
Abbreviation r_failsOnce :=
  (reconciler (server (backup "fs-pvc") [cluster "some-name"] failsOnce running)).
Abbreviation r_strangers :=
  (reconciler (server (backup "fs-pvc") [cluster "a"; cluster "b"] pending running)).
Abbreviation volume :=
  {| key_Namespace := "pxc"; key_Name := "cluster1-xb-cron-pvc" |}.

(** C1 as stated fails.  With a claim that stays pending, the
    reconciliation on the filesystem path ends with the error that carries
    the phase Pending, but the last thing it did was to sleep five seconds
    after the fifth check, and it slept fifteen seconds in all, not ten. *)
Lemma Reconcile_sleeps_after_last_check :
  let run := exec (Reconcile pkg r_pending request) [] in
  fst run = Returned (noResult,
                      Some (Errorf "pvc not ready, status: %s" [ArgString "Pending"]))
  /\ hd_error (snd run) = Some (EvSleep (5 * Second))
  /\ map sleepOf (filter (fun ev => negb (sleepOf ev =? 0)) (snd run))
     = [5 * Second; 4 * Second; 3 * Second; 2 * Second; 1 * Second]
  /\ slept (snd run) = 15 * Second
  /\ slept (snd run) <> 1 * Second + 2 * Second + 3 * Second + 4 * Second.
Proof.
  vm_compute. repeat split; discriminate.
Qed.

Lemma waitPVCBound_polls_witness :
  waitPVCBound r_pending (claim volume "") [] =
    (Return (noResult,
             Some (Errorf "pvc not ready, status: %s" [ArgString "Pending"])),
     [EvSleep (Second * 5); EvGetPVC volume; EvSleep (Second * 4); EvGetPVC volume;
      EvSleep (Second * 3); EvGetPVC volume; EvSleep (Second * 2); EvGetPVC volume;
      EvSleep (Second * 1); EvGetPVC volume]).
Proof.
  apply (waitPVCBound_polls r_pending (claim volume "") [] 5 (claim volume "")).
  - lia.
  - intros k _. simpl. split; [reflexivity | discriminate].
  - lia.
Defined.

(** A claim that is bound at the second check ends the loop there: two
    fetches and one sleep of a second between them. *)
Example waitPVCBound_bound_at_second_check :
  waitPVCBound (reconciler (server (backup "fs-pvc") [cluster "some-name"]
                              boundAtThird running))
    (claim volume "") [EvGetPVC volume] =
    (Next (claim volume VolumeBound),
     [EvGetPVC volume; EvSleep (Second * 1); EvGetPVC volume; EvGetPVC volume]).
Proof. vm_compute. reflexivity. Qed.

(** C2 as stated fails.  The request is found, its cluster is not: the
    result returned with the error is the empty one, which does not ask to
    come back in five seconds. *)
Lemma Reconcile_fatal_without_requeue :
  let run := exec (Reconcile pkg r_strangers request) [] in
  answer_GetBackup (client r_strangers) [] (req_NamespacedName request)
    = inl (backup "fs-pvc")
  /\ fst run =
       Returned
         ({| Requeue := false; RequeueAfter := 0 |},
          Some (Errorf "invalid backup cluster: %v"
                  [ArgError
                     (Errorf "wrong cluster name: %q. Clusters avaliable: %q"
                        [ArgString "some-name"; ArgStrings ["a"; "b"]])]))
  /\ forall res err, fst run = Returned (res, err) -> RequeueAfter res <> 5 * Second.
Proof.
  vm_compute. repeat split. intros res err [= <- _]. discriminate.
Qed.

Lemma Reconcile_requeue_witness :
  exists added,
    snd (exec (Reconcile pkg r_pending request) []) = added ++ []
    /\ endsWith requeueAfter5s added (fst (exec (Reconcile pkg r_pending request) []))
    /\ match fst (exec (Reconcile pkg r_pending request) []) with
       | Returned (res, None) => res = requeueAfter5s
       | _ => True
       end.
Proof.
  apply (Reconcile_requeue pkg r_pending request []).
  intros err. simpl. discriminate.
Defined.

Lemma Reconcile_unknown_cluster_witness :
  exec (Reconcile pkg r_strangers request) [] =
    (Returned
       (noResult,
        Some (Errorf "invalid backup cluster: %v"
                [ArgError
                   (Errorf "wrong cluster name: %q. Clusters avaliable: %q"
                      [ArgString "some-name"; ArgStrings ["a"; "b"]])])),
     [EvListClusters "pxc"; EvGetBackup (req_NamespacedName request)]).
Proof.
  apply (Reconcile_unknown_cluster pkg r_strangers request [] (backup "fs-pvc")
           [cluster "a"; cluster "b"]).
  - reflexivity.
  - reflexivity.
  - repeat constructor; simpl; discriminate.
Defined.

Abbreviation backupJob :=
  {| key_Namespace := "pxc"; key_Name := "xb-backup1" |}.


(** The first pass over a new request writes the status, once. *)
Example updateJobStatus_first_pass :
  exec (updateJobStatus r_pending (backup "fs-pvc") (job backupJob noJobStatus)
          "pvc/cluster1-xb-cron-pvc" "fs-pvc" None) [] =
    (Returned None,
     [EvUpdateBackup
        (withStatus (backup "fs-pvc")
           {| State := BackupRunning; CompletedAt := None;
              Destination := "pvc/cluster1-xb-cron-pvc";
              status_StorageName := "fs-pvc"; status_S3 := None |});
      EvGetJob backupJob]).
Proof. vm_compute. reflexivity. Qed.

Lemma pending_answersUnderKey : answersUnderKey (client r_pending).
Proof. intros h [ns name] pvc [= <-]. reflexivity. Qed.


Lemma submitJob_create_outcomes_witness :
  let job' := {| job_ObjectMeta := withOwner (job_ObjectMeta (job backupJob noJobStatus)) owner;
                 job_Spec := []; job_Status := noJobStatus |} in
  exec (submitJob pkg r_pending requeueAfter5s (backup "fs-pvc")
          (job backupJob noJobStatus) "pvc/cluster1-xb-cron-pvc" None) [] =
    match answer_CreateJob (client r_pending) [] job' with
    | None => statusStep r_pending requeueAfter5s (backup "fs-pvc") job'
                "pvc/cluster1-xb-cron-pvc" None [EvCreateJob job']
    | Some err =>
        if IsAlreadyExists err
        then statusStep r_pending requeueAfter5s (backup "fs-pvc") job'
               "pvc/cluster1-xb-cron-pvc" None [EvCreateJob job']
        else (Returned (noResult, Some (Errorf "create backup job: %v" [ArgError err])),
              [EvCreateJob job'])
    end.
Proof.
  apply (submitJob_create_outcomes pkg r_pending requeueAfter5s (backup "fs-pvc")
           (job backupJob noJobStatus) "pvc/cluster1-xb-cron-pvc" None [] owner).
  reflexivity.
Defined.

(** A job that cannot be created for another reason than its existence
    ends the reconciliation: the creation is the last call. *)
Example submitJob_create_forbidden :
  let forbidden := StatusError (StatusReasonOther "Forbidden") "jobs is forbidden" in
  let c := server (backup "fs-pvc") [cluster "some-name"] pending running in
  let r := reconciler
             {| answer_GetBackup := answer_GetBackup c;
                answer_ListClusters := answer_ListClusters c;
                answer_SelectNode := answer_SelectNode c;
                answer_GetPVC := answer_GetPVC c;
                answer_CreatePVC := answer_CreatePVC c;
                answer_CreateJob := fun _ _ => Some forbidden;
                answer_GetJob := answer_GetJob c;
                answer_UpdateBackup := answer_UpdateBackup c |} in
  let run := exec (submitJob pkg r requeueAfter5s (backup "fs-pvc")
                     (job backupJob noJobStatus) "pvc/cluster1-xb-cron-pvc" None) [] in
  fst run = Returned (noResult,
                      Some (Errorf "create backup job: %v" [ArgError forbidden]))
  /\ existsb isCreateJob (snd run) = true
  /\ existsb isGetJob (snd run) = false
  /\ existsb isUpdateBackup (snd run) = false.
Proof. vm_compute. repeat split. Qed.

(** On the S3 path the status that is written carries the destination, and
    the S3 part of the storage. *)
Example Reconcile_s3_status :
  hd_error (snd (exec (Reconcile pkg
                         (reconciler (server (backup "s3-us") [cluster "some-name"]
                                        pending running))
                         request) [])) =
    Some (EvUpdateBackup
            (withStatus (backup "s3-us")
               {| State := BackupRunning; CompletedAt := None;
                  Destination :=
                    "s3://mybucket/some-name-2024-07-03-15:04:05-xtrabackup.stream";
                  status_StorageName := "s3-us";
                  status_S3 := Some (s3 "mybucket") |})).
Proof. vm_compute. reflexivity. Qed.

(** C9 fails on the code.  The fetch that checks whether the claim exists
    fails on the side of the server, with an error that is not a missing
    claim.  The reconciliation does not return that error: it creates no
    claim, goes on to wait for the claim, finds it bound, creates the job
    and returns without an error. *)
Lemma Reconcile_absorbs_failed_claim_fetch :
  let run := exec (Reconcile pkg r_failsOnce request) [] in
  nth_error (snd run) 4 = Some (EvGetPVC volume)
  /\ answer_GetPVC (client r_failsOnce) (skipn 5 (snd run)) volume =
       inr (StatusError (StatusReasonOther "InternalError")
              "etcdserver: request timed out")
  /\ fst run = Returned (requeueAfter5s, None)
  /\ existsb isCreatePVC (snd run) = false
  /\ existsb isCreateJob (snd run) = true
  /\ map isGetPVC (firstn 5 (snd run)) = [false; false; false; true; true].
Proof. vm_compute. repeat split. Qed.
End Runs.

(** * More of the controller *)

(** ** The paths of [Reconcile] that end before the storage *)

Section Paths.
Context {JobSpec PersistentVolumeClaimSpec : Type}.
Variable pkg : @BackupPkg JobSpec PersistentVolumeClaimSpec.
Variable r : @ReconcilePerconaXtraDBBackup JobSpec PersistentVolumeClaimSpec.

#[local] Ltac path :=
  unfold Reconcile, getClusterConfig, client_GetBackup, client_ListClusters, SelectNode;
  change (Second * 5) with (5 * Second); fold requeueAfter5s; run.

#[local] Ltac known H := rewrite H; cbv beta iota zeta.

(** The first cluster of the name is the one found, whatever follows it in
    the list. *)
Lemma findCluster_first name
    (before after : list (@PerconaXtraDBCluster PersistentVolumeClaimSpec)) c available :
  Forall (fun c' => clusterName c' <> name) before ->
  clusterName c = name ->
  findCluster name (before ++ c :: after) available = inl c.
Proof.
  intros Hbefore Hc. revert available.
  induction Hbefore as [|c' before Hc' _ IH]; intros available; simpl.
  - unfold clusterName in Hc. rewrite Hc, String.eqb_refl. reflexivity.
  - apply String.eqb_neq in Hc'. unfold clusterName in Hc'. rewrite Hc'. apply IH.
Qed.

(** X2: [getClusterConfig] lists the clusters of the namespace of the request
    once and returns the first cluster in the list that has the name the
    request asks for; clusters of the same name further down the list are
    not looked at. *)
Theorem getClusterConfig_first_match cr h before c after :
  answer_ListClusters (client r) h (Namespace (bcp_ObjectMeta cr))
    = inl (before ++ c :: after) ->
  Forall (fun c' => clusterName c' <> PXCCluster (bcp_Spec cr)) before ->
  clusterName c = PXCCluster (bcp_Spec cr) ->
  exec (getClusterConfig r cr) h =
    (Returned (inl c), EvListClusters (Namespace (bcp_ObjectMeta cr)) :: h).
Proof.
  intros Hlist Hbefore Hc. unfold getClusterConfig, client_ListClusters. run.
  known Hlist. rewrite (findCluster_first _ _ _ _ [] Hbefore Hc). reflexivity.
Qed.

(** X3: a failed fetch of the request ends the reconciliation after that one
    call.  A request that is not found gives no error, and the result that
    asks to come back in five seconds; any other error is returned as it
    is, with the empty result. *)
Theorem Reconcile_fetch_failed request h err :
  answer_GetBackup (client r) h (req_NamespacedName request) = inr err ->
  exec (Reconcile pkg r request) h =
    (Returned (if IsNotFound err then (requeueAfter5s, None)
               else (noResult, Some err)),
     EvGetBackup (req_NamespacedName request) :: h).
Proof.
  intros Hget. path. known Hget. destruct (IsNotFound err); reflexivity.
Qed.

(** X4: when the clusters cannot be listed, the reconciliation ends after the
    fetch of the request and the listing, with the error of the listing
    wrapped twice and the empty result. *)
Theorem Reconcile_list_failed request h instance err :
  answer_GetBackup (client r) h (req_NamespacedName request) = inl instance ->
  answer_ListClusters (client r) (EvGetBackup (req_NamespacedName request) :: h)
    (Namespace (bcp_ObjectMeta instance)) = inr err ->
  exec (Reconcile pkg r request) h =
    (Returned (noResult,
               Some (Errorf "invalid backup cluster: %v"
                       [ArgError (Errorf "get clusters list: %v" [ArgError err])])),
     afterCluster request instance h).
Proof.
  intros Hget Hlist. path. known Hget. known Hlist. reflexivity.
Qed.

(** X5: a cluster that has no backup section ends the reconciliation right
    after the cluster is found: no node is selected and nothing is
    created. *)
Theorem Reconcile_no_backup_section request h instance cluster :
  findsCluster r request h instance cluster ->
  Backup (cluster_Spec cluster) = None ->
  exec (Reconcile pkg r request) h =
    (Returned (noResult,
               Some (Errorf "a backup image should be set in the PXC config" [])),
     afterCluster request instance h).
Proof.
  intros (Hget & items & Hlist & Hfind) Hbackup.
  path. known Hget. known Hlist. known Hfind. known Hbackup. reflexivity.
Qed.

(** X6: when no node can be selected for the backup, the reconciliation ends
    with that error, wrapped, right after the selection. *)
Theorem Reconcile_select_node_failed request h instance cluster bcp err :
  findsCluster r request h instance cluster ->
  Backup (cluster_Spec cluster) = Some bcp ->
  answer_SelectNode (client r) (afterCluster request instance h) instance = inr err ->
  exec (Reconcile pkg r request) h =
    (Returned (noResult, Some (Errorf "select backup node: %v" [ArgError err])),
     EvSelectNode instance :: afterCluster request instance h).
Proof.
  intros (Hget & items & Hlist & Hfind) Hbackup Hnode. unfold afterCluster in *.
  path. known Hget. known Hlist. known Hfind. known Hbackup. known Hnode.
  reflexivity.
Qed.

(** X7: a request that names a storage the cluster does not have ends with the
    error that carries the name.  The storage is looked up after the node
    is selected, so the selection is made all the same; nothing is
    created. *)
Theorem Reconcile_unknown_storage request h instance cluster bcp bcpNode :
  findsCluster r request h instance cluster ->
  Backup (cluster_Spec cluster) = Some bcp ->
  answer_SelectNode (client r) (afterCluster request instance h) instance = inl bcpNode ->
  Storages bcp !! StorageName (bcp_Spec instance) = None ->
  exec (Reconcile pkg r request) h =
    (Returned (noResult,
               Some (Errorf "bcpStorage %s doesn't exist"
                       [ArgString (StorageName (bcp_Spec instance))])),
     EvSelectNode instance :: afterCluster request instance h).
Proof.
  intros (Hget & items & Hlist & Hfind) Hbackup Hnode Hstorage. unfold afterCluster in *.
  path. known Hget. known Hlist. known Hfind. known Hbackup. known Hnode.
  known Hstorage. reflexivity.
Qed.

(** ** The dispatch on the type of the storage *)

#[local] Ltac to_storage H :=
  destruct H as ((Hget & items & Hlist & Hfind) & Hbackup & Hnode & Hstorage);
  unfold atStorage, afterCluster, preparedJob in *;
  path; known Hget; known Hlist; known Hfind; known Hbackup; known Hnode;
  known Hstorage.

(** X8: a filesystem storage without a claim template makes the reconciliation
    panic, on the nil pointer it dereferences, before any call about a
    claim is made. *)
Theorem Reconcile_panics_without_template
    request h instance cluster bcp bcpNode bcpStorage :
  reachesStorage r request h instance cluster bcp bcpNode bcpStorage ->
  storage_Type bcpStorage = BackupStorageFilesystem ->
  Volume bcpStorage = None
  \/ Volume bcpStorage = Some {| volume_PersistentVolumeClaim := None |} ->
  exec (Reconcile pkg r request) h = (Panicked, atStorage request instance h).
Proof.
  intros Hreach Htype Hvolume. to_storage Hreach. known Htype.
  unfold storageFilesystem. run. destruct Hvolume as [-> | ->]; reflexivity.
Qed.

(** X9: a storage whose type is neither filesystem nor s3 is not turned down:
    the switch has no case for it, and the reconciliation goes on to create
    the job as [bcp.JobSpec] made it, with no storage set on it, and to a
    status with an empty destination. *)
Theorem Reconcile_other_storage_type
    request h instance cluster bcp bcpNode bcpStorage type :
  reachesStorage r request h instance cluster bcp bcpNode bcpStorage ->
  storage_Type bcpStorage = BackupStorageOther type ->
  exec (Reconcile pkg r request) h =
    exec (submitJob pkg r requeueAfter5s instance
            (preparedJob pkg r instance cluster bcp bcpNode) "" None)
      (atStorage request instance h).
Proof.
  intros Hreach Htype. to_storage Hreach. known Htype. reflexivity.
Qed.

(** X10: on an S3 storage the reconciliation makes no call between the selection
    of the node and the creation of the job: no claim is fetched or
    created, and it does not sleep.  The job gets the spec [SetStorageS3]
    leaves, and the status the destination on S3 and the S3 part of the
    storage; an error of [SetStorageS3] ends the reconciliation. *)
Theorem Reconcile_s3_path request h instance cluster bcp bcpNode bcpStorage :
  reachesStorage r request h instance cluster bcp bcpNode bcpStorage ->
  storage_Type bcpStorage = BackupStorageS3 ->
  let destination :=
    s3Destination (Bucket (S3 bcpStorage)) (PXCCluster (bcp_Spec instance))
      (CreationTimestamp (bcp_ObjectMeta instance)) in
  exec (Reconcile pkg r request) h =
    match backup_SetStorageS3 pkg cluster bcp
            (job_Spec (preparedJob pkg r instance cluster bcp bcpNode))
            (S3 bcpStorage) destination with
    | (_, Some err) =>
        (Returned (noResult, Some (Errorf "set storage FS: %v" [ArgError err])),
         atStorage request instance h)
    | (spec, None) =>
        exec (submitJob pkg r requeueAfter5s instance
                (withJobSpec (preparedJob pkg r instance cluster bcp bcpNode) spec)
                destination (Some (S3 bcpStorage)))
          (atStorage request instance h)
    end.
Proof.
  intros Hreach Htype destination. to_storage Hreach. known Htype.
  unfold storageS3. run. fold destination.
  destruct (backup_SetStorageS3 _ _ _ _ _ _) as [spec [err|]]; reflexivity.
Qed.
End Paths.

(** ** The claim of the filesystem storage *)

Section Claim.
Context {JobSpec PersistentVolumeClaimSpec : Type}.
Variable pkg : @BackupPkg JobSpec PersistentVolumeClaimSpec.
Variable r : @ReconcilePerconaXtraDBBackup JobSpec PersistentVolumeClaimSpec.

(** The filesystem path up to the wait for the claim, by the answer to the
    fetch that checks for the claim. *)
Lemma storageFilesystem_check instance cluster bcp bcpStorage job h spec ownerRef :
  Volume bcpStorage = Some {| volume_PersistentVolumeClaim := Some spec |} ->
  OwnerRef pkg instance = inl ownerRef ->
  let pvc := ownedPVC pkg instance spec ownerRef in
  let key := keyOf (pvc_ObjectMeta pvc) in
  let rest := claimReady pkg r cluster bcp job "pvc/cluster1-xb-cron-pvc" in
  storageFilesystem pkg r instance cluster bcp bcpStorage job h =
    match answer_GetPVC (client r) h key with
    | inl fetched => rest fetched (EvGetPVC key :: h)
    | inr err =>
        if IsNotFound err then
          match answer_CreatePVC (client r) (EvGetPVC key :: h) pvc with
          | Some err' =>
              (Return (noResult,
                       Some (Errorf "create backup pvc: %v" [ArgError err'])),
               EvCreatePVC pvc :: EvGetPVC key :: h)
          | None => rest pvc (EvCreatePVC pvc :: EvGetPVC key :: h)
          end
        else rest pvc (EvGetPVC key :: h)
    end.
Proof.
  intros Hvolume Howner pvc key rest. subst pvc key rest.
  unfold storageFilesystem, setControllerReference, client_GetPVC, client_CreatePVC,
    claimReady, ownedPVC.
  rewrite Hvolume, Howner. cbn [volume_PersistentVolumeClaim]. run.
  destruct (answer_GetPVC (client r) h _) as [fetched|err]; [reflexivity|].
  destruct (IsNotFound err); [|reflexivity].
  destruct (answer_CreatePVC _ _ _) as [err'|]; reflexivity.
Qed.

(** X11: if the claim is missing and cannot be created, the filesystem path
    ends with the error of the creation, wrapped, whatever the error is: a
    claim that exists by then is an error as well, unlike a job that
    exists.  The claim is not fetched again. *)
Theorem storageFilesystem_create_failed
    instance cluster bcp bcpStorage job h spec ownerRef missing err :
  Volume bcpStorage = Some {| volume_PersistentVolumeClaim := Some spec |} ->
  OwnerRef pkg instance = inl ownerRef ->
  let pvc := ownedPVC pkg instance spec ownerRef in
  let key := keyOf (pvc_ObjectMeta pvc) in
  answer_GetPVC (client r) h key = inr missing ->
  IsNotFound missing = true ->
  answer_CreatePVC (client r) (EvGetPVC key :: h) pvc = Some err ->
  storageFilesystem pkg r instance cluster bcp bcpStorage job h =
    (Return (noResult, Some (Errorf "create backup pvc: %v" [ArgError err])),
     EvCreatePVC pvc :: EvGetPVC key :: h).
Proof.
  intros Hvolume Howner pvc key Hget Hmissing Hcreate.
  rewrite (storageFilesystem_check _ _ _ _ _ _ _ _ Hvolume Howner).
  fold pvc. fold key. rewrite Hget, Hmissing, Hcreate. reflexivity.
Qed.

(** The wait for the claim and what follows it on the filesystem path only
    fetch the claim and sleep. *)
Lemma waitPVC_fetches_and_sleeps n :
  forall i pvc status,
    early (fun ev => isGetPVC ev || isSleep ev = true) (fun _ : Ret => True)
      (waitPVC r n i pvc status).
Proof.
  induction n as [|n IH]; intros i pvc status; cbn [waitPVC].
  - apply early_ret.
  - unfold pvcStatus, client_GetPVC, Sleep.
    repeat (early_step; try reflexivity; try exact I). apply IH.
Qed.

Lemma claimReady_fetches_and_sleeps cluster bcp job destination pvc :
  quiet (fun ev => isGetPVC ev || isSleep ev = true)
    (claimReady pkg r cluster bcp job destination pvc).
Proof.
  apply early_quiet with (ok := fun _ : Ret => True).
  unfold claimReady, waitPVCBound.
  repeat first [apply waitPVC_fetches_and_sleeps
               | early_step; try reflexivity; try exact I].
Qed.

Lemma fetches_and_sleeps_create_nothing
    (added : list (@Event JobSpec PersistentVolumeClaimSpec)) pvc :
  Forall (fun ev => isGetPVC ev || isSleep ev = true) added ->
  existsb isCreatePVC added = false
  /\ Forall (fun ev => forall created, ev = EvCreatePVC created -> created = pvc) added.
Proof.
  induction 1 as [|ev added Hev _ [IH1 IH2]]; [split; [reflexivity|constructor]|].
  split.
  - cbn [existsb]. rewrite IH1. destruct ev; try discriminate; reflexivity.
  - constructor; [|exact IH2]. intros created ->. discriminate.
Qed.

(** X12: on the filesystem path the claim is created exactly when the fetch
    that checks for it reports it missing; the claim that is created is the
    one of the fixed name with the claim template of the storage as its
    spec and the request as its owner, and it is created once. *)
Theorem storageFilesystem_creates_when_missing
    instance cluster bcp bcpStorage job h spec ownerRef :
  Volume bcpStorage = Some {| volume_PersistentVolumeClaim := Some spec |} ->
  OwnerRef pkg instance = inl ownerRef ->
  let pvc := ownedPVC pkg instance spec ownerRef in
  let key := keyOf (pvc_ObjectMeta pvc) in
  exists added,
    snd (storageFilesystem pkg r instance cluster bcp bcpStorage job h) = added ++ h
    /\ existsb isCreatePVC added =
         match answer_GetPVC (client r) h key with
         | inl _ => false
         | inr err => IsNotFound err
         end
    /\ (length (List.filter isCreatePVC added) <= 1)%nat
    /\ Forall (fun ev => forall created, ev = EvCreatePVC created -> created = pvc) added
    /\ Name (pvc_ObjectMeta pvc) = "cluster1-xb-cron-pvc"
    /\ pvc_Spec pvc = spec
    /\ In ownerRef (OwnerReferences (pvc_ObjectMeta pvc)).
Proof.
  intros Hvolume Howner pvc key.
  assert (Hpvc : Name (pvc_ObjectMeta pvc) = "cluster1-xb-cron-pvc"
                 /\ pvc_Spec pvc = spec
                 /\ In ownerRef (OwnerReferences (pvc_ObjectMeta pvc))).
  { split; [reflexivity | split; [reflexivity|]].
    cbn. apply in_or_app. right. now left. }
  assert (Hcount : forall added : list (@Event JobSpec PersistentVolumeClaimSpec),
             existsb isCreatePVC added = false ->
             (length (List.filter isCreatePVC added) <= 0)%nat).
  { induction added as [|ev added IH]; cbn; [lia|].
    destruct (isCreatePVC ev); cbn; [discriminate | exact IH]. }
  rewrite (storageFilesystem_check _ _ _ _ _ _ _ _ Hvolume Howner).
  fold pvc. fold key.
  set (rest := claimReady pkg r cluster bcp job "pvc/cluster1-xb-cron-pvc").
  assert (Hrest : forall claim h1 before,
             h1 = before ++ h ->
             exists added1,
               snd (rest claim h1) = (added1 ++ before) ++ h
               /\ existsb isCreatePVC added1 = false
               /\ Forall (fun ev => forall created,
                                      ev = EvCreatePVC created -> created = pvc) added1).
  { intros claim h1 before ->.
    destruct (claimReady_fetches_and_sleeps cluster bcp job
                "pvc/cluster1-xb-cron-pvc" claim (before ++ h)) as (added1 & Htr & HQ).
    exists added1. rewrite <- app_assoc.
    split; [exact Htr | now apply fetches_and_sleeps_create_nothing]. }
  destruct (answer_GetPVC (client r) h key) as [fetched|err].
  - destruct (Hrest fetched (EvGetPVC key :: h) [EvGetPVC key] eq_refl)
      as (added1 & Htr & Hnone & Hall).
    exists (added1 ++ [EvGetPVC key]). split; [exact Htr|].
    rewrite existsb_app, Hnone. split; [reflexivity|].
    split; [|split; [|exact Hpvc]].
    + rewrite List.filter_app, List.length_app. cbn. specialize (Hcount _ Hnone). lia.
    + apply Forall_app. split; [exact Hall|]. repeat constructor. discriminate.
  - destruct (IsNotFound err).
    + destruct (answer_CreatePVC _ _ _) as [err'|].
      * exists [EvCreatePVC pvc; EvGetPVC key]. split; [reflexivity|].
        split; [reflexivity|]. split; [cbn; lia|]. split; [|exact Hpvc].
        repeat constructor; [now intros created [= <-] | discriminate].
      * destruct (Hrest pvc (EvCreatePVC pvc :: EvGetPVC key :: h)
                    [EvCreatePVC pvc; EvGetPVC key] eq_refl)
          as (added1 & Htr & Hnone & Hall).
        exists (added1 ++ [EvCreatePVC pvc; EvGetPVC key]). split; [exact Htr|].
        rewrite existsb_app, Hnone. split; [reflexivity|].
        split; [|split; [|exact Hpvc]].
        -- rewrite List.filter_app, List.length_app. cbn. specialize (Hcount _ Hnone). lia.
        -- apply Forall_app. split; [exact Hall|].
           repeat constructor; [now intros created [= <-] | discriminate].
    + destruct (Hrest pvc (EvGetPVC key :: h) [EvGetPVC key] eq_refl)
        as (added1 & Htr & Hnone & Hall).
      exists (added1 ++ [EvGetPVC key]). split; [exact Htr|].
      rewrite existsb_app, Hnone. split; [reflexivity|].
      split; [|split; [|exact Hpvc]].
      * rewrite List.filter_app, List.length_app. cbn. specialize (Hcount _ Hnone). lia.
      * apply Forall_app. split; [exact Hall|]. repeat constructor. discriminate.
Qed.
End Claim.

(** ** More on the wait for the claim *)

Section MoreWaiting.
Context {JobSpec PersistentVolumeClaimSpec : Type}.
Variable pkg : @BackupPkg JobSpec PersistentVolumeClaimSpec.
Variable r : @ReconcilePerconaXtraDBBackup JobSpec PersistentVolumeClaimSpec.

(** X13: a fetch of the claim that fails, in any round of the loop, with
    another error than a missing claim ends the reconciliation at once with
    that error, wrapped: the loop does not sleep after it and does not try
    again. *)
Theorem waitPVCBound_fetch_failed pvc h n err :
  let key := keyOf (pvc_ObjectMeta pvc) in
  let answer k := answer_GetPVC (client r) (unboundRounds key 1 k h) key in
  (n < 5)%nat ->
  (forall k, (k < n)%nat -> keepsWaiting key (answer k)) ->
  answer n = inr err ->
  IsNotFound err = false ->
  waitPVCBound r pvc h =
    (Return (noResult, Some (Errorf "get pvc status: %v" [ArgError err])),
     EvGetPVC key :: unboundRounds key 1 n h).
Proof.
  intros key answer Hn Hwait Hget Hnf.
  destruct (waitPVC_rounds_waiting r key n (S (4 - n)) 1 pvc "" h eq_refl Hwait)
    as (pvc1 & status1 & Hkey1 & _ & _ & Hrun).
  replace (n + S (4 - n))%nat with 5%nat in Hrun by lia.
  unfold waitPVCBound, bind. rewrite Hrun.
  pose proof (waitPVC_round_failed r (4 - n) (1 + Z.of_nat n) pvc1 status1
                (unboundRounds key 1 n h) err) as Hlast.
  cbv zeta in Hlast. rewrite Hkey1 in Hlast.
  rewrite (Hlast Hget Hnf). reflexivity.
Qed.

(** The loop hands on a bound status only from a fetch that showed the
    claim bound, and that fetch is the last thing it did. *)
Lemma waitPVC_bound_seen n :
  forall i pvc status h pvc' h',
    waitPVC r n i pvc status h = (Next (pvc', VolumeBound), h') ->
    status <> VolumeBound ->
    exists key h0,
      h' = EvGetPVC key :: h0
      /\ answer_GetPVC (client r) h0 key = inl pvc'
      /\ Phase pvc' = VolumeBound.
Proof.
  induction n as [|n IH]; intros i pvc status h pvc' h' Hrun Hstatus.
  - cbn in Hrun. injection Hrun as _ Hst _. congruence.
  - cbn [waitPVC] in Hrun. unfold pvcStatus, client_GetPVC, Sleep in Hrun.
    revert Hrun. run.
    destruct (answer_GetPVC (client r) h (keyOf (pvc_ObjectMeta pvc)))
      as [fetched|err] eqn:Hanswer.
    + destruct (String.eqb (Phase fetched) VolumeBound) eqn:Hphase.
      * intros [= <- _ <-]. apply String.eqb_eq in Hphase. eauto.
      * intros Hrun. apply String.eqb_neq in Hphase. exact (IH _ _ _ _ _ _ Hrun Hphase).
    + destruct (IsNotFound err); cbn [negb]; [|discriminate].
      cbn [String.eqb VolumeUndefined VolumeBound]. cbv beta iota.
      intros Hrun. apply (IH _ _ _ _ _ _ Hrun). discriminate.
Qed.

(** The wait for the claim ends well only when the last thing it did was a
    fetch that showed the claim bound; the claim it hands on is the one
    that fetch returned. *)
Lemma waitPVCBound_bound_seen pvc h pvc' h' :
  waitPVCBound r pvc h = (Next pvc', h') ->
  exists key h0,
    h' = EvGetPVC key :: h0
    /\ answer_GetPVC (client r) h0 key = inl pvc'
    /\ Phase pvc' = VolumeBound.
Proof.
  unfold waitPVCBound, bind.
  destruct (waitPVC r 5 1 pvc "" h) as [[[pvc1 status1]|res|] h1] eqn:Hrun;
    [|discriminate|discriminate].
  destruct (String.eqb status1 VolumeBound) eqn:Hstatus; cbn [negb];
    [|discriminate].
  unfold ret. intros [= <- <-]. apply String.eqb_eq in Hstatus. subst status1.
  apply (waitPVC_bound_seen 5 1 pvc "" h pvc1 h1 Hrun). discriminate.
Qed.
End MoreWaiting.

(** ** The steps of [Reconcile] before the creation of the job *)

Section Prefix.
Context {JobSpec PersistentVolumeClaimSpec : Type}.
Variable pkg : @BackupPkg JobSpec PersistentVolumeClaimSpec.
Variable r : @ReconcilePerconaXtraDBBackup JobSpec PersistentVolumeClaimSpec.

(** [Q] holds of the fetch of the request, the listing of the clusters, the
    selection of the node, the fetch and the creation of a claim and the
    sleep. *)
Variable Q : @Event JobSpec PersistentVolumeClaimSpec -> Prop.
Hypothesis Q_GetBackup : forall key, Q (EvGetBackup key).
Hypothesis Q_ListClusters : forall ns, Q (EvListClusters ns).
Hypothesis Q_SelectNode : forall cr, Q (EvSelectNode cr).
Hypothesis Q_GetPVC : forall key, Q (EvGetPVC key).
Hypothesis Q_CreatePVC : forall pvc, Q (EvCreatePVC pvc).
Hypothesis Q_Sleep : forall d, Q (EvSleep d).

#[local] Ltac prefix_step :=
  first [ early_step
        | apply Q_GetBackup | apply Q_ListClusters | apply Q_SelectNode
        | apply Q_GetPVC | apply Q_CreatePVC | apply Q_Sleep
        | exact I
        | (left; split; [reflexivity | discriminate])
        | (right; reflexivity) ].

Lemma getClusterConfig_adds cr : quiet Q (getClusterConfig r cr).
Proof.
  apply early_quiet with (ok := fun _ => True).
  unfold getClusterConfig, client_ListClusters. repeat prefix_step.
Qed.

Lemma waitPVC_adds n :
  forall i pvc status, early Q endsEarly (waitPVC r n i pvc status).
Proof.
  induction n as [|n IH]; intros i pvc status; cbn [waitPVC].
  - apply early_ret.
  - unfold pvcStatus, client_GetPVC, Sleep. repeat prefix_step. apply IH.
Qed.

Lemma storageFilesystem_adds instance cluster bcp bcpStorage job :
  early Q endsEarly (storageFilesystem pkg r instance cluster bcp bcpStorage job).
Proof.
  unfold storageFilesystem, waitPVCBound, client_GetPVC, client_CreatePVC.
  repeat first [apply waitPVC_adds | prefix_step].
Qed.

Lemma storageS3_adds instance cluster bcp bcpStorage job :
  early Q endsEarly (storageS3 pkg instance cluster bcp bcpStorage job).
Proof. unfold storageS3. repeat prefix_step. Qed.

(** A property [Fin] of bodies that holds of the end of [Reconcile], and of
    a body that comes after steps that add effects in [Q], holds of
    [Reconcile]. *)
Lemma Reconcile_then_submit (Fin : @M (@Event JobSpec PersistentVolumeClaimSpec) Ret Ret -> Prop) :
  (forall A (m : @M _ Ret A) k,
      early Q endsEarly m -> (forall a, Fin (k a)) -> Fin (bind m k)) ->
  (forall instance job destination s3status,
      Fin (submitJob pkg r requeueAfter5s instance job destination s3status)) ->
  forall request, Fin (Reconcile pkg r request).
Proof.
  intros Hbind Hsubmit request.
  unfold Reconcile, client_GetBackup, SelectNode.
  change (Second * 5) with (5 * Second). fold requeueAfter5s. cbv zeta.
  repeat first
    [ apply Hsubmit
    | apply Hbind; [|intros ?]
    | apply early_call, getClusterConfig_adds
    | apply storageFilesystem_adds
    | apply storageS3_adds
    | prefix_step
    | lazymatch goal with
      | |- Fin (match ?x with _ => _ end) => destruct x
      end ].
Qed.
End Prefix.

(** ** The write of the status, and the order of the last calls *)

Section Order.
Context {JobSpec PersistentVolumeClaimSpec : Type}.
Variable pkg : @BackupPkg JobSpec PersistentVolumeClaimSpec.
Variable r : @ReconcilePerconaXtraDBBackup JobSpec PersistentVolumeClaimSpec.

(** What [updateJobStatus] adds to the history: the fetch of the job and,
    at most, one write. *)
Lemma updateJobStatus_trace bcp job destination storageName s3 h :
  let key := keyOf (job_ObjectMeta job) in
  exists err,
    updateJobStatus r bcp job destination storageName s3 h
      = (Return err, EvGetJob key :: h)
    \/ exists status,
         updateJobStatus r bcp job destination storageName s3 h
           = (Return err, EvUpdateBackup (withStatus bcp status) :: EvGetJob key :: h)
         /\ err = answer_UpdateBackup (client r) (EvGetJob key :: h)
                    (withStatus bcp status)
         /\ status <> bcp_Status bcp
         /\ Destination status = destination
         /\ status_StorageName status = storageName
         /\ status_S3 status = s3.
Proof.
  intros key. unfold updateJobStatus, client_GetJob, client_UpdateBackup. run.
  fold key. destruct (answer_GetJob (client r) h key) as [fetched|err].
  - destruct (decide _) as [Heq|Hne].
    + exists None. now left.
    + eexists. right. eexists. split; [reflexivity|]. split; [reflexivity|].
      split; [congruence|]. apply candidateStatus_carries.
  - destruct (IsNotFound err); eexists; left; reflexivity.
Qed.

(** X14: when the job cannot be fetched, [updateJobStatus] writes nothing.  A
    job that is not found is no error; any other failure of the fetch is
    returned, wrapped. *)
Theorem updateJobStatus_fetch_failed bcp job destination storageName s3 h err :
  answer_GetJob (client r) h (keyOf (job_ObjectMeta job)) = inr err ->
  exec (updateJobStatus r bcp job destination storageName s3) h =
    (Returned (if IsNotFound err then None
               else Some (Errorf "get backup status: %v" [ArgError err])),
     EvGetJob (keyOf (job_ObjectMeta job)) :: h).
Proof.
  intros Hget. unfold updateJobStatus, client_GetJob. run. rewrite Hget.
  destruct (IsNotFound err); reflexivity.
Qed.

(** X15: whatever the client answers, [updateJobStatus] fetches the job once
    and then writes at most once.  What it writes is the request with its
    metadata and its spec as they were and a new status, different from the
    one the request had, that carries the destination, the name of the
    storage and the S3 part it was given; the error it returns is then the
    answer to the write. *)
Theorem updateJobStatus_writes_status_only bcp job destination storageName s3 h :
  let key := keyOf (job_ObjectMeta job) in
  let run := exec (updateJobStatus r bcp job destination storageName s3) h in
  (exists err, run = (Returned err, EvGetJob key :: h))
  \/ exists cr,
       run = (Returned (answer_UpdateBackup (client r) (EvGetJob key :: h) cr),
              EvUpdateBackup cr :: EvGetJob key :: h)
       /\ bcp_ObjectMeta cr = bcp_ObjectMeta bcp
       /\ bcp_Spec cr = bcp_Spec bcp
       /\ bcp_Status cr <> bcp_Status bcp
       /\ Destination (bcp_Status cr) = destination
       /\ status_StorageName (bcp_Status cr) = storageName
       /\ status_S3 (bcp_Status cr) = s3.
Proof.
  intros key run. subst run. unfold exec.
  destruct (updateJobStatus_trace bcp job destination storageName s3 h)
    as (err & [Hrun | (status & Hrun & Herr & Hne & Hd & Hn & Hs)]); fold key in Hrun.
  - left. exists err. now rewrite Hrun.
  - right. exists (withStatus bcp status). rewrite Hrun, Herr. fold key.
    repeat split; assumption.
Qed.

(** The end of [Reconcile] makes its calls in one order. *)
Lemma submitJob_order rr instance job destination s3status h :
  exists post,
    snd (exec (submitJob pkg r rr instance job destination s3status) h) = post ++ h
    /\ submitOrder post.
Proof.
  unfold submitJob, setControllerReference, client_CreateJob. run.
  destruct (OwnerRef pkg instance) as [ownerRef|err];
    [|exists []; split; [reflexivity | now left]].
  destruct (answer_CreateJob _ _ _) as [err|].
  - destruct (IsAlreadyExists err); cbn [negb].
    + lazymatch goal with
      | |- context [updateJobStatus r ?i ?j ?d ?sn ?s3 ?h'] =>
          destruct (updateJobStatus_trace i j d sn s3 h')
            as (e & [-> | (status & -> & _)])
      end.
      * eexists [_; _]. split; [reflexivity|]. right. right. left. eauto.
      * eexists [_; _; _]. split; [reflexivity|]. right. right. right. eauto.
    + eexists [_]. split; [reflexivity|]. right. left. eauto.
  - lazymatch goal with
    | |- context [updateJobStatus r ?i ?j ?d ?sn ?s3 ?h'] =>
        destruct (updateJobStatus_trace i j d sn s3 h')
          as (e & [-> | (status & -> & _)])
    end.
    + eexists [_; _]. split; [reflexivity|]. right. right. left. eauto.
    + eexists [_; _; _]. split; [reflexivity|]. right. right. right. eauto.
Qed.

(** X16: whatever the client answers, the calls of a reconciliation come in one
    order: first the calls that read the request, the cluster and the node
    and that fetch, create and wait for the claim; then, at most once each
    and in this order, the creation of the job, the fetch of the job and
    the write of the status.  So the status is written only after the job
    was fetched, the job is fetched only after its creation was tried, and
    nothing is read or created after the job. *)
Theorem Reconcile_order request h :
  exists pre post,
    snd (exec (Reconcile pkg r request) h) = post ++ pre ++ h
    /\ Forall beforeSubmit pre
    /\ submitOrder post.
Proof.
  revert h.
  apply (Reconcile_then_submit pkg r beforeSubmit
           ltac:(reflexivity) ltac:(reflexivity) ltac:(reflexivity)
           ltac:(reflexivity) ltac:(reflexivity) ltac:(reflexivity)
           (fun m => forall h, exists pre post,
                snd (exec m h) = post ++ pre ++ h
                /\ Forall beforeSubmit pre /\ submitOrder post)).
  - intros A m k Hm Hk h. unfold exec, bind.
    destruct (Hm h) as (added1 & Htr1 & HQ1 & _).
    destruct (m h) as [[a|res|] h1]; simpl in *; subst h1.
    + destruct (Hk a (added1 ++ h)) as (pre & post & Htr & HQ & Hpost).
      exists (pre ++ added1), post. unfold exec in Htr. rewrite <- app_assoc.
      split; [|split; [apply Forall_app; auto | exact Hpost]].
      destruct (k a (added1 ++ h)) as [[res|res|] h2]; exact Htr.
    + exists added1, []. split; [reflexivity | split; [exact HQ1 | now left]].
    + exists added1, []. split; [reflexivity | split; [exact HQ1 | now left]].
  - intros instance job destination s3status h.
    destruct (submitJob_order requeueAfter5s instance job destination s3status h)
      as (post & Htr & Hpost).
    exists [], post. split; [exact Htr | split; [constructor | exact Hpost]].
Qed.
End Order.

(** ** Bounds on what a reconciliation does *)

Section CostRules.
Context {Ev : Type}.
Variable f : Ev -> Z.

Lemma total_app (a b : list Ev) : total f (a ++ b) = total f a + total f b.
Proof. unfold total. induction a as [|ev a IH]; cbn; [reflexivity | rewrite IH; lia]. Qed.

Lemma costs_ret {R A} b (a : A) : 0 <= b -> costs (R := R) f b (ret a).
Proof. intros Hb h. exists []. split; [reflexivity | exact Hb]. Qed.

Lemma costs_Return {R A} b (res : R) : 0 <= b -> costs (A := A) f b (Return_ res).
Proof. intros Hb h. exists []. split; [reflexivity | exact Hb]. Qed.

Lemma costs_panic {R A} b : 0 <= b -> costs (R := R) (A := A) f b panic.
Proof. intros Hb h. exists []. split; [reflexivity | exact Hb]. Qed.

Lemma costs_perform {R A} b ev (answer : list Ev -> A) :
  f ev <= b -> costs (R := R) f b (perform ev answer).
Proof. intros Hb h. exists [ev]. split; [reflexivity | unfold total; cbn; lia]. Qed.

Lemma costs_bind {R A B} b1 b2 b (m : @M Ev R A) (k : A -> @M Ev R B) :
  costs f b1 m -> (forall a, costs f b2 (k a)) -> 0 <= b2 -> b1 + b2 <= b ->
  costs f b (bind m k).
Proof.
  intros Hm Hk Hb2 Hb h. unfold bind.
  destruct (Hm h) as (added1 & Htr1 & Hc1).
  destruct (m h) as [[a|res|] h1]; simpl in *; subst h1.
  - destruct (Hk a (added1 ++ h)) as (added2 & Htr2 & Hc2).
    exists (added2 ++ added1). rewrite Htr2, app_assoc, total_app.
    split; [reflexivity | lia].
  - exists added1. split; [reflexivity | lia].
  - exists added1. split; [reflexivity | lia].
Qed.

Lemma costs_call {R R'} b (body : @M Ev R' R') :
  costs f b body -> costs (R := R) f b (call body).
Proof.
  intros Hb h. destruct (Hb h) as (added & Htr & Hc). exists added.
  unfold call, exec. destruct (body h) as [[a|res|] h1]; simpl in *; auto.
Qed.

(** Effects without weight cost nothing. *)
Lemma quiet_costs {R A} (m : @M Ev R A) :
  quiet (fun ev => f ev = 0) m -> costs f 0 m.
Proof.
  intros Hm h. destruct (Hm h) as (added & Htr & HQ). exists added.
  split; [exact Htr|]. clear Htr. unfold total.
  induction HQ as [|ev added Hev _ IH]; cbn; lia.
Qed.
End CostRules.

Section Cost.
Context {JobSpec PersistentVolumeClaimSpec : Type}.
Variable pkg : @BackupPkg JobSpec PersistentVolumeClaimSpec.
Variable r : @ReconcilePerconaXtraDBBackup JobSpec PersistentVolumeClaimSpec.

(** A weight [f] that is [cg] on the fetch of a claim, [cc] on the creation
    of a claim, [cs * d] on a sleep of [d], and nothing elsewhere. *)
Variable f : @Event JobSpec PersistentVolumeClaimSpec -> Z.
Variables cg cc cs : Z.
Hypothesis cg_pos : 0 <= cg.
Hypothesis cc_pos : 0 <= cc.
Hypothesis cs_pos : 0 <= cs.
Hypothesis f_GetBackup : forall key, f (EvGetBackup key) = 0.
Hypothesis f_ListClusters : forall ns, f (EvListClusters ns) = 0.
Hypothesis f_SelectNode : forall cr, f (EvSelectNode cr) = 0.
Hypothesis f_CreateJob : forall job, f (EvCreateJob job) = 0.
Hypothesis f_GetJob : forall key, f (EvGetJob key) = 0.
Hypothesis f_UpdateBackup : forall cr, f (EvUpdateBackup cr) = 0.
Hypothesis f_GetPVC : forall key, f (EvGetPVC key) = cg.
Hypothesis f_CreatePVC : forall pvc, f (EvCreatePVC pvc) = cc.
Hypothesis f_Sleep : forall d, f (EvSleep d) = cs * d.

Lemma waitWeight_pos n : forall i, 0 <= i -> 0 <= waitWeight cg cs n i.
Proof.
  induction n as [|n IH]; intros i Hi; cbn [waitWeight]; [lia|].
  specialize (IH (i + 1) ltac:(lia)). unfold Second. nia.
Qed.

Lemma waitPVC_costs n :
  forall i pvc status, 0 <= i ->
    costs f (waitWeight cg cs n i) (waitPVC r n i pvc status).
Proof.
  induction n as [|n IH]; intros i pvc status Hi; cbn [waitPVC waitWeight].
  - apply costs_ret. lia.
  - pose proof (waitWeight_pos n (i + 1) ltac:(lia)) as Hrest.
    assert (Hsleep : 0 <= cs * (Second * i)) by (unfold Second; nia).
    unfold pvcStatus, client_GetPVC, Sleep.
    apply costs_bind with (b1 := cg) (b2 := cs * (Second * i) + waitWeight cg cs n (i + 1));
      [| |lia|lia].
    { apply costs_bind with (b1 := cg) (b2 := 0); [| |lia|lia].
      - apply costs_perform. rewrite f_GetPVC. lia.
      - intros [fetched|err]; apply costs_ret; lia. }
    intros [[pvc1 status1] err].
    apply costs_bind with (b1 := 0) (b2 := cs * (Second * i) + waitWeight cg cs n (i + 1));
      [| |lia|lia].
    { destruct err as [e|]; [destruct (negb (IsNotFound e))|];
        first [apply costs_ret | apply costs_Return]; lia. }
    intros _. destruct (String.eqb status1 VolumeBound); [apply costs_ret; lia|].
    apply costs_bind with (b1 := cs * (Second * i)) (b2 := waitWeight cg cs n (i + 1));
      [| |lia|lia].
    + apply costs_perform. rewrite f_Sleep. lia.
    + intros _. apply IH. lia.
Qed.

Lemma storageFilesystem_costs instance cluster bcp bcpStorage job :
  costs f (cg + cc + waitWeight cg cs 5 1)
    (storageFilesystem pkg r instance cluster bcp bcpStorage job).
Proof.
  pose proof (waitWeight_pos 5 1 ltac:(lia)) as Hwait.
  unfold storageFilesystem, waitPVCBound, client_GetPVC, client_CreatePVC.
  apply costs_bind with (b1 := 0) (b2 := cg + cc + waitWeight cg cs 5 1); [| |lia|lia].
  { destruct (Volume bcpStorage) as [[[spec|]]|];
      first [apply costs_ret | apply costs_panic]; lia. }
  intros spec.
  apply costs_bind with (b1 := 0) (b2 := cg + cc + waitWeight cg cs 5 1); [| |lia|lia].
  { destruct (setControllerReference _ _ _) as [meta [err|]];
      first [apply costs_ret | apply costs_Return]; lia. }
  intros pvc.
  apply costs_bind with (b1 := cg) (b2 := cc + waitWeight cg cs 5 1); [| |lia|lia].
  { apply costs_perform. rewrite f_GetPVC. lia. }
  intros got.
  apply costs_bind with (b1 := cc) (b2 := waitWeight cg cs 5 1); [| |lia|lia].
  { destruct got as [fetched|err]; [apply costs_ret; lia|].
    destruct (IsNotFound err); [|apply costs_ret; lia].
    apply costs_bind with (b1 := cc) (b2 := 0); [| |lia|lia].
    - apply costs_perform. rewrite f_CreatePVC. lia.
    - intros [err'|]; first [apply costs_ret | apply costs_Return]; lia. }
  intros pvc1.
  apply costs_bind with (b1 := waitWeight cg cs 5 1) (b2 := 0); [| |lia|lia].
  { apply costs_bind with (b1 := waitWeight cg cs 5 1) (b2 := 0); [| |lia|lia].
    - apply waitPVC_costs. lia.
    - intros [pvc2 status]. destruct (negb _);
        first [apply costs_ret | apply costs_Return]; lia. }
  intros pvc2. destruct (backup_SetStoragePVC _ _ _ _ _) as [spec0 [err|]];
    first [apply costs_ret | apply costs_Return]; lia.
Qed.

#[local] Ltac free_step :=
  first [ early_step
        | apply f_GetBackup | apply f_ListClusters | apply f_SelectNode
        | apply f_CreateJob | apply f_GetJob | apply f_UpdateBackup
        | exact I ].

#[local] Ltac free :=
  apply quiet_costs; apply early_quiet with (ok := fun _ => True);
  repeat free_step.

Lemma updateJobStatus_free bcp job destination storageName s3 :
  costs f 0 (updateJobStatus r bcp job destination storageName s3).
Proof. unfold updateJobStatus, client_GetJob, client_UpdateBackup. free. Qed.

Lemma getClusterConfig_free cr : costs f 0 (getClusterConfig r cr).
Proof. unfold getClusterConfig, client_ListClusters. free. Qed.

Lemma submitJob_free rr instance job destination s3status :
  costs f 0 (submitJob pkg r rr instance job destination s3status).
Proof.
  unfold submitJob, client_CreateJob.
  apply costs_bind with (b1 := 0) (b2 := 0); [free| |lia|lia]. intros job1.
  apply costs_bind with (b1 := 0) (b2 := 0); [free| |lia|lia]. intros created.
  apply costs_bind with (b1 := 0) (b2 := 0); [free| |lia|lia]. intros _.
  apply costs_bind with (b1 := 0) (b2 := 0); [| |lia|lia].
  - apply costs_call, updateJobStatus_free.
  - intros err. apply costs_Return. lia.
Qed.

(** The weight of a reconciliation is the weight of its filesystem path. *)
Lemma Reconcile_costs request :
  costs f (cg + cc + waitWeight cg cs 5 1) (Reconcile pkg r request).
Proof.
  pose proof (waitWeight_pos 5 1 ltac:(lia)) as Hwait.
  set (b := cg + cc + waitWeight cg cs 5 1) in *.
  unfold Reconcile, client_GetBackup, SelectNode. cbv zeta.
  apply costs_bind with (b1 := 0) (b2 := b); [free| |lia|lia]. intros got.
  apply costs_bind with (b1 := 0) (b2 := b); [free| |lia|lia]. intros instance.
  apply costs_bind with (b1 := 0) (b2 := b);
    [apply costs_call, getClusterConfig_free| |lia|lia]. intros found.
  apply costs_bind with (b1 := 0) (b2 := b); [free| |lia|lia]. intros cluster.
  apply costs_bind with (b1 := 0) (b2 := b); [free| |lia|lia]. intros bcp.
  apply costs_bind with (b1 := 0) (b2 := b); [free| |lia|lia]. intros selected.
  apply costs_bind with (b1 := 0) (b2 := b); [free| |lia|lia]. intros bcpNode.
  apply costs_bind with (b1 := 0) (b2 := b); [free| |lia|lia]. intros bcpStorage.
  apply costs_bind with (b1 := b) (b2 := 0); [| |lia|lia].
  - destruct (storage_Type bcpStorage).
    + apply costs_bind with (b1 := b) (b2 := 0); [| |lia|lia].
      * apply storageFilesystem_costs.
      * intros fs. apply costs_ret. lia.
    + unfold storageS3.
      destruct (backup_SetStorageS3 _ _ _ _ _ _) as [spec [err|]];
        first [apply costs_ret | apply costs_Return]; lia.
    + apply costs_ret. lia.
  - intros [[job destination] s3status]. apply submitJob_free.
Qed.
End Cost.

(** X17: whatever the client answers, a reconciliation sleeps fifteen seconds at
    most, fetches a claim six times at most (once to check for it and five
    times to wait for it) and creates at most one claim. *)
Theorem Reconcile_bounded {JobSpec PersistentVolumeClaimSpec : Type}
    (pkg : @BackupPkg JobSpec PersistentVolumeClaimSpec)
    (r : @ReconcilePerconaXtraDBBackup JobSpec PersistentVolumeClaimSpec)
    request h :
  exists added,
    snd (exec (Reconcile pkg r request) h) = added ++ h
    /\ slept added <= 15 * Second
    /\ total (counting isGetPVC) added <= 6
    /\ total (counting isCreatePVC) added <= 1.
Proof.
  assert (Hsnd : snd (exec (Reconcile pkg r request) h)
                 = snd (Reconcile pkg r request h)).
  { unfold exec. destruct (Reconcile pkg r request h) as [[res|res|] h1]; reflexivity. }
  rewrite Hsnd.
  destruct (Reconcile_costs pkg r sleepOf 0 0 1 ltac:(lia) ltac:(lia) ltac:(lia)
              ltac:(reflexivity) ltac:(reflexivity) ltac:(reflexivity)
              ltac:(reflexivity) ltac:(reflexivity) ltac:(reflexivity)
              ltac:(reflexivity) ltac:(reflexivity)
              ltac:(intros d; cbn [sleepOf]; lia) request h)
    as (added & Htr & Hslept).
  destruct (Reconcile_costs pkg r (counting isGetPVC) 1 0 0
              ltac:(lia) ltac:(lia) ltac:(lia)
              ltac:(reflexivity) ltac:(reflexivity) ltac:(reflexivity)
              ltac:(reflexivity) ltac:(reflexivity) ltac:(reflexivity)
              ltac:(reflexivity) ltac:(reflexivity) ltac:(reflexivity) request h)
    as (added2 & Htr2 & Hfetched).
  destruct (Reconcile_costs pkg r (counting isCreatePVC) 0 1 0
              ltac:(lia) ltac:(lia) ltac:(lia)
              ltac:(reflexivity) ltac:(reflexivity) ltac:(reflexivity)
              ltac:(reflexivity) ltac:(reflexivity) ltac:(reflexivity)
              ltac:(reflexivity) ltac:(reflexivity) ltac:(reflexivity) request h)
    as (added3 & Htr3 & Hcreated).
  rewrite Htr in Htr2, Htr3.
  apply app_inv_tail in Htr2, Htr3. subst added2 added3.
  exists added. split; [exact Htr|]. split; [|split].
  - exact Hslept.
  - exact Hfetched.
  - exact Hcreated.
Qed.

(** ** The job of the filesystem path *)

Section AfterBound.
Context {JobSpec PersistentVolumeClaimSpec : Type}.
Variable pkg : @BackupPkg JobSpec PersistentVolumeClaimSpec.
Variable r : @ReconcilePerconaXtraDBBackup JobSpec PersistentVolumeClaimSpec.

(** The filesystem path hands a job on only after a fetch that showed the
    claim bound; the job has the spec [SetStoragePVC] made for the name of
    that claim. *)
Lemma storageFilesystem_next instance cluster bcp bcpStorage job h job1 destination h1 :
  storageFilesystem pkg r instance cluster bcp bcpStorage job h
    = (Next (job1, destination), h1) ->
  exists key h0 bound spec,
    h1 = EvGetPVC key :: h0
    /\ answer_GetPVC (client r) h0 key = inl bound
    /\ Phase bound = VolumeBound
    /\ backup_SetStoragePVC pkg cluster bcp (job_Spec job) (Name (pvc_ObjectMeta bound))
       = (spec, None)
    /\ job1 = withJobSpec job spec
    /\ destination = "pvc/cluster1-xb-cron-pvc".
Proof.
  intros Hrun.
  destruct (Volume bcpStorage) as [[[spec0|]]|] eqn:Hvolume;
    [| unfold storageFilesystem in Hrun; rewrite Hvolume in Hrun; discriminate
     | unfold storageFilesystem in Hrun; rewrite Hvolume in Hrun; discriminate].
  destruct (OwnerRef pkg instance) as [ownerRef|err] eqn:Howner;
    [| unfold storageFilesystem, setControllerReference in Hrun;
       rewrite Hvolume, Howner in Hrun; discriminate].
  rewrite (storageFilesystem_check pkg r _ _ _ _ _ _ _ _ Hvolume Howner) in Hrun.
  assert (Hrest : forall claim h',
             claimReady pkg r cluster bcp job "pvc/cluster1-xb-cron-pvc" claim h'
               = (Next (job1, destination), h1) ->
             exists key h0 bound spec,
               h1 = EvGetPVC key :: h0
               /\ answer_GetPVC (client r) h0 key = inl bound
               /\ Phase bound = VolumeBound
               /\ backup_SetStoragePVC pkg cluster bcp (job_Spec job)
                    (Name (pvc_ObjectMeta bound)) = (spec, None)
               /\ job1 = withJobSpec job spec
               /\ destination = "pvc/cluster1-xb-cron-pvc").
  { intros claim h'. unfold claimReady, bind.
    destruct (waitPVCBound r claim h') as [[bound|res|] h2] eqn:Hwait;
      [|discriminate|discriminate].
    destruct (backup_SetStoragePVC _ _ _ _ _) as [spec [err|]] eqn:Hset;
      [discriminate|].
    unfold ret. intros [= <- <- <-].
    destruct (waitPVCBound_bound_seen r claim h' bound h2 Hwait)
      as (key & h0 & -> & Hanswer & Hphase).
    exists key, h0, bound, spec.
    repeat (split; [first [assumption | reflexivity]|]). reflexivity. }
  destruct (answer_GetPVC (client r) h _) as [fetched|err]; [now apply Hrest in Hrun|].
  destruct (IsNotFound err); [|now apply Hrest in Hrun].
  destruct (answer_CreatePVC _ _ _) as [err'|]; [discriminate | now apply Hrest in Hrun].
Qed.

#[local] Ltac known H := rewrite H; cbv beta iota zeta.

(** X18: on a filesystem storage the job is created only when the claim was
    seen bound.  Either the last call before the end of [Reconcile], the
    part that creates the job, was a fetch of the claim that showed it
    bound, and the job that is created has the spec [SetStoragePVC] made for
    the name of the claim that fetch returned and the destination
    pvc/cluster1-xb-cron-pvc; or the reconciliation ends fatally, or panics,
    with no job created, no job fetched and no status written. *)
Theorem Reconcile_filesystem_after_bound
    request h instance cluster bcp bcpNode bcpStorage :
  reachesStorage r request h instance cluster bcp bcpNode bcpStorage ->
  storage_Type bcpStorage = BackupStorageFilesystem ->
  let job := preparedJob pkg r instance cluster bcp bcpNode in
  let run := exec (Reconcile pkg r request) h in
  (exists key h0 bound spec added,
      EvGetPVC key :: h0 = added ++ atStorage request instance h
      /\ Forall beforeSubmit added
      /\ answer_GetPVC (client r) h0 key = inl bound
      /\ Phase bound = VolumeBound
      /\ backup_SetStoragePVC pkg cluster bcp (job_Spec job)
           (Name (pvc_ObjectMeta bound)) = (spec, None)
      /\ run = exec (submitJob pkg r requeueAfter5s instance (withJobSpec job spec)
                       "pvc/cluster1-xb-cron-pvc" None)
                 (EvGetPVC key :: h0))
  \/ (exists added,
        snd run = added ++ h
        /\ Forall beforeSubmit added
        /\ match fst run with
           | Returned res => fatal res
           | Panicked => True
           end).
Proof.
  intros Hreach Htype job run. subst run.
  destruct (storageFilesystem_adds pkg r beforeSubmit
              ltac:(reflexivity) ltac:(reflexivity) ltac:(reflexivity)
              instance cluster bcp bcpStorage job (atStorage request instance h))
    as (added & Hadded & Hbefore & _).
  destruct (storageFilesystem_early pkg r instance cluster bcp bcpStorage job
              (atStorage request instance h)) as (added' & Hadded' & _ & Hfatal).
  subst job.
  destruct Hreach as ((Hget & items & Hlist & Hfind) & Hbackup & Hnode & Hstorage).
  unfold atStorage, afterCluster, preparedJob in *.
  unfold Reconcile, getClusterConfig, client_GetBackup, client_ListClusters, SelectNode.
  change (Second * 5) with (5 * Second). fold requeueAfter5s. run.
  known Hget. known Hlist. known Hfind. known Hbackup. known Hnode. known Hstorage.
  known Htype.
  destruct (storageFilesystem _ _ _ _ _ _ _ _) as [[[job1 destination]|res|] h1] eqn:Hfs;
    cbn [fst snd] in *.
  - left.
    destruct (storageFilesystem_next _ _ _ _ _ _ _ _ _ Hfs)
      as (key & h0 & bound & spec & -> & Hanswer & Hphase & Hset & -> & ->).
    exists key, h0, bound, spec, added. repeat (split; [assumption|]).
    reflexivity.
  - right. subst h1.
    exists (added ++ [EvSelectNode instance;
                      EvListClusters (Namespace (bcp_ObjectMeta instance));
                      EvGetBackup (req_NamespacedName request)]).
    rewrite <- app_assoc. split; [reflexivity|]. split; [|exact Hfatal].
    apply Forall_app. split; [exact Hbefore|]. repeat constructor.
  - right. subst h1.
    exists (added ++ [EvSelectNode instance;
                      EvListClusters (Namespace (bcp_ObjectMeta instance));
                      EvGetBackup (req_NamespacedName request)]).
    rewrite <- app_assoc. split; [reflexivity|]. split; [|exact I].
    apply Forall_app. split; [exact Hbefore|]. repeat constructor.
Qed.
End AfterBound.

(** ** The set up of the controller *)

(** X19: whatever the manager answers, [Add] asks for the version of the server
    first and creates a controller only with a reconciler that carries the
    version it was given and the client of the manager, under the name
    perconaxtradbbackup-controller.  When the version cannot be read nothing
    else is called and the error is returned wrapped.  [Add] returns no
    error only after the watch was set on the controller it created, as its
    last call. *)
Theorem Add_registers_with_version {JobSpec PersistentVolumeClaimSpec Controller : Type}
    (mgr : @Manager JobSpec PersistentVolumeClaimSpec Controller) h :
  let run := exec (Add mgr) h in
  exists added,
    snd run = added ++ h
    /\ Forall (fun ev => forall name rec,
                 ev = EvNewController name rec ->
                 name = "perconaxtradbbackup-controller"
                 /\ client rec = GetClient mgr
                 /\ answer_Server mgr h = inl (serverVersion rec)) added
    /\ (forall err,
          answer_Server mgr h = inr err ->
          added = [EvServerVersion]
          /\ fst run = Returned (Some (Errorf "get version: %v" [ArgError err])))
    /\ (fst run = Returned None ->
        exists c rec,
          added = [EvWatch c; EvNewController "perconaxtradbbackup-controller" rec;
                   EvServerVersion]
          /\ answer_New mgr (EvServerVersion :: h) "perconaxtradbbackup-controller" rec
             = inl c
          /\ answer_Watch mgr
               (EvNewController "perconaxtradbbackup-controller" rec
                  :: EvServerVersion :: h) c = None).
Proof.
  unfold Add, newReconciler, add, version_Server, controller_New, Watch. run.
  destruct (answer_Server mgr h) as [sv|err] eqn:Hversion.
  - set (rec := {| client := GetClient mgr; serverVersion := sv |}).
    assert (Hnew : forall name rec',
               EvNewController (Controller := Controller)
                 "perconaxtradbbackup-controller" rec = EvNewController name rec' ->
               name = "perconaxtradbbackup-controller"
               /\ client rec' = GetClient mgr /\ inl sv = inl (B := GoError) (serverVersion rec')).
    { intros name rec' [= <- <-]. repeat split. }
    destruct (answer_New mgr _ _ _) as [c|err] eqn:Hcreate.
    + destruct (answer_Watch mgr _ c) as [err|] eqn:Hwatch.
      * exists [EvWatch c; EvNewController "perconaxtradbbackup-controller" rec;
                EvServerVersion].
        split; [reflexivity|]. split; [|split; [discriminate | discriminate]].
        repeat (constructor 2; [first [exact Hnew | intros ? ? [=]]|]). constructor 1.
      * exists [EvWatch c; EvNewController "perconaxtradbbackup-controller" rec;
                EvServerVersion].
        split; [reflexivity|]. split; [|split; [discriminate |]].
        -- repeat (constructor 2; [first [exact Hnew | intros ? ? [=]]|]). constructor 1.
        -- intros _. exists c, rec. repeat split; assumption.
    + exists [EvNewController "perconaxtradbbackup-controller" rec; EvServerVersion].
      split; [reflexivity|]. split; [|split; [discriminate | discriminate]].
      repeat (constructor 2; [first [exact Hnew | intros ? ? [=]]|]). constructor 1.
  - exists [EvServerVersion]. split; [reflexivity|].
    split; [repeat (constructor 2; [intros ? ? [=]|]); constructor 1|].
    split; [|discriminate]. intros err' [= <-]. split; reflexivity.
Qed.

(** ** A request without an owner reference *)

Section Owner.
Context {JobSpec PersistentVolumeClaimSpec : Type}.
Variable pkg : @BackupPkg JobSpec PersistentVolumeClaimSpec.
Variable r : @ReconcilePerconaXtraDBBackup JobSpec PersistentVolumeClaimSpec.

#[local] Ltac known H := rewrite H; cbv beta iota zeta.

(** X20: when the request cannot give an owner reference, a reconciliation that
    comes to the storage ends there with an error: no claim is fetched or
    created, it does not sleep, and no job is created.  On a filesystem
    storage the error is the one of the claim; on the other storages it is
    the one of the job, unless [SetStorageS3] failed before. *)
Theorem Reconcile_owner_failed request h instance cluster bcp bcpNode bcpStorage err :
  reachesStorage r request h instance cluster bcp bcpNode bcpStorage ->
  hasClaimTemplate bcpStorage ->
  OwnerRef pkg instance = inr err ->
  let job := preparedJob pkg r instance cluster bcp bcpNode in
  let destination :=
    s3Destination (Bucket (S3 bcpStorage)) (PXCCluster (bcp_Spec instance))
      (CreationTimestamp (bcp_ObjectMeta instance)) in
  exists e,
    exec (Reconcile pkg r request) h =
      (Returned (noResult, Some e), atStorage request instance h)
    /\ match storage_Type bcpStorage with
       | BackupStorageFilesystem =>
           e = Errorf "setControllerReference: %v" [ArgError err]
       | BackupStorageS3 =>
           match snd (backup_SetStorageS3 pkg cluster bcp (job_Spec job)
                        (S3 bcpStorage) destination) with
           | Some err' => e = Errorf "set storage FS: %v" [ArgError err']
           | None => e = Errorf "job/setControllerReference: %v" [ArgError err]
           end
       | BackupStorageOther _ =>
           e = Errorf "job/setControllerReference: %v" [ArgError err]
       end.
Proof.
  intros Hreach Htemplate Howner job destination. subst job.
  destruct Hreach as ((Hget & items & Hlist & Hfind) & Hbackup & Hnode & Hstorage).
  unfold atStorage, afterCluster, preparedJob in *.
  unfold Reconcile, getClusterConfig, client_GetBackup, client_ListClusters, SelectNode.
  change (Second * 5) with (5 * Second). fold requeueAfter5s. run.
  known Hget. known Hlist. known Hfind. known Hbackup. known Hnode. known Hstorage.
  destruct (storage_Type bcpStorage) as [| |other] eqn:Htype.
  - destruct (Htemplate Htype) as (spec & Hvolume).
    unfold storageFilesystem, setControllerReference.
    rewrite Hvolume, Howner. cbn [volume_PersistentVolumeClaim]. run.
    eexists. split; reflexivity.
  - unfold storageS3. run. fold destination.
    destruct (backup_SetStorageS3 _ _ _ _ _ _) as [spec [err'|]]; cbn [snd].
    + eexists. split; reflexivity.
    + unfold submitJob, setControllerReference. rewrite Howner. run.
      eexists. split; reflexivity.
  - unfold submitJob, setControllerReference. rewrite Howner. run.
    eexists. split; reflexivity.
Qed.
End Owner.

(** ** Runs of the paths above *)

Module MoreRuns.
Import Scenario Faults.

Abbreviation standard :=
  (server (backup "fs-pvc") [cluster "some-name"] pending running).
Abbreviation volume :=
  {| key_Namespace := "pxc"; key_Name := "cluster1-xb-cron-pvc" |}.
Abbreviation backupJob :=
  {| key_Namespace := "pxc"; key_Name := "xb-backup1" |}.
Abbreviation fetched := (EvGetBackup (req_NamespacedName request)).
Abbreviation fsStorage :=
  {| storage_Type := BackupStorageFilesystem; S3 := s3 "";
     Volume := Some {| volume_PersistentVolumeClaim := Some "standard" |} |}.
Abbreviation s3Storage :=
  {| storage_Type := BackupStorageS3; S3 := s3 "mybucket"; Volume := None |}.
Abbreviation plan := {| Image := "percona/backup"; Storages := storages |}.

Lemma getClusterConfig_first_match_witness :
  exec (getClusterConfig
          (reconciler (server (backup "fs-pvc")
                         [cluster "a"; cluster "some-name"; clusterWith "some-name" None]
                         pending running))
          (backup "fs-pvc")) [] =
    (Returned (inl (cluster "some-name")), [EvListClusters "pxc"]).
Proof.
  apply (getClusterConfig_first_match
           (reconciler (server (backup "fs-pvc")
                          [cluster "a"; cluster "some-name"; clusterWith "some-name" None]
                          pending running))
           (backup "fs-pvc") [] [cluster "a"] (cluster "some-name")
           [clusterWith "some-name" None]).
  - reflexivity.
  - constructor; [|constructor]. simpl. discriminate.
  - reflexivity.
Defined.

Lemma Reconcile_fetch_failed_witness :
  exec (Reconcile pkg (reconciler (withGetBackup standard (fun _ _ => inr notFound)))
          request) [] =
    (Returned (requeueAfter5s, None), [fetched])
  /\ exec (Reconcile pkg (reconciler (withGetBackup standard (fun _ _ => inr timedOut)))
             request) [] =
       (Returned (noResult, Some timedOut), [fetched]).
Proof.
  split.
  - apply (Reconcile_fetch_failed pkg
             (reconciler (withGetBackup standard (fun _ _ => inr notFound)))
             request [] notFound).
    reflexivity.
  - apply (Reconcile_fetch_failed pkg
             (reconciler (withGetBackup standard (fun _ _ => inr timedOut)))
             request [] timedOut).
    reflexivity.
Defined.

Lemma Reconcile_list_failed_witness :
  exec (Reconcile pkg (reconciler (withListClusters standard (fun _ _ => inr timedOut)))
          request) [] =
    (Returned (noResult,
               Some (Errorf "invalid backup cluster: %v"
                       [ArgError (Errorf "get clusters list: %v" [ArgError timedOut])])),
     [EvListClusters "pxc"; fetched]).
Proof.
  apply (Reconcile_list_failed pkg
           (reconciler (withListClusters standard (fun _ _ => inr timedOut)))
           request [] (backup "fs-pvc") timedOut); reflexivity.
Defined.

Lemma Reconcile_no_backup_section_witness :
  exec (Reconcile pkg
          (reconciler (server (backup "fs-pvc") [clusterWith "some-name" None]
                         pending running))
          request) [] =
    (Returned (noResult,
               Some (Errorf "a backup image should be set in the PXC config" [])),
     [EvListClusters "pxc"; fetched]).
Proof.
  apply (Reconcile_no_backup_section pkg
           (reconciler (server (backup "fs-pvc") [clusterWith "some-name" None]
                          pending running))
           request [] (backup "fs-pvc") (clusterWith "some-name" None)).
  - split; [reflexivity|]. exists [clusterWith "some-name" None].
    split; reflexivity.
  - reflexivity.
Defined.

Lemma Reconcile_select_node_failed_witness :
  let noNode := Errorf "no avaliable node" [] in
  exec (Reconcile pkg (reconciler (withSelectNode standard (fun _ _ => inr noNode)))
          request) [] =
    (Returned (noResult, Some (Errorf "select backup node: %v" [ArgError noNode])),
     [EvSelectNode (backup "fs-pvc"); EvListClusters "pxc"; fetched]).
Proof.
  intros noNode.
  apply (Reconcile_select_node_failed pkg
           (reconciler (withSelectNode standard (fun _ _ => inr noNode)))
           request [] (backup "fs-pvc") (cluster "some-name") plan noNode).
  - split; [reflexivity|]. exists [cluster "some-name"]. split; reflexivity.
  - reflexivity.
  - reflexivity.
Defined.

Lemma Reconcile_unknown_storage_witness :
  exec (Reconcile pkg
          (reconciler (server (backup "nowhere") [cluster "some-name"] pending running))
          request) [] =
    (Returned (noResult,
               Some (Errorf "bcpStorage %s doesn't exist" [ArgString "nowhere"])),
     [EvSelectNode (backup "nowhere"); EvListClusters "pxc"; fetched]).
Proof.
  apply (Reconcile_unknown_storage pkg
           (reconciler (server (backup "nowhere") [cluster "some-name"] pending running))
           request [] (backup "nowhere") (cluster "some-name") plan "cluster1-pxc-0").
  - split; [reflexivity|]. exists [cluster "some-name"]. split; reflexivity.
  - reflexivity.
  - reflexivity.
  - vm_compute. reflexivity.
Defined.

Lemma Reconcile_panics_without_template_witness :
  exec (Reconcile pkg
          (reconciler (server (backup "fs-bare") [clusterWith "some-name" (Some schedule)]
                         pending running))
          request) [] =
    (Panicked, [EvSelectNode (backup "fs-bare"); EvListClusters "pxc"; fetched]).
Proof.
  apply (Reconcile_panics_without_template pkg
           (reconciler (server (backup "fs-bare")
                          [clusterWith "some-name" (Some schedule)] pending running))
           request [] (backup "fs-bare") (clusterWith "some-name" (Some schedule))
           schedule "cluster1-pxc-0" bare).
  - split; [|split; [reflexivity | split; [reflexivity | vm_compute; reflexivity]]].
    split; [reflexivity|]. exists [clusterWith "some-name" (Some schedule)].
    split; reflexivity.
  - reflexivity.
  - left. reflexivity.
Defined.

Lemma Reconcile_other_storage_type_witness :
  let r := reconciler (server (backup "azure-1")
                         [clusterWith "some-name" (Some schedule)] pending running) in
  exec (Reconcile pkg r request) [] =
    exec (submitJob pkg r requeueAfter5s (backup "azure-1")
            (preparedJob pkg r (backup "azure-1")
               (clusterWith "some-name" (Some schedule)) schedule "cluster1-pxc-0")
            "" None)
      [EvSelectNode (backup "azure-1"); EvListClusters "pxc"; fetched].
Proof.
  intros r.
  apply (Reconcile_other_storage_type pkg r request [] (backup "azure-1")
           (clusterWith "some-name" (Some schedule)) schedule "cluster1-pxc-0"
           azure "azure").
  - split; [|split; [reflexivity | split; [reflexivity | vm_compute; reflexivity]]].
    split; [reflexivity|]. exists [clusterWith "some-name" (Some schedule)].
    split; reflexivity.
  - reflexivity.
Defined.

Lemma Reconcile_s3_path_witness :
  let r := reconciler (server (backup "s3-us") [cluster "some-name"] pending running) in
  let destination := "s3://mybucket/some-name-2024-07-03-15:04:05-xtrabackup.stream" in
  exec (Reconcile pkg r request) [] =
    exec (submitJob pkg r requeueAfter5s (backup "s3-us")
            (withJobSpec
               (preparedJob pkg r (backup "s3-us") (cluster "some-name") plan
                  "cluster1-pxc-0")
               ["node=cluster1-pxc-0"; "s3=" +:+ destination])
            destination (Some (s3 "mybucket")))
      [EvSelectNode (backup "s3-us"); EvListClusters "pxc"; fetched].
Proof.
  intros r destination.
  apply (Reconcile_s3_path pkg r request [] (backup "s3-us") (cluster "some-name")
           plan "cluster1-pxc-0" s3Storage).
  - split; [|split; [reflexivity | split; [reflexivity | vm_compute; reflexivity]]].
    split; [reflexivity|]. exists [cluster "some-name"]. split; reflexivity.
  - reflexivity.
Defined.

Lemma storageFilesystem_create_failed_witness :
  let r := reconciler
             (withCreatePVC (server (backup "fs-pvc") [cluster "some-name"] missing running)
                (fun _ _ => Some alreadyExists)) in
  storageFilesystem pkg r (backup "fs-pvc") (cluster "some-name") plan fsStorage
    (job backupJob noJobStatus) [] =
    (Return (noResult, Some (Errorf "create backup pvc: %v" [ArgError alreadyExists])),
     [EvCreatePVC (ownedPVC pkg (backup "fs-pvc") "standard" owner); EvGetPVC volume]).
Proof.
  intros r.
  apply (storageFilesystem_create_failed pkg r (backup "fs-pvc") (cluster "some-name")
           plan fsStorage (job backupJob noJobStatus) [] "standard" owner notFound
           alreadyExists); reflexivity.
Defined.

Lemma storageFilesystem_creates_when_missing_witness :
  let r := reconciler (server (backup "fs-pvc") [cluster "some-name"] missing running) in
  let pvc := ownedPVC pkg (backup "fs-pvc") "standard" owner in
  exists added,
    snd (storageFilesystem pkg r (backup "fs-pvc") (cluster "some-name") plan fsStorage
           (job backupJob noJobStatus) []) = added ++ []
    /\ existsb isCreatePVC added = true
    /\ (length (List.filter isCreatePVC added) <= 1)%nat
    /\ Forall (fun ev => forall created, ev = EvCreatePVC created -> created = pvc) added
    /\ Name (pvc_ObjectMeta pvc) = "cluster1-xb-cron-pvc"
    /\ pvc_Spec pvc = "standard"
    /\ In owner (OwnerReferences (pvc_ObjectMeta pvc)).
Proof.
  intros r pvc.
  apply (storageFilesystem_creates_when_missing pkg r (backup "fs-pvc")
           (cluster "some-name") plan fsStorage (job backupJob noJobStatus) []
           "standard" owner); reflexivity.
Defined.

Lemma waitPVCBound_fetch_failed_witness :
  waitPVCBound
    (reconciler (server (backup "fs-pvc") [cluster "some-name"] failsAtThird running))
    (claim volume "") [] =
    (Return (noResult, Some (Errorf "get pvc status: %v" [ArgError timedOut])),
     [EvGetPVC volume; EvSleep (Second * 2); EvGetPVC volume;
      EvSleep (Second * 1); EvGetPVC volume]).
Proof.
  apply (waitPVCBound_fetch_failed
           (reconciler (server (backup "fs-pvc") [cluster "some-name"] failsAtThird
                          running))
           (claim volume "") [] 2 timedOut).
  - lia.
  - intros k Hk. destruct k as [|[|k]]; [| |lia]; simpl;
      (split; [reflexivity | discriminate]).
  - reflexivity.
  - reflexivity.
Defined.

Lemma updateJobStatus_fetch_failed_witness :
  exec (updateJobStatus (reconciler (withGetJob standard (fun _ _ => inr timedOut)))
          (backup "fs-pvc") (job backupJob noJobStatus)
          "pvc/cluster1-xb-cron-pvc" "fs-pvc" None) [] =
    (Returned (Some (Errorf "get backup status: %v" [ArgError timedOut])),
     [EvGetJob backupJob]).
Proof.
  apply (updateJobStatus_fetch_failed
           (reconciler (withGetJob standard (fun _ _ => inr timedOut)))
           (backup "fs-pvc") (job backupJob noJobStatus)
           "pvc/cluster1-xb-cron-pvc" "fs-pvc" None [] timedOut).
  reflexivity.
Defined.

Lemma Reconcile_filesystem_after_bound_witness :
  let r := reconciler (server (backup "fs-pvc") [cluster "some-name"] boundAtThird
                         running) in
  let job := preparedJob pkg r (backup "fs-pvc") (cluster "some-name") plan
               "cluster1-pxc-0" in
  let run := exec (Reconcile pkg r request) [] in
  (exists key h0 bound spec added,
      EvGetPVC key :: h0 = added ++ atStorage request (backup "fs-pvc") []
      /\ Forall beforeSubmit added
      /\ answer_GetPVC (client r) h0 key = inl bound
      /\ Phase bound = VolumeBound
      /\ backup_SetStoragePVC pkg (cluster "some-name") plan (job_Spec job)
           (Name (pvc_ObjectMeta bound)) = (spec, None)
      /\ run = exec (submitJob pkg r requeueAfter5s (backup "fs-pvc")
                       (withJobSpec job spec) "pvc/cluster1-xb-cron-pvc" None)
                 (EvGetPVC key :: h0))
  \/ (exists added,
        snd run = added ++ []
        /\ Forall beforeSubmit added
        /\ match fst run with
           | Returned res => fatal res
           | Panicked => True
           end).
Proof.
  intros r job run.
  apply (Reconcile_filesystem_after_bound pkg r request [] (backup "fs-pvc")
           (cluster "some-name") plan "cluster1-pxc-0" fsStorage).
  - split; [|split; [reflexivity | split; [reflexivity | vm_compute; reflexivity]]].
    split; [reflexivity|]. exists [cluster "some-name"]. split; reflexivity.
  - reflexivity.
Defined.

Lemma Reconcile_owner_failed_witness :
  exists e,
    exec (Reconcile pkgWithoutOwner (reconciler standard) request) [] =
      (Returned (noResult, Some e),
       [EvSelectNode (backup "fs-pvc"); EvListClusters "pxc"; fetched])
    /\ e = Errorf "setControllerReference: %v" [ArgError noKind].
Proof.
  apply (Reconcile_owner_failed pkgWithoutOwner (reconciler standard) request []
           (backup "fs-pvc") (cluster "some-name") plan "cluster1-pxc-0" fsStorage
           noKind).
  - split; [|split; [reflexivity | split; [reflexivity | vm_compute; reflexivity]]].
    split; [reflexivity|]. exists [cluster "some-name"]. split; reflexivity.
  - intros _. now exists "standard".
  - reflexivity.
Defined.

(** The clusters of the scenario have their claim templates. *)
Lemma standard_listsTemplates : listsTemplates standard.
Proof.
  intros h ns items [= <-]. constructor; [|constructor].
  intros bcp name st [= <-] Hst Htype. cbn in Hst. unfold storages in Hst.
  destruct (decide (name = "fs-pvc")) as [->|Hfs];
    [|destruct (decide (name = "s3-us")) as [->|Hs3]];
    simplify_map_eq; try discriminate.
  now exists "standard".
Qed.

Lemma Reconcile_returns_witness :
  exists res, fst (exec (Reconcile pkg (reconciler standard) request) []) = Returned res.
Proof.
  apply (Reconcile_returns pkg (reconciler standard) request []).
  exact standard_listsTemplates.
Defined.
End MoreRuns.
